(* ===== verification/_CoqProject ===== *)
-Q . S2P
Prelude.v
PyStr.v
PyHash.v
PyBytes.v
PyVal.v
FileSystem.v
Script.v
Policy.v
Origin.v
Decision.v
CheckLicense.v
Utils.v
Logging.v
Repository.v
Example.v
Settings.v
Integration.v
