(* ===== verification/Prelude.v ===== *)
(** * A verification development for cline_project_template

    The repository is a layered project template.  Its one component
    with real decision logic is the license-policy enforcer
    [src/scripts/check_license.py], run as a pre-commit check: it loads
    a policy, fingerprints [LICENSE], asks [git] for the origin and
    either passes, fails, or moves the license to a backup and fails.
    The package [src/src/cline_project_template/] holds the template
    pieces: a recursive dictionary merge and a logger factory
    ([shared/utils.py]), an in-memory repository ([infrastructure/
    db_gateway.py]), a frozen entity and its use case ([domain/],
    [application/]), a click command and group ([adapters/cli_adapter.py],
    [cli/main.py]) and a pydantic settings class ([config/settings.py]).
    The CLI adapter calls the use case, which builds the entity; the other
    package parts do not call each other.

    ** How the program is modelled

    Python values become Rocq data: [str] is [string] (8-bit characters,
    so Unicode strings are modelled on their Latin-1 range), [bytes] is
    [list byte], [int] is [Z] (Python integers are unbounded, so no width
    is imposed), parsed TOML/JSON values are the inductive [PyVal.pyval]
    with dictionaries as item lists in insertion order, a dataclass is a
    [Record].  An operation that can raise returns [outcome] ([Ret v] or
    [Raise e] with the exception class [e]); stateful code runs in the
    state-and-exception monad [st S] of this file, which keeps the state
    reached when an exception is raised.  Library code the sources only
    call (tomllib, json, hashlib's SHA-256, the git subprocess, pydantic's
    string parsers) is not re-implemented: it is a record of functions
    ([Script.Platform], [Settings.Parsers]) over which the model is a
    [Section], so every theorem holds for every such library and the
    witnesses instantiate one.

    ** Files, in dependency order, and what they model

    - [Prelude]: this header; [pyexc], [outcome] and [st] with the
      [let?] and [try ... except] notations of [py_scope]; the
      [preserves] toolkit for state invariants; the [pyauto] hint and
      [pysimpl] rewrite databases and the tactics [st_simpl],
      [preserves_tac], [case_code].
    - [PyStr] (Module [PyStr]): the [str] methods the code calls
      ([strip], [lower], [split], [join], [endswith], slices, [str(int)],
      [int(str)], [repr(str)]), from CPython's behaviour.
    - [PyHash]: CPython's [hash] of an [int] ([long_hash]) and of a
      [tuple] ([tuplehash], xxHash-style) on 64-bit words with their
      wrap-around, for the [__hash__] of the frozen dataclass.
    - [PyBytes]: [bytes.replace] (a fuelled scan), [normalize_newlines]
      (check_license.py 82-84), the reference routine [crlf_to_lf], and
      [hexdigest] with its decoder.
    - [PyVal]: parsed values, [dict.get], [isinstance], [str()], [bool()]
      and item assignment [set_item].
    - [FileSystem] (Module [FS]): pathlib's path parsing, the file system
      as a [gmap] from paths to nodes with its well-formedness [fs_wf],
      [Path.exists], [read_bytes], [mkdir(parents=True, exist_ok=True)],
      [shutil.move] and [time.strftime] (CPython 3.11's pathlib/shutil).
    - [Script]: the [world] (files, environment, clock, git answer,
      stderr) threaded by [script := st world], and the [Platform];
      two proof toolkits over it: [keeps_frame] (a script that only
      reads and writes stderr) and [reads_only ks] (a script whose result
      depends on the files at the keys [ks] only), each with its
      structural tactic.
    - [Policy]: [LicensePolicy] and its loaders (lines 69-197).
    - [Origin]: [get_repo_origin_url], [origin_matches_template]
      (lines 200-221).
    - [Decision]: the abstract contract, the decision table of spec
      section 4.4 mapping six facts to a verdict and an exit code.
    - [CheckLicense] (Section [Main] over a platform): [sha256_of_file],
      [backup_and_remove_license], [enforce], [load_policy], [main]
      (lines 87-298) and [run], the process with its exit status
      (lines 301-302).
    - [Utils]: [deep_merge_dicts] (utils.py 34-55).
    - [Logging]: the logging manager's registry as state, [getLogger],
      [get_logger] (utils.py 11-31) and the handler walk of emission.
    - [Repository]: a heap of Python dicts and lists; the
      [ExampleRepository] protocol as a [Class] and
      [InMemoryExampleRepository] as its instance (db_gateway.py 10-33).
    - [Example]: [ExampleEntity], [ExampleUseCase.execute], the click
      command [example] and the group [cli].
    - [Settings]: [AppSettings] loaded from [APP_*] variables with its
      bounds and errors.
    - [Integration]: the integration test that composes
      [ExampleUseCase.execute] with the repository
      ([tests/integration/test_use_case_with_repo.py]).

    ** What the theorems show

    - check_license.py: [CheckLicense.main_refines_decision] proves that
      [run] implements the decision table of [Decision] on every world;
      further theorems show that the file system changes only on a
      violation ([main_fs_unchanged]), that auto-removal never loses the
      license bytes, that a detected template or an absent license
      passes, and that a missing policy exits 2.  Run twice, the check
      converges ([main_remediation_converges]): after a successful
      removal the next run passes, because [mkdir] and [shutil.move]
      never change what the policy loaders read.  The verdict does not
      depend on the checkout's line ends
      ([main_crlf_checkout_same_status]: a license checked out with CR
      LF gives the status of its LF text).  Backup paths are injective
      in the time ([backup_path_inj]).  [PyBytes] proves the
      normalisation equal to its one-pass reference and characterises
      the inputs on which it is idempotent; [Policy] gives the field
      conversions and defaults of a policy table, and [Origin] that one
      trailing [.git] never changes whether an origin is a template
      repository.
    - check_license.py, its interface: the process exits with 0, 1 or 2
      only ([run_exit_status]), and a failing status always ends with the
      message that belongs to it ([main_failure_explained]).
    - the package: lookup and key order of [deep_merge_dicts]; what
      [get_logger] returns and configures, how many times a record is
      written, and, by induction on [rtc lstep], that no sequence of calls
      gives a logger a second handler; that [save] stores the caller's
      object itself and [all] returns a fresh list; the composition of the
      use case with the repository; the line the CLI prints and its usage
      errors; the bounds, the defaults and the missing-field error of the
      settings.
    - the findings of the manifest are theorems too: newline
      normalisation is idempotent exactly on inputs without CR CR LF, a
      blank environment fingerprint disables the check, an empty
      CLINE_LICENSE_AUTO_REMOVE disables auto-removal, a policy-less run
      exits 2 while a policy file of the wrong shape crashes with status
      1, a second removal within the same second overwrites the first
      backup, [get_logger] on a nested name writes a record twice, a
      negative [ID] is read as an option.

    ** Fuel and bounds

    [PyBytes.replace_scan] takes [length s] rounds: each round consumes
    at least one element, so the fuel never runs out:
    [replace_scan_fuel] proves that any fuel of at least [length s]
    gives the same result, and [normalize_newlines_crlf_to_lf] that the
    result is the structural [crlf_to_lf].  Timestamps are valid
    [struct tm] values ([FS.tm_valid]); the two-digit fields are checked
    on all of [0..99] by evaluation ([FS.pad2_decode]).  The
    recursive merge, the path parser and the heap operations are
    structural and need no fuel.

    Python integers are unbounded and are kept as [Z]; the one place the
    program's behaviour depends on a machine width is [hash], whose
    [Py_uhash_t] arithmetic is written modulo [2^64] in [PyHash] and
    checked against CPython 3.11 on concrete tuples
    ([PyHash.tuple_hash_cpython]).

    ** Not modelled

    The package marker modules (no code); the text of messages, help
    pages and log lines (the model records which diagnostic is written,
    not its wording); the internals of tomllib, json, SHA-256, git and
    pydantic's parsers (parameters, see above); pydantic's [.env]
    reader, which [AppSettings] does not enable; the hash of a [str]
    (SipHash under a random per-process key, a parameter); concurrency (the script
    and the package are single-threaded). *)

From stdpp Require Export base list gmap strings.
From Stdlib Require Export ZArith Lia Ascii Strings.Byte.

(** ** Python exceptions and the [outcome] monad *)

(** The exception classes the modelled code can raise or catch. *)
Inductive pyexc :=
  | FileNotFoundError
  | IsADirectoryError
  | NotADirectoryError
  | FileExistsError
  | PermissionError
  | AttributeError
  | ValueError
  | ShutilError.

#[export] Instance pyexc_eq_dec : EqDecision pyexc.
Proof. solve_decision. Qed.

(** A computation of the Python code: it returns a value or raises. *)
Inductive outcome (A : Type) :=
  | Ret (a : A)
  | Raise (e : pyexc).
Arguments Ret {A} a.
Arguments Raise {A} e.

#[export] Instance outcome_ret : MRet outcome := @Ret.
#[export] Instance outcome_bind : MBind outcome :=
  fun A B (f : A -> outcome B) (c : outcome A) =>
    match c with Ret a => f a | Raise e => Raise e end.

(** A computation on a state [S] that may raise.  The state reached at
    the raise is kept, as Python keeps the side effects done before an
    exception. *)
Definition st (S A : Type) : Type := S -> outcome A * S.

#[export] Instance st_ret {S} : MRet (st S) := fun A a s => (Ret a, s).
#[export] Instance st_bind {S} : MBind (st S) :=
  fun A B (f : A -> st S B) (c : st S A) s =>
    match c s with (Ret a, s') => f a s' | (Raise e, s') => (Raise e, s') end.

Definition st_raise {S A} (e : pyexc) : st S A := fun s => (Raise e, s).
Definition st_get {S} : st S S := fun s => (Ret s, s).
Definition st_put {S} (s : S) : st S unit := fun _ => (Ret tt, s).
Definition st_lift {S A} (o : outcome A) : st S A := fun s => (o, s).

(** [try: c except Exception as e: h e], for both kinds of computation. *)
Class TryExcept (M : Type -> Type) :=
  try_except : forall {A}, M A -> (pyexc -> M A) -> M A.

#[export] Instance outcome_try : TryExcept outcome :=
  fun A c h => match c with Ret a => Ret a | Raise e => h e end.
#[export] Instance st_try {S} : TryExcept (st S) :=
  fun A c h s => match c s with (Ret a, s') => (Ret a, s') | (Raise e, s') => h e s' end.

Declare Scope py_scope.
Delimit Scope py_scope with py.
Notation "'let?' x ':=' c 'in' k" := (mbind (fun x => k) c)
  (at level 10, x name, c at level 100, k at level 200) : py_scope.
Notation "'try' c 'except' e => h" := (try_except c (fun e => h))
  (at level 10, c at level 100, e name, h at level 200) : py_scope.
Open Scope py_scope.

(** Python's [a or b] on values whose falsy case is [None]. *)
Definition or_else {A} (a : option A) (b : option A) : option A :=
  match a with Some x => Some x | None => b end.
Notation "a '||?' b" := (or_else a b) (at level 50, left associativity) : py_scope.

(** ** Shared lemmas *)

Create HintDb pyauto discriminated.
Create Rewrite HintDb pysimpl.

Lemma bind_Ret {A B} (a : A) (f : A -> outcome B) :
  (let? x := Ret a in f x) = f a.
Proof. reflexivity. Qed.

Lemma bind_Raise {A B} e (f : A -> outcome B) :
  (let? x := Raise e in f x) = Raise e.
Proof. reflexivity. Qed.

Lemma bind_eq_Ret {A B} (c : outcome A) (f : A -> outcome B) b :
  (let? x := c in f x) = Ret b -> exists a, c = Ret a /\ f a = Ret b.
Proof. destruct c; simpl; [eauto | discriminate]. Qed.

Lemma or_else_Some_l {A} (a : A) b : (Some a ||? b) = Some a.
Proof. reflexivity. Qed.

Lemma or_else_None_l {A} (b : option A) : (None ||? b) = b.
Proof. reflexivity. Qed.

#[export] Hint Rewrite @bind_Ret @bind_Raise @or_else_Some_l @or_else_None_l : pysimpl.

(** A filter that rejects every element is empty. *)
Lemma filter_all_false {A : Type} (f : A -> bool) (l : list A) :
  (forall x, In x l -> f x = false) -> List.filter f l = [].
Proof.
  induction l as [|x l IH]; intros H; [done|]. simpl. rewrite H by (by left).
  apply IH. intros y Hy. apply H. by right.
Qed.

(** [existsb] over a list is [true] exactly when some element passes. *)
Lemma existsb_true_iff {A} (f : A -> bool) (l : list A) :
  existsb f l = true <-> exists x, In x l /\ f x = true.
Proof. apply existsb_exists. Qed.

(** Boolean tests of the code become propositions. *)
Ltac bool_to_prop :=
  repeat match goal with
  | H : (_ && _)%bool = true |- _ => apply andb_prop in H as [? ?]
  | H : (_ || _)%bool = false |- _ => apply orb_false_elim in H as [? ?]
  | H : negb _ = true |- _ => apply negb_true_iff in H
  | H : negb _ = false |- _ => apply negb_false_iff in H
  end.

Lemma st_bind_run {S A B} (c : st S A) (k : A -> st S B) s :
  (c ≫= k) s = match c s with (Ret a, s') => k a s' | (Raise e, s') => (Raise e, s') end.
Proof. reflexivity. Qed.

Lemma st_get_bind_run {S B} (k : S -> st S B) s : (st_get ≫= k) s = k s s.
Proof. reflexivity. Qed.

(** Unfold the state-and-exception monad's combinators. *)
Ltac st_simpl :=
  unfold mbind, mret, try_except, st_bind, st_ret, st_try, st_get, st_put, st_lift,
    st_raise in *;
  cbv beta iota in *.

(** ** Invariants of stateful computations *)

(** [c] keeps [P] true of the state, whether it returns or raises. *)
Definition preserves {S A} (P : S -> Prop) (c : st S A) : Prop :=
  forall s, P s -> P (c s).2.

Section Preserves.
Context {S : Type} (P : S -> Prop).

Lemma preserves_ret {A} (a : A) : preserves P (mret a).
Proof. by intros s. Qed.

Lemma preserves_raise {A} e : preserves P (@st_raise S A e).
Proof. by intros s. Qed.

Lemma preserves_lift {A} (o : outcome A) : preserves P (@st_lift S A o).
Proof. by intros s. Qed.

Lemma preserves_put s' : P s' -> preserves P (st_put s').
Proof. by intros H s. Qed.

Lemma preserves_bind {A B} (c : st S A) (f : A -> st S B) :
  preserves P c -> (forall a, preserves P (f a)) -> preserves P (c ≫= f).
Proof.
  intros Hc Hf s Hs. unfold mbind, st_bind.
  specialize (Hc s Hs). destruct (c s) as [[a|e] s']; simpl in *; [by apply Hf|done].
Qed.

(** A computation that reads the state first may rely on [P] of it. *)
Lemma preserves_get_bind {B} (f : S -> st S B) :
  (forall s, P s -> preserves P (f s)) -> preserves P (st_get ≫= f).
Proof. intros Hf s Hs. by apply Hf. Qed.

Lemma preserves_try {A} (c : st S A) (h : pyexc -> st S A) :
  preserves P c -> (forall e, preserves P (h e)) -> preserves P (try c except e => h e).
Proof.
  intros Hc Hh s Hs. unfold try_except, st_try.
  specialize (Hc s Hs). destruct (c s) as [[a|e] s']; simpl in *; [done|by apply Hh].
Qed.

Lemma preserves_if {A} (b : bool) (c1 c2 : st S A) :
  preserves P c1 -> preserves P c2 -> preserves P (if b then c1 else c2).
Proof. by destruct b. Qed.

End Preserves.

#[export] Hint Resolve preserves_ret preserves_raise preserves_lift preserves_bind
  preserves_get_bind preserves_try preserves_if : pyauto.

(** Prove [preserves P c] by the structure of [c]. *)
Ltac preserves_step :=
  lazymatch goal with
  | |- preserves _ (mbind _ st_get) => apply preserves_get_bind; intros ? ?
  | |- preserves _ (mbind _ _) => apply preserves_bind; [|intros ?]
  | |- preserves _ (try_except _ _) => apply preserves_try; [|intros ?]
  | |- preserves _ (match ?x with _ => _ end) => destruct x
  | |- preserves _ _ => solve [eauto 3 with pyauto]
  end.

Ltac preserves_tac := repeat preserves_step.

(** Case on every [if] and [match] of the goal, remembering the tests. *)
Ltac case_code :=
  repeat match goal with
  | |- context [if ?b then _ else _] =>
      lazymatch b with context [if _ then _ else _] => fail | _ => destruct b eqn:? end
  | |- context [match ?o with Some _ => _ | None => _ end] =>
      destruct o eqn:?
  end.
