(* ===== verification/PyStr.v ===== *)
(** * Python [str] methods used by the repository

    The script [src/scripts/check_license.py] calls [str.strip],
    [str.lower], [str.split(",")], [str.endswith(".git")], the slice
    [u[:-4]], [str(x)] on parsed values and, through [str] of containers,
    [repr] of strings.  They are library methods, modelled here from
    CPython's behaviour on characters 0..255 (a Rocq [ascii]). *)

From S2P Require Import Prelude.
From Stdlib Require Import DecimalString DecimalZ.
Local Open Scope string_scope.

Module PyStr.

(** ** Character classes *)

Definition code (c : ascii) : nat := Ascii.nat_of_ascii c.

(** [str.isspace] on U+0000..U+00FF: \t \n \v \f \r, the four
    information separators U+001C..U+001F, space, U+0085 and U+00A0. *)
Definition is_space (c : ascii) : bool :=
  let n := code c in
  (((9 <=? n) && (n <=? 13)) || ((28 <=? n) && (n <=? 32)) || (n =? 133) || (n =? 160))%nat.

(** [str.lower] on U+0000..U+00FF: A..Z and the Latin-1 capitals
    U+00C0..U+00DE except the multiplication sign U+00D7. *)
Definition lower_char (c : ascii) : ascii :=
  let n := code c in
  if (((65 <=? n) && (n <=? 90)) || ((192 <=? n) && (n <=? 222) && negb (n =? 215)))%nat
  then Ascii.ascii_of_nat (n + 32) else c.

(** ** Methods *)

Fixpoint lstrip (s : string) : string :=
  match s with
  | EmptyString => EmptyString
  | String c s' => if is_space c then lstrip s' else s
  end.

Fixpoint rstrip (s : string) : string :=
  match s with
  | EmptyString => EmptyString
  | String c s' =>
      match rstrip s' with
      | EmptyString => if is_space c then EmptyString else String c EmptyString
      | r => String c r
      end
  end.

(** [s.strip()] *)
Definition strip (s : string) : string := rstrip (lstrip s).

Fixpoint lower (s : string) : string :=
  match s with
  | EmptyString => EmptyString
  | String c s' => String (lower_char c) (lower s')
  end.

(** [s.split(sep)] for a one-character separator: ["" -> [""]],
    empty fields are kept. *)
Fixpoint split (sep : ascii) (s : string) : list string :=
  match s with
  | EmptyString => [EmptyString]
  | String c s' =>
      match split sep s' with
      | [] => []
      | w :: ws => if decide (c = sep) then EmptyString :: w :: ws else String c w :: ws
      end
  end.

(** [sep.join(l)] *)
Fixpoint join (sep : string) (l : list string) : string :=
  match l with
  | [] => EmptyString
  | [w] => w
  | w :: ws => w ++ sep ++ join sep ws
  end.

(** [s.endswith(suf)] *)
Definition endswith (suf s : string) : bool :=
  let n := String.length s in
  let m := String.length suf in
  (m <=? n)%nat && bool_decide (String.substring (n - m) m s = suf).

(** [s[:-k]] for [k > 0]: everything but the last [k] characters. *)
Definition drop_last (k : nat) (s : string) : string :=
  String.substring 0 (String.length s - k) s.

(** [c in s] *)
Fixpoint contains_char (c : ascii) (s : string) : bool :=
  match s with
  | EmptyString => false
  | String d s' => bool_decide (d = c) || contains_char c s'
  end.

(** [str(n)] for an [int]. *)
Definition str_of_Z (z : Z) : string := NilZero.string_of_int (Z.to_int z).

(** ** [repr] of a string *)

Definition hex_digit (n : nat) : ascii :=
  if (n <? 10)%nat then Ascii.ascii_of_nat (48 + n) else Ascii.ascii_of_nat (87 + n).

Definition backslash : ascii := Ascii.ascii_of_nat 92.
Definition squote : ascii := Ascii.ascii_of_nat 39.
Definition dquote : ascii := Ascii.ascii_of_nat 34.

(** Not [str.isprintable] on U+0000..U+00FF. *)
Definition unprintable (c : ascii) : bool :=
  let n := code c in ((n <? 32) || ((127 <=? n) && (n <=? 160)) || (n =? 173))%nat.

Definition repr_char (q c : ascii) : string :=
  let n := code c in
  if bool_decide (c = q) || bool_decide (c = backslash) then String backslash (String c EmptyString)
  else if (n =? 9)%nat then String backslash "t"
  else if (n =? 10)%nat then String backslash "n"
  else if (n =? 13)%nat then String backslash "r"
  else if unprintable c then
    String backslash (String "x" (String (hex_digit (n / 16)) (String (hex_digit (n mod 16)) EmptyString)))
  else String c EmptyString.

Fixpoint repr_body (q : ascii) (s : string) : string :=
  match s with
  | EmptyString => EmptyString
  | String c s' => repr_char q c ++ repr_body q s'
  end.

(** CPython quotes with a single quote unless the text has a single
    quote and no double quote. *)
Definition repr_quote (s : string) : ascii :=
  if contains_char squote s && negb (contains_char dquote s) then dquote else squote.

Definition repr (s : string) : string :=
  let q := repr_quote s in String q (repr_body q s ++ String q EmptyString).

(** ** [int(s)] for a string [s] *)

Definition is_digit (c : ascii) : bool := ((48 <=? code c) && (code c <=? 57))%nat.

(** The digits of [int(s)]: at least one, an underscore only between two
    digits. *)
Fixpoint underscores_ok (after_digit : bool) (s : string) : bool :=
  match s with
  | EmptyString => after_digit
  | String c s' =>
      if is_digit c then underscores_ok true s'
      else if bool_decide (c = "_"%char) && after_digit then underscores_ok false s'
      else false
  end.

Fixpoint remove_underscores (s : string) : string :=
  match s with
  | EmptyString => EmptyString
  | String c s' => if bool_decide (c = "_"%char) then remove_underscores s' else String c (remove_underscores s')
  end.

(** [int(s)]: blanks around, one optional sign, decimal digits with
    single underscores between them; [None] where Python raises
    [ValueError]. *)
Definition int_of_str (s : string) : option Z :=
  let t := strip s in
  let '(neg, body) := match t with
                      | String "+" b => (false, b)
                      | String "-" b => (true, b)
                      | _ => (false, t)
                      end in
  if underscores_ok false body then
    match NilZero.uint_of_string (remove_underscores body) with
    | Some u => Some (Z.of_int (if neg then Decimal.Neg u else Decimal.Pos u))
    | None => None
    end
  else None.

(** Characters [repr] writes as they are. *)
Definition plain_char (c : ascii) : bool :=
  negb (bool_decide (c = squote)) && negb (bool_decide (c = dquote)) &&
  negb (bool_decide (c = backslash)) && negb (unprintable c).

(** ** Lemmas *)

(** stdpp declares [String.append] [simpl never]; these are its equations. *)
Lemma append_String c s1 s2 : String c s1 ++ s2 = String c (s1 ++ s2).
Proof. reflexivity. Qed.

Lemma append_Empty s : "" ++ s = s.
Proof. reflexivity. Qed.

#[export] Hint Rewrite append_String append_Empty : pysimpl.

Lemma length_append s1 s2 :
  String.length (s1 ++ s2) = (String.length s1 + String.length s2)%nat.
Proof. induction s1 as [|c s1 IH]; simpl; [done|]. by rewrite IH. Qed.

(** Equal concatenations split at a part of known length. *)
Lemma append_eq_length_inv s1 s2 t1 t2 :
  String.length s1 = String.length s2 -> s1 ++ t1 = s2 ++ t2 -> s1 = s2 /\ t1 = t2.
Proof.
  revert s2. induction s1 as [|c s1 IH]; intros [|c' s2] Hl; simpl in Hl; try done.
  rewrite !append_String. intros [= -> E]. destruct (IH s2 ltac:(lia) E) as [-> ->]. done.
Qed.

Lemma append_eq_length_inv_r s1 s2 t1 t2 :
  String.length t1 = String.length t2 -> s1 ++ t1 = s2 ++ t2 -> s1 = s2 /\ t1 = t2.
Proof.
  intros Ht E. apply append_eq_length_inv; [|done].
  apply (f_equal String.length) in E. rewrite !length_append in E. lia.
Qed.

Lemma lstrip_idem s : lstrip (lstrip s) = lstrip s.
Proof.
  induction s as [|c s IH]; simpl; [done|].
  destruct (is_space c) eqn:E; [done|]. simpl. by rewrite E.
Qed.

Lemma rstrip_idem s : rstrip (rstrip s) = rstrip s.
Proof.
  induction s as [|c s IH]; [done|]. cbn [rstrip].
  destruct (rstrip s) as [|d r].
  - destruct (is_space c) eqn:Ec; cbn [rstrip]; [done|]. by rewrite Ec.
  - change (rstrip (String c (String d r))) with
      (match rstrip (String d r) with
       | EmptyString => if is_space c then EmptyString else String c EmptyString
       | r' => String c r' end).
    by rewrite IH.
Qed.

(** The first character of an [lstrip]ped string is not a space. *)
Lemma lstrip_head s c s' : lstrip s = String c s' -> is_space c = false.
Proof.
  induction s as [|d s IH]; simpl; [discriminate|].
  destruct (is_space d) eqn:E; [apply IH|]. by intros [= <- _].
Qed.

(** [rstrip] keeps the head of a string that does not reduce to "". *)
Lemma rstrip_cons_nonempty c s :
  rstrip (String c s) <> EmptyString -> exists r, rstrip (String c s) = String c r.
Proof.
  simpl. destruct (rstrip s); [destruct (is_space c)|]; eauto; done.
Qed.

Lemma rstrip_lstrip_comm_head s :
  lstrip (rstrip (lstrip s)) = rstrip (lstrip s).
Proof.
  destruct (lstrip s) as [|c s'] eqn:E; [done|].
  pose proof (lstrip_head _ _ _ E) as Hc.
  destruct (decide (rstrip (String c s') = EmptyString)) as [->|Hne]; [done|].
  destruct (rstrip_cons_nonempty _ _ Hne) as [r ->]. simpl. by rewrite Hc.
Qed.

(** [strip] is idempotent. *)
Lemma strip_idem s : strip (strip s) = strip s.
Proof. unfold strip. by rewrite rstrip_lstrip_comm_head, rstrip_idem. Qed.

(** [split] always returns at least one field. *)
Lemma split_not_nil sep s : split sep s <> [].
Proof.
  induction s as [|c s IH]; simpl; [done|].
  destruct (split sep s); [done|]. by case_decide.
Qed.

(** [sep.join(s.split(sep)) == s]. *)
Lemma join_split sep s : join (String sep EmptyString) (split sep s) = s.
Proof.
  induction s as [|c s IH]; simpl; [done|].
  pose proof (split_not_nil sep s) as Hne.
  destruct (split sep s) as [|w ws]; [done|].
  rewrite <- IH. case_decide as Hc; [subst c|]; [done|]. by destruct ws.
Qed.

(** No field of [s.split(sep)] contains [sep]. *)
Lemma split_no_sep sep s w : In w (split sep s) -> contains_char sep w = false.
Proof.
  revert w. induction s as [|c s IH]; simpl; intros w Hw.
  - destruct Hw as [<-|[]]; done.
  - destruct (split sep s) as [|w0 ws] eqn:E; [done|]. case_decide.
    + destruct Hw as [<-|Hw]; [done|]. by apply IH.
    + destruct Hw as [<-|Hw]; [|by apply IH; right].
      simpl. rewrite bool_decide_eq_false_2 by done. apply IH; left; done.
Qed.

Lemma string_app_assoc s1 s2 s3 : s1 ++ s2 ++ s3 = (s1 ++ s2) ++ s3.
Proof. induction s1 as [|c s1 IH]; [done|]. by rewrite !append_String, IH. Qed.

Lemma app_nil_r_string s : s ++ "" = s.
Proof. induction s as [|c s IH]; [done|]. by rewrite append_String, IH. Qed.

(** A separator at the front opens an empty field. *)
Lemma split_sep sep s : split sep (String sep s) = "" :: split sep s.
Proof.
  simpl. destruct (split sep s) eqn:E; [by destruct (split_not_nil sep s)|]. by case_decide.
Qed.

(** A prefix without the separator extends the first field. *)
Lemma split_app_no_sep sep w s :
  contains_char sep w = false ->
  split sep (w ++ s) = (w ++ hd "" (split sep s)) :: tl (split sep s).
Proof.
  intros Hw. induction w as [|c w IH].
  - simpl. destruct (split sep s) eqn:E; [by destruct (split_not_nil sep s)|done].
  - simpl in Hw. apply orb_false_iff in Hw as [Hc Hw]. apply bool_decide_eq_false_1 in Hc.
    rewrite append_String. simpl. rewrite (IH Hw). by case_decide.
Qed.

(** [split] inverts [join] on fields free of the separator: the parse of
    the string a join prints. *)
Lemma split_join sep ps :
  ps <> [] -> Forall (fun w => contains_char sep w = false) ps ->
  split sep (join (String sep EmptyString) ps) = ps.
Proof.
  intros Hne Hps. induction Hps as [|w ws Hw Hws IH]; [done|].
  destruct ws as [|w' ws].
  - simpl. rewrite <- (app_nil_r_string w) at 1. rewrite split_app_no_sep by done.
    simpl. by rewrite app_nil_r_string.
  - change (join _ (w :: w' :: ws)) with (w ++ String sep (join (String sep EmptyString) (w' :: ws))).
    rewrite split_app_no_sep, split_sep, IH by done. simpl. by rewrite app_nil_r_string.
Qed.

Lemma split_single sep w : contains_char sep w = false -> split sep w = [w].
Proof.
  intros Hw. rewrite <- (app_nil_r_string w) at 1. rewrite split_app_no_sep by done.
  simpl. by rewrite app_nil_r_string.
Qed.

Lemma contains_char_app c s t :
  contains_char c (s ++ t) = contains_char c s || contains_char c t.
Proof. induction s as [|d s IH]; [done|]. rewrite append_String. simpl. by rewrite IH, orb_assoc. Qed.

(** [str] of an integer holds digits and a sign, never a slash. *)
Lemma str_of_Z_no_slash z : contains_char "/" (str_of_Z z) = false.
Proof.
  assert (Hu : forall d, contains_char "/" (DecimalString.NilEmpty.string_of_uint d) = false)
    by (induction d; simpl; rewrite ?IHd; done).
  unfold str_of_Z, NilZero.string_of_int, NilZero.string_of_uint.
  destruct (Z.to_int z) as [d|d]; destruct d; simpl; rewrite ?Hu; done.
Qed.

Lemma join_app sep l1 l2 :
  l1 <> [] -> l2 <> [] -> join sep (l1 ++ l2)%list = join sep l1 ++ sep ++ join sep l2.
Proof.
  intros H1 H2. induction l1 as [|w [|w' l1] IH]; [done| |].
  - simpl. by destruct l2.
  - specialize (IH ltac:(done)). cbn [app] in IH |- *.
    change (join sep (w :: w' :: (l1 ++ l2)%list)) with (w ++ sep ++ join sep (w' :: (l1 ++ l2)%list)).
    rewrite IH. change (join sep (w :: w' :: l1)) with (w ++ sep ++ join sep (w' :: l1)).
    rewrite <- !string_app_assoc. done.
Qed.

Lemma strip_no_space s : forallb (fun c => negb (is_space c)) (String.list_ascii_of_string s) = true -> strip s = s.
Proof.
  intros H. unfold strip. assert (Hl : lstrip s = s).
  { destruct s as [|c s]; [done|]. cbn [String.list_ascii_of_string forallb] in H; simpl. apply andb_prop in H as [Hc _].
    apply negb_true_iff in Hc. by rewrite Hc. }
  rewrite Hl. clear Hl. induction s as [|c s IH]; [done|]. cbn [String.list_ascii_of_string forallb] in H; simpl.
  apply andb_prop in H as [Hc H]. apply negb_true_iff in Hc. rewrite IH by done.
  destruct s; [by rewrite Hc|done].
Qed.

(** [repr] of a string of plain characters is the string in single
    quotes. *)
Lemma repr_plain s :
  forallb plain_char (String.list_ascii_of_string s) = true -> repr s = String squote (s ++ String squote EmptyString).
Proof.
  intros H. unfold repr.
  assert (Hq : repr_quote s = squote).
  { unfold repr_quote. enough (contains_char squote s = false) as -> by done.
    induction s as [|c s IH]; [done|]. cbn [String.list_ascii_of_string forallb] in H; simpl. apply andb_prop in H as [Hc H].
    unfold plain_char in Hc. rewrite IH by done. apply orb_false_intro; [|done].
    apply bool_decide_eq_false_2. intros ->. by rewrite bool_decide_eq_true_2 in Hc. }
  rewrite Hq. clear Hq. f_equal. f_equal.
  induction s as [|c s IH]; [done|]. cbn [String.list_ascii_of_string forallb] in H.
  apply andb_prop in H as [Hc H]. cbn [repr_body]. rewrite IH by done.
  unfold plain_char in Hc. rewrite !andb_true_iff in Hc. destruct Hc as [[[H1 _] H3] H4].
  apply negb_true_iff, bool_decide_eq_false in H1, H3. apply negb_true_iff in H4.
  assert (Hge : (32 <= code c)%nat).
  { unfold unprintable in H4. apply orb_false_iff in H4 as [H4 _]. apply orb_false_iff in H4 as [H4 _].
    apply Nat.ltb_ge in H4. lia. }
  unfold repr_char. rewrite (bool_decide_eq_false_2 (c = squote)), (bool_decide_eq_false_2 (c = backslash))
    by done. cbn [orb]. rewrite H4, !(proj2 (Nat.eqb_neq _ _)) by lia. done.
Qed.

(** What [int(s)] needs of the text [str] gives a number. *)
Lemma uint_text u :
  let t := NilZero.string_of_uint u in
  forallb (fun c => negb (is_space c)) (String.list_ascii_of_string t) = true /\
  underscores_ok false t = true /\ remove_underscores t = t /\
  (exists u', NilZero.uint_of_string t = Some u' /\ Z.of_uint u' = Z.of_uint u) /\
  (exists c r, t = String c r /\ is_digit c = true).
Proof.
  assert (Hsp : forall v, forallb (fun c => negb (is_space c))
                            (String.list_ascii_of_string (DecimalString.NilEmpty.string_of_uint v)) = true)
    by (induction v; simpl; rewrite ?IHv; done).
  assert (Hus : forall v, underscores_ok true (DecimalString.NilEmpty.string_of_uint v) = true)
    by (induction v; simpl; rewrite ?IHv; done).
  assert (Hrm : forall v, remove_underscores (DecimalString.NilEmpty.string_of_uint v)
                          = DecimalString.NilEmpty.string_of_uint v)
    by (induction v; simpl; rewrite ?IHv; done).
  assert (Hparse : exists u', NilZero.uint_of_string (NilZero.string_of_uint u) = Some u' /\
                              Z.of_uint u' = Z.of_uint u).
  { destruct (NilZero.usu_gen u) as [H|H]; [by exists u|exists Decimal.zero; split; [done|]].
    destruct u; [reflexivity|..]; rewrite NilZero.usu in H by discriminate; by injection H as <-. }
  split_and!; [| | |exact Hparse|]; clear Hparse;
    destruct u; simpl; rewrite ?Hsp, ?Hus, ?Hrm; try done; by eexists _, _.
Qed.

(** [int(str(z)) == z] *)
Lemma int_of_str_of_Z z : int_of_str (str_of_Z z) = Some z.
Proof.
  unfold str_of_Z. rewrite <- (DecimalZ.of_to z) at 2.
  destruct (Z.to_int z) as [u|u]; unfold NilZero.string_of_int;
    destruct (uint_text u) as (Hsp & Hus & Hrm & (u' & Hu' & Hz) & (c & r & Ht & Hc)).
  - unfold int_of_str. rewrite strip_no_space by done. rewrite Ht in *.
    assert (Hsign : c <> "+"%char /\ c <> "-"%char) by (split; intros ->; discriminate).
    destruct Hsign as [Hp Hm].
    destruct c as [[] [] [] [] [] [] [] []]; try discriminate;
      cbn iota beta; rewrite Hus, Hrm, Hu'; simpl; f_equal; done.
  - unfold int_of_str.
    rewrite strip_no_space by (cbn [String.list_ascii_of_string forallb]; by rewrite Hsp).
    cbn iota beta. rewrite Hus, Hrm, Hu'. cbn [Z.of_int]. by rewrite Hz.
Qed.

Lemma lstrip_suffix s : exists a, s = a ++ lstrip s.
Proof.
  induction s as [|c s [a Ha]]; [by exists ""|]. simpl.
  destruct (is_space c); [exists (String c a); rewrite append_String; by f_equal | by exists ""].
Qed.

Lemma rstrip_length s : String.length (rstrip s) <= String.length s.
Proof.
  induction s as [|c s IH]; simpl; [lia|].
  destruct (rstrip s); [destruct (is_space c); simpl; lia | simpl in *; lia].
Qed.

(** A stripped string is unchanged by [lstrip] and by [rstrip]. *)
Lemma strip_fixed s : strip s = s -> lstrip s = s /\ rstrip s = s.
Proof.
  unfold strip. intros H. destruct (lstrip_suffix s) as [a Ha].
  assert (lstrip s = s) as Hl.
  { pose proof (rstrip_length (lstrip s)) as Hr. rewrite H in Hr.
    rewrite Ha in Hr at 1. rewrite length_append in Hr.
    destruct a; simpl in Hr; [|lia]. done. }
  rewrite Hl in H. done.
Qed.

Lemma lstrip_app s1 s2 : lstrip s1 <> "" -> lstrip (s1 ++ s2) = lstrip s1 ++ s2.
Proof.
  induction s1 as [|c s1 IH]; [done|]. rewrite append_String. simpl.
  destruct (is_space c); [apply IH|done].
Qed.

Lemma rstrip_app s1 s2 : rstrip s2 <> "" -> rstrip (s1 ++ s2) = s1 ++ rstrip s2.
Proof.
  intros H2. induction s1 as [|c s1 IH]; [done|]. rewrite !append_String. simpl.
  rewrite IH. destruct s1 as [|d s1]; [by destruct (rstrip s2)|done].
Qed.

(** Appending a word without blanks at its ends to a stripped string
    gives a stripped string. *)
Lemma strip_app_stripped s t :
  strip s = s -> lstrip t = t -> rstrip t = t -> t <> "" -> strip (s ++ t) = s ++ t.
Proof.
  intros Hs Hlt Hrt Ht. destruct (strip_fixed s Hs) as [Hl Hr]. unfold strip.
  destruct s as [|c s'].
  - rewrite append_Empty. by rewrite Hlt.
  - rewrite lstrip_app by (by rewrite Hl). rewrite Hl.
    rewrite rstrip_app by (by rewrite Hrt). by rewrite Hrt.
Qed.

#[export] Hint Resolve split_not_nil : pyauto.
#[export] Hint Rewrite strip_idem lstrip_idem rstrip_idem join_split : pysimpl.

End PyStr.
