(* ===== verification/PyHash.v ===== *)
(** * CPython's [hash] for [int] and [tuple] (64-bit builds)

    [@dataclass(frozen=True)] gives [ExampleEntity] a [__hash__] that
    returns [hash((self.id, self.name))]: the tuple hash of CPython 3.8
    and later ([tuplehash] in [Objects/tupleobject.c], an xxHash-style
    loop over the items' hashes) applied to the hash of an [int]
    ([long_hash] in [Objects/longobject.c]: the absolute value modulo the
    Mersenne prime [2^61 - 1], with its sign, [-1] replaced by [-2]).
    [Py_uhash_t] arithmetic is unsigned 64-bit: every sum, product and
    shift is written with its wrap-around ([mod 2^64], [Z.land] with
    [Z.ones 64]); [Py_hash_t] is its signed reading.  The hash of a
    [str] (SipHash with a per-process random key) is not modelled: it is
    a parameter of its users. *)

From S2P Require Import Prelude.
Local Open Scope Z_scope.

Module PyHash.

(** ** Machine words *)

Definition W : Z := 2 ^ 64.

(** [(Py_uhash_t)h]: the unsigned reading of a hash. *)
Definition to_uhash (h : Z) : Z := h mod W.

(** [(Py_hash_t)u]: the signed reading of an unsigned word. *)
Definition to_hash (u : Z) : Z := if u <? 2 ^ 63 then u else u - W.

(** A [Py_hash_t] that is not the error value [-1]. *)
Definition valid_hash (h : Z) : Prop := - 2 ^ 63 <= h < 2 ^ 63 /\ h <> -1.

#[export] Instance valid_hash_dec h : Decision (valid_hash h).
Proof. unfold valid_hash. apply _. Defined.

(** ** [long_hash] *)

Definition HASH_MODULUS : Z := 2 ^ 61 - 1.

Definition hash_int (z : Z) : Z :=
  let x := Z.abs z mod HASH_MODULUS in
  let x := if z <? 0 then - x else x in
  if x =? -1 then -2 else x.

(** ** [tuplehash] *)

Definition XXPRIME_1 : Z := 11400714785074694791.
Definition XXPRIME_2 : Z := 14029467366897019727.
Definition XXPRIME_5 : Z := 2870177450012600261.

(** [_PyHASH_XXROTATE]: [(x << 31) | (x >> 33)] on 64 bits. *)
Definition XXROTATE (x : Z) : Z := Z.land (Z.lor (Z.shiftl x 31) (Z.shiftr x 33)) (Z.ones 64).

(** The loop over the items' hashes; [None] is the early [return -1]
    for an item whose hash failed. *)
Fixpoint tuple_loop (acc : Z) (hs : list Z) : option Z :=
  match hs with
  | [] => Some acc
  | h :: hs' =>
      let lane := to_uhash h in
      if lane =? W - 1 then None
      else
        let acc := (acc + lane * XXPRIME_2) mod W in
        let acc := XXROTATE acc in
        tuple_loop ((acc * XXPRIME_1) mod W) hs'
  end.

(** [hash(t)] for a tuple whose items hash to [hs]. *)
Definition tuple_hash (hs : list Z) : Z :=
  match tuple_loop XXPRIME_5 hs with
  | None => -1
  | Some acc =>
      let acc := (acc + Z.lxor (Z.of_nat (length hs)) (Z.lxor XXPRIME_5 3527539)) mod W in
      if acc =? W - 1 then 1546275796 else to_hash acc
  end.

(** ** Lemmas *)

(** The signed reading of an unsigned word is a [Py_hash_t], and it is
    [-1] only for the all-ones word. *)
Lemma to_hash_range u :
  0 <= u < W -> - 2 ^ 63 <= to_hash u < 2 ^ 63 /\ (to_hash u = -1 -> u = W - 1).
Proof. unfold to_hash, W. intros Hu. destruct (Z.ltb_spec u (2 ^ 63)); lia. Qed.

(** A valid hash never reads as the error lane. *)
Lemma to_uhash_valid h : valid_hash h -> to_uhash h <> W - 1.
Proof.
  unfold valid_hash, to_uhash, W. intros [Hr Hn] E.
  destruct (Z.ltb_spec h 0).
  - rewrite <- (Z.mod_unique h (2 ^ 64) (-1) (h + 2 ^ 64)) in E; lia.
  - rewrite Z.mod_small in E; lia.
Qed.

(** The loop runs to its end on valid item hashes. *)
Lemma tuple_loop_valid acc hs : Forall valid_hash hs -> exists acc', tuple_loop acc hs = Some acc'.
Proof.
  revert acc. induction hs as [|h hs IH]; intros acc Hv; [by eexists|].
  inversion Hv as [|? ? Hh Hhs]; subst. simpl.
  rewrite (proj2 (Z.eqb_neq _ _) (to_uhash_valid h Hh)). by apply IH.
Qed.

(** ** Theorems *)

(** The properties of [long_hash]. *)
Lemma hash_int_props z :
  (0 <= z < HASH_MODULUS -> hash_int z = z) /\
  (0 <= z -> hash_int (z + HASH_MODULUS) = hash_int z) /\
  hash_int (-1) = -2 /\
  valid_hash (hash_int z).
Proof.
  unfold hash_int, HASH_MODULUS, valid_hash. split; [|split; [|split]].
  - intros Hz. rewrite Z.abs_eq, Z.mod_small by lia.
    destruct (Z.ltb_spec z 0); [lia|]. destruct (Z.eqb_spec z (-1)); lia.
  - intros Hz. rewrite !Z.abs_eq by lia. rewrite Z.add_mod, Z.mod_same, Z.add_0_r, Z.mod_mod by lia.
    destruct (Z.ltb_spec (z + (2 ^ 61 - 1)) 0), (Z.ltb_spec z 0); try lia; reflexivity.
  - reflexivity.
  - pose proof (Z.mod_pos_bound (Z.abs z) (2 ^ 61 - 1) ltac:(lia)).
    destruct (Z.ltb_spec z 0);
      match goal with |- context [?x =? -1] => destruct (Z.eqb_spec x (-1)) end; lia.
Qed.

(** The hash of a tuple whose items have valid hashes is a valid
    hash: the 64-bit accumulator, read as a signed [Py_hash_t], always
    lies in [[-2^63, 2^63)] and is never the error value [-1] (CPython
    turns an all-ones accumulator into [1546275796]). *)
Theorem tuple_hash_valid hs : Forall valid_hash hs -> valid_hash (tuple_hash hs).
Proof.
  intros Hv. unfold tuple_hash. destruct (tuple_loop_valid XXPRIME_5 hs Hv) as [acc ->].
  set (a := (acc + _) mod W).
  assert (Ha : 0 <= a < W) by (apply Z.mod_pos_bound; unfold W; lia).
  destruct (Z.eqb_spec a (W - 1)) as [_|Hne]; [split; [lia|lia]|].
  destruct (to_hash_range a Ha) as [Hr Hm]. split; [done|]. intros E. by apply Hne, Hm.
Qed.

(** CPython 3.11 on a 64-bit machine: [hash(())] and [hash((1, 2))]. *)
Lemma tuple_hash_cpython :
  tuple_hash [] = 5740354900026072187 /\
  tuple_hash [hash_int 1; hash_int 2] = -3550055125485641917.
Proof. split; vm_compute; reflexivity. Qed.

Lemma tuple_hash_valid_example : valid_hash (tuple_hash [hash_int 42; hash_int (-1)]).
Proof. apply tuple_hash_valid. apply (bool_decide_unpack _). vm_compute. reflexivity. Defined.

End PyHash.
