(* ===== verification/PyBytes.v ===== *)
(** * Bytes: newline normalisation and the hex digest

    [normalize_newlines] of [src/scripts/check_license.py] (lines 82-84)
    is one call of the library method [bytes.replace]; this file models
    that method generically (CPython's left-to-right scan over
    non-overlapping occurrences), the function itself, a direct one-pass
    reference routine proved equal to it, and [hashlib]'s [hexdigest]
    rendering with its decoder. *)

From S2P Require Import Prelude PyStr.
From Stdlib Require Import Strings.Byte.

Module PyBytes.

#[export] Instance byte_eq_dec : EqDecision byte := Byte.byte_eq_dec.

(** ** [bytes.replace] *)

Section Replace.
Context {A : Type} `{EqDecision A}.

(** [s] without the prefix [p], when [s] starts with [p]. *)
Fixpoint strip_prefix (p s : list A) : option (list A) :=
  match p, s with
  | [], _ => Some s
  | x :: p', y :: s' => if decide (x = y) then strip_prefix p' s' else None
  | _ :: _, [] => None
  end.

(** One scan of [s.replace(old, new)] for a non-empty [old]: at each
    position where [old] starts, emit [new] and continue after it.  Every
    round consumes at least one element, so [length s] rounds suffice. *)
Fixpoint replace_scan (fuel : nat) (old new s : list A) : list A :=
  match fuel with
  | O => s
  | S fuel' =>
      match s with
      | [] => []
      | x :: s' =>
          match strip_prefix old s with
          | Some rest => new ++ replace_scan fuel' old new rest
          | None => x :: replace_scan fuel' old new s'
          end
      end
  end.

(** [s.replace(old, new)]; an empty [old] inserts [new] around every
    element, as CPython does. *)
Definition replace (old new s : list A) : list A :=
  match old with
  | [] => new ++ List.concat (map (fun x => x :: new) s)
  | _ => replace_scan (length s) old new s
  end.

Lemma strip_prefix_Some p s r : strip_prefix p s = Some r -> s = p ++ r.
Proof.
  revert s. induction p as [|x p IH]; intros [|y s]; simpl; try congruence.
  case_decide; [|done]. intros Hr. subst. f_equal. by apply IH.
Qed.

(** A non-empty match consumes elements: the rest is shorter. *)
Lemma strip_prefix_shorter p s r : p <> [] -> strip_prefix p s = Some r -> length r < length s.
Proof.
  intros Hp Hs. apply strip_prefix_Some in Hs as ->. destruct p; [done|].
  rewrite length_app. simpl. lia.
Qed.

(** Any fuel at least the length of the input gives the same scan. *)
Lemma replace_scan_fuel old new s n n' :
  old <> [] -> length s <= n -> length s <= n' ->
  replace_scan n old new s = replace_scan n' old new s.
Proof.
  intros Hold. revert s n'. induction n as [|n IH]; intros s n' Hn Hn'.
  - destruct s; [by destruct n'|simpl in Hn; lia].
  - destruct s as [|x s]; [by destruct n'|]. destruct n' as [|n']; [simpl in Hn'; lia|].
    cbn [replace_scan]. destruct (strip_prefix old (x :: s)) as [r|] eqn:E.
    + pose proof (strip_prefix_shorter _ _ _ Hold E). simpl in *. f_equal. apply IH; lia.
    + simpl in *. f_equal. apply IH; lia.
Qed.

End Replace.

(** ** [normalize_newlines] *)

Definition CR : byte := x0d.
Definition LF : byte := x0a.

(** [data.replace(b"\r\n", b"\n")] *)
Definition normalize_newlines (data : list byte) : list byte :=
  replace [CR; LF] [LF] data.

(** The reference routine: one pass that drops the CR of each CR LF pair. *)
Fixpoint crlf_to_lf (s : list byte) : list byte :=
  match s with
  | [] => []
  | x :: r =>
      if decide (x = CR) then
        match r with
        | y :: r' => if decide (y = LF) then LF :: crlf_to_lf r' else x :: crlf_to_lf r
        | [] => [x]
        end
      else x :: crlf_to_lf r
  end.

(** Rewriting every LF of a text as CR LF (a Windows checkout). *)
Fixpoint to_crlf (s : list byte) : list byte :=
  match s with
  | [] => []
  | x :: r => if decide (x = LF) then CR :: LF :: to_crlf r else x :: to_crlf r
  end.

(** [xs] occurs in [s] at some position. *)
Definition infix_of (xs s : list byte) : Prop := exists a b, s = a ++ xs ++ b.

(** ** The hex digest *)

(** Two lowercase hex digits per byte, as [hashlib]'s [hexdigest()]. *)
Definition hex_byte (b : byte) : string :=
  String (PyStr.hex_digit (Byte.to_nat b / 16))
         (String (PyStr.hex_digit (Byte.to_nat b mod 16)) EmptyString).

Fixpoint hexdigest (d : list byte) : string :=
  match d with
  | [] => EmptyString
  | b :: d' => (hex_byte b ++ hexdigest d')%string
  end.

Definition hex_value (c : ascii) : option nat :=
  let n := PyStr.code c in
  if ((48 <=? n) && (n <=? 57))%nat then Some (n - 48)%nat
  else if ((97 <=? n) && (n <=? 102))%nat then Some (n - 87)%nat
  else None.

(** [bytes.fromhex] restricted to lowercase digits without spaces. *)
Fixpoint unhex (s : string) : option (list byte) :=
  match s with
  | EmptyString => Some []
  | String h (String l s') =>
      hv ← hex_value h; lv ← hex_value l; b ← Byte.of_nat (16 * hv + lv);
      rest ← unhex s'; Some (b :: rest)
  | String _ EmptyString => None
  end.

(** [s] is made of lowercase hex digits only. *)
Fixpoint is_lower_hex (s : string) : bool :=
  match s with
  | EmptyString => true
  | String c s' => bool_decide (is_Some (hex_value c)) && is_lower_hex s'
  end.

(** ** Lemmas *)

Lemma crlf_to_lf_cons_other x r :
  x <> CR -> crlf_to_lf (x :: r) = x :: crlf_to_lf r.
Proof. intros Hx. simpl. by rewrite decide_False. Qed.

Lemma crlf_to_lf_cr_lf r : crlf_to_lf (CR :: LF :: r) = LF :: crlf_to_lf r.
Proof. reflexivity. Qed.

(** A CR not followed by LF is kept. *)
Lemma crlf_to_lf_cr_other r :
  head r <> Some LF -> crlf_to_lf (CR :: r) = CR :: crlf_to_lf r.
Proof.
  intros Hr. destruct r as [|y r']; [done|]. cbn [crlf_to_lf].
  rewrite decide_True by done. rewrite decide_False; [done|].
  intros ->. by apply Hr.
Qed.

Lemma replace_scan_crlf n s :
  length s <= n -> replace_scan n [CR; LF] [LF] s = crlf_to_lf s.
Proof.
  revert s. induction n as [|n IH]; intros s Hlen.
  - destruct s; [done | simpl in Hlen; lia].
  - destruct s as [|x s]; [done|]. simpl in Hlen. cbn [replace_scan].
    destruct (decide (x = CR)) as [->|Hx].
    + destruct s as [|y r]; [by destruct n|].
      destruct (decide (y = LF)) as [->|Hy].
      * simpl strip_prefix. cbv iota. rewrite IH by (simpl in Hlen; lia). done.
      * rewrite crlf_to_lf_cr_other by (simpl; congruence).
        simpl strip_prefix. rewrite (decide_False _ _ (fun E => Hy (eq_sym E))).
        cbv iota. rewrite IH by (simpl in *; lia). done.
    + rewrite crlf_to_lf_cons_other by done. simpl strip_prefix.
      rewrite decide_False by congruence. cbv iota. rewrite IH by lia. done.
Qed.

#[export] Hint Rewrite crlf_to_lf_cr_lf : pysimpl.

Lemma to_crlf_head_not_lf t : head (to_crlf t) <> Some LF.
Proof. destruct t as [|x t]; simpl; [done|]. case_decide; simpl; unfold CR, LF in *; congruence. Qed.

Lemma hex_value_digit n : n < 16 -> hex_value (PyStr.hex_digit n) = Some n.
Proof. intros Hn. do 16 (destruct n as [|n]; [reflexivity|]). lia. Qed.

Lemma hex_digit_value_Some n : n < 16 -> is_Some (hex_value (PyStr.hex_digit n)).
Proof. intros Hn. rewrite hex_value_digit by done. eauto. Qed.

Lemma unhex_two h l s :
  unhex (String h (String l EmptyString) ++ s)%string =
  (hv ← hex_value h; lv ← hex_value l; b ← Byte.of_nat (16 * hv + lv);
   rest ← unhex s; Some (b :: rest)).
Proof. reflexivity. Qed.

Lemma unhex_hex_byte b s : unhex (hex_byte b ++ s)%string = (rest ← unhex s; Some (b :: rest)).
Proof.
  unfold hex_byte. rewrite unhex_two.
  pose proof (Byte.to_nat_bounded b) as Hb.
  rewrite !hex_value_digit by (apply Nat.mod_upper_bound || apply Nat.Div0.div_lt_upper_bound; lia).
  cbn [mbind option_bind]. rewrite <- (Nat.div_mod_eq (Byte.to_nat b) 16), Byte.of_to_nat. done.
Qed.

Lemma crlf_to_lf_to_crlf t : crlf_to_lf (to_crlf t) = t.
Proof.
  induction t as [|x t IH]; [done|]. simpl to_crlf. case_decide as Hx.
  - subst. rewrite crlf_to_lf_cr_lf. by f_equal.
  - destruct (decide (x = CR)) as [->|Hcr].
    + rewrite crlf_to_lf_cr_other by apply to_crlf_head_not_lf. by f_equal.
    + rewrite crlf_to_lf_cons_other by done. by f_equal.
Qed.

Lemma crlf_to_lf_length s : length (crlf_to_lf s) <= length s.
Proof.
  induction s as [s IH] using (induction_ltof1 _ (@length byte)).
  unfold ltof in IH. destruct s as [|x s]; [done|]. simpl.
  destruct (decide (x = CR)); [destruct s as [|y r]; [done|]|].
  - destruct (decide (y = LF)); simpl.
    + pose proof (IH r ltac:(simpl; lia)). lia.
    + pose proof (IH (y :: r) ltac:(simpl; lia)). simpl in *. lia.
  - pose proof (IH s ltac:(simpl; lia)). simpl. lia.
Qed.

Lemma infix_of_nil xs : infix_of xs [] -> xs = [].
Proof.
  intros (a & b & E). symmetry in E.
  apply app_eq_nil in E as [_ E]. by apply app_eq_nil in E as [-> _].
Qed.

Lemma infix_of_nil_cons x xs : infix_of (x :: xs) [] <-> False.
Proof. split; [|done]. intros H. by apply infix_of_nil in H. Qed.

(** An occurrence in [x :: r] starts at [x] or lies in [r]. *)
Lemma infix_of_cons xs x r :
  infix_of xs (x :: r) <-> (exists b, x :: r = xs ++ b) \/ infix_of xs r.
Proof.
  split.
  - intros ([|y a] & b & E); [left; by exists b|]. right.
    simpl in E. injection E as -> ->. by exists a, b.
  - intros [[b E]|(a & b & E)]; [by exists [], b|]. exists (x :: a), b. by rewrite E.
Qed.

(** Rewrite the occurrences of a pattern in a list of known head, and
    clear the cases where the heads are distinct bytes. *)
Ltac infix_simpl :=
  repeat rewrite infix_of_cons; rewrite ?infix_of_nil_cons; cbn [app];
  unfold CR, LF in *; naive_solver.

(** The normal form starts with LF exactly when the input starts with
    LF or with CR LF. *)
Lemma crlf_to_lf_starts_lf r :
  head r <> Some LF -> (exists b, crlf_to_lf r = LF :: b) <-> (exists b, r = CR :: LF :: b).
Proof.
  intros Hr. destruct r as [|x r]; [split; intros [b E]; discriminate|].
  destruct (decide (x = CR)) as [->|Hx].
  - destruct (decide (head r = Some LF)) as [Hy|Hy].
    + destruct r as [|y r']; [discriminate|]. simpl in Hy. injection Hy as ->.
      rewrite crlf_to_lf_cr_lf. naive_solver.
    + rewrite crlf_to_lf_cr_other by done. destruct r as [|y r']; unfold CR, LF in *; naive_solver.
  - rewrite crlf_to_lf_cons_other by done. unfold CR, LF in *. naive_solver.
Qed.

(** The normal form holds a CR LF pair exactly where the input holds
    CR CR LF: the one pass never rescans the LF it emits. *)
Lemma crlf_to_lf_crlf s : infix_of [CR; LF] (crlf_to_lf s) <-> infix_of [CR; CR; LF] s.
Proof.
  induction s as [s IH] using (induction_ltof1 _ (@length byte)). unfold ltof in IH.
  destruct s as [|x r].
  - split; intros H; apply infix_of_nil in H; discriminate.
  - destruct (decide (x = CR)) as [->|Hx].
    + destruct (decide (head r = Some LF)) as [Hy|Hy].
      * destruct r as [|y r']; [discriminate|]. simpl in Hy. injection Hy as ->.
        rewrite crlf_to_lf_cr_lf, !infix_of_cons, (IH r') by (simpl; lia). infix_simpl.
      * rewrite crlf_to_lf_cr_other by done.
        rewrite !infix_of_cons, (IH r) by (simpl; lia).
        pose proof (crlf_to_lf_starts_lf r Hy). infix_simpl.
    + rewrite crlf_to_lf_cons_other by done.
      rewrite !infix_of_cons, (IH r) by (simpl; lia). infix_simpl.
Qed.

(** The one pass leaves its input unchanged exactly when there is no
    CR LF pair in it. *)
Lemma crlf_to_lf_fixed s : crlf_to_lf s = s <-> ~ infix_of [CR; LF] s.
Proof.
  induction s as [s IH] using (induction_ltof1 _ (@length byte)). unfold ltof in IH.
  destruct s as [|x r]; [split; [intros _ H; by apply infix_of_nil in H|done]|].
  specialize (IH r (Nat.lt_succ_diag_r _)).
  destruct (decide (x = CR)) as [->|Hx].
  - destruct (decide (head r = Some LF)) as [Hy|Hy].
    + destruct r as [|y r']; [discriminate|]. simpl in Hy. injection Hy as ->.
      rewrite crlf_to_lf_cr_lf, infix_of_cons. unfold CR, LF. split; [discriminate|naive_solver].
    + rewrite crlf_to_lf_cr_other, infix_of_cons by done.
      destruct r as [|y r']; [simpl; infix_simpl|].
      assert (y <> LF) by (intros ->; by apply Hy).
      rewrite (inj_iff (CR ::.)), IH. infix_simpl.
  - rewrite crlf_to_lf_cons_other, infix_of_cons, (inj_iff (x ::.)), IH by done. infix_simpl.
Qed.

(** ** Theorems *)

(** One scan of [bytes.replace] with CR LF is [crlf_to_lf]. *)
Lemma normalize_newlines_crlf_to_lf (s : list byte) :
  normalize_newlines s = crlf_to_lf s.
Proof. unfold normalize_newlines, replace. by apply replace_scan_crlf. Qed.

(** C30: [normalize_newlines] (CPython's [bytes.replace] of CR LF by LF)
    equals the one-pass routine [crlf_to_lf]. *)
Theorem normalize_newlines_equiv (s : list byte) :
  normalize_newlines s = crlf_to_lf s.
Proof. apply normalize_newlines_crlf_to_lf. Qed.

(** a text whose line ends were rewritten to CR LF normalises back to
    the text: [normalize_newlines] undoes a Windows checkout. *)
Theorem normalize_newlines_to_crlf (t : list byte) :
  normalize_newlines (to_crlf t) = t.
Proof. by rewrite normalize_newlines_crlf_to_lf, crlf_to_lf_to_crlf. Qed.

(** [normalize_newlines] never lengthens its input. *)
Lemma normalize_newlines_length s : length (normalize_newlines s) <= length s.
Proof. rewrite normalize_newlines_crlf_to_lf. apply crlf_to_lf_length. Qed.

(** C31: [normalize_newlines] is idempotent exactly on the inputs
    without the three bytes CR CR LF: a second call changes the result
    of the first one if and only if the input holds CR CR LF somewhere
    (one [bytes.replace] pass turns it into CR LF, which the next pass
    rewrites).  Spec section 8 states idempotence for every input. *)
Theorem normalize_newlines_idempotent_iff (s : list byte) :
  normalize_newlines (normalize_newlines s) = normalize_newlines s <-> ~ infix_of [CR; CR; LF] s.
Proof. rewrite !normalize_newlines_crlf_to_lf, crlf_to_lf_fixed. by rewrite crlf_to_lf_crlf. Qed.

Lemma hexdigest_app_cons b d : hexdigest (b :: d) = (hex_byte b ++ hexdigest d)%string.
Proof. reflexivity. Qed.

(** [unhex] inverts [hexdigest], byte by byte. *)
Lemma unhex_hexdigest_inv (d : list byte) : unhex (hexdigest d) = Some d.
Proof.
  induction d as [|b d IH]; [done|].
  rewrite hexdigest_app_cons, unhex_hex_byte, IH. done.
Qed.

(** [hexdigest] is decoded back by [unhex]: the rendering is injective. *)
Theorem unhex_hexdigest (d : list byte) : unhex (hexdigest d) = Some d.
Proof. apply unhex_hexdigest_inv. Qed.

Lemma hexdigest_length d : String.length (hexdigest d) = 2 * length d.
Proof.
  induction d as [|b d IH]; [done|].
  rewrite hexdigest_app_cons, PyStr.length_append, IH. simpl. lia.
Qed.

Lemma is_lower_hex_app s1 s2 :
  is_lower_hex (s1 ++ s2)%string = is_lower_hex s1 && is_lower_hex s2.
Proof. induction s1 as [|c s1 IH]; simpl; [done|]. by rewrite IH, andb_assoc. Qed.

Lemma hex_byte_lower_hex b : is_lower_hex (hex_byte b) = true.
Proof.
  pose proof (Byte.to_nat_bounded b).
  unfold hex_byte. cbn [is_lower_hex].
  rewrite !bool_decide_eq_true_2; [done| |]; apply hex_digit_value_Some;
    (apply Nat.mod_upper_bound || apply Nat.Div0.div_lt_upper_bound); lia.
Qed.

(** Every character of a digest is a lowercase hex digit. *)
Lemma hexdigest_lower_hex d : is_lower_hex (hexdigest d) = true.
Proof.
  induction d as [|b d IH]; [done|].
  by rewrite hexdigest_app_cons, is_lower_hex_app, IH, hex_byte_lower_hex.
Qed.

#[export] Hint Rewrite normalize_newlines_crlf_to_lf unhex_hexdigest_inv hexdigest_length : pysimpl.

End PyBytes.
