(* ===== verification/PyVal.v ===== *)
(** * Parsed configuration values

    [tomllib.load] and [json.loads] return trees of Python objects; the
    policy loaders of [src/scripts/check_license.py] (lines 107-177) read
    them with [dict.get], test them with [isinstance] and convert them
    with [str()] and [bool()].  This file models those objects and the
    four operations.  Dictionary keys of TOML and JSON are strings; a
    dictionary is kept as its list of items in insertion order. *)

From S2P Require Import Prelude PyStr.
Local Open Scope string_scope.

Module PyVal.

(** A value returned by the parsers.  [VScalar] stands for the scalar
    types the loaders never inspect (floats, TOML dates and times): only
    their [str()] text, [repr()] text and truth value matter. *)
Inductive pyval :=
  | VNone
  | VBool (b : bool)
  | VInt (z : Z)
  | VScalar (str_text repr_text : string) (truthy : bool)
  | VStr (s : string)
  | VList (l : list pyval)
  | VDict (items : list (string * pyval)).

(** [bool(v)] *)
Definition truthy (v : pyval) : bool :=
  match v with
  | VNone => false
  | VBool b => b
  | VInt z => negb (Z.eqb z 0)
  | VScalar _ _ t => t
  | VStr s => negb (String.eqb s EmptyString)
  | VList l => negb (Nat.eqb (length l) 0)
  | VDict d => negb (Nat.eqb (length d) 0)
  end.

(** [repr(v)]: containers render their elements with [repr]. *)
Fixpoint repr (v : pyval) : string :=
  match v with
  | VNone => "None"
  | VBool true => "True"
  | VBool false => "False"
  | VInt z => PyStr.str_of_Z z
  | VScalar _ r _ => r
  | VStr s => PyStr.repr s
  | VList l =>
      let fix go (l : list pyval) : string :=
        match l with
        | [] => EmptyString
        | [x] => repr x
        | x :: xs => repr x ++ ", " ++ go xs
        end in
      "[" ++ go l ++ "]"
  | VDict d =>
      let fix go (d : list (string * pyval)) : string :=
        match d with
        | [] => EmptyString
        | [(k, x)] => PyStr.repr k ++ ": " ++ repr x
        | (k, x) :: xs => PyStr.repr k ++ ": " ++ repr x ++ ", " ++ go xs
        end in
      "{" ++ go d ++ "}"
  end.

(** [str(v)]: a string is itself, a scalar its text, the rest [repr]. *)
Definition str (v : pyval) : string :=
  match v with
  | VStr s => s
  | VScalar s _ _ => s
  | _ => repr v
  end.

(** The first binding of [k] in a dictionary's items. *)
Fixpoint dict_lookup (k : string) (d : list (string * pyval)) : option pyval :=
  match d with
  | [] => None
  | (k', x) :: d' => if String.eqb k k' then Some x else dict_lookup k d'
  end.

(** [d[k] = x]: an existing key keeps its place, a new one goes last. *)
Fixpoint set_item (d : list (string * pyval)) (k : string) (x : pyval) : list (string * pyval) :=
  match d with
  | [] => [(k, x)]
  | (k', y) :: d' => if String.eqb k k' then (k, x) :: d' else (k', y) :: set_item d' k x
  end.

(** [v.get(k, default)]: an [AttributeError] on anything but a dict. *)
Definition get (v : pyval) (k : string) (default : pyval) : outcome pyval :=
  match v with
  | VDict d => Ret (match dict_lookup k d with Some x => x | None => default end)
  | _ => Raise AttributeError
  end.

Definition is_list (v : pyval) : bool := match v with VList _ => true | _ => false end.
Definition is_dict (v : pyval) : bool := match v with VDict _ => true | _ => false end.

(** Keys of every dictionary of a value are distinct, as in any dict the
    parsers build. *)
Fixpoint wf (v : pyval) : Prop :=
  match v with
  | VList l => (fix go l := match l with [] => True | x :: xs => wf x /\ go xs end) l
  | VDict d =>
      NoDup (map fst d) /\
      (fix go d := match d with [] => True | (_, x) :: xs => wf x /\ go xs end) d
  | _ => True
  end.

(** ** Lemmas *)

Lemma get_dict d k default :
  get (VDict d) k default = Ret (match dict_lookup k d with Some x => x | None => default end).
Proof. reflexivity. Qed.

Lemma get_not_dict v k default : is_dict v = false -> get v k default = Raise AttributeError.
Proof. destruct v; done. Qed.

Lemma str_VStr s : str (VStr s) = s.
Proof. reflexivity. Qed.

Lemma truthy_VList_nil : truthy (VList []) = false.
Proof. reflexivity. Qed.

(** Induction over values, through the elements of lists and the values
    of dictionaries. *)
Section pyval_ind'.
Variable P : pyval -> Prop.
Hypothesis HNone : P VNone.
Hypothesis HBool : forall b, P (VBool b).
Hypothesis HInt : forall z, P (VInt z).
Hypothesis HScalar : forall s r t, P (VScalar s r t).
Hypothesis HStr : forall s, P (VStr s).
Hypothesis HList : forall l, Forall P l -> P (VList l).
Hypothesis HDict : forall d, Forall (fun kx => P kx.2) d -> P (VDict d).

Fixpoint pyval_ind' (v : pyval) : P v :=
  match v with
  | VNone => HNone
  | VBool b => HBool b
  | VInt z => HInt z
  | VScalar s r t => HScalar s r t
  | VStr s => HStr s
  | VList l =>
      HList l ((fix go l : Forall P l :=
                  match l with [] => Forall_nil_2 _ | x :: xs => Forall_cons_2 _ _ _ (pyval_ind' x) (go xs) end) l)
  | VDict d =>
      HDict d ((fix go d : Forall (fun kx => P kx.2) d :=
                  match d with
                  | [] => Forall_nil_2 _
                  | (k, x) :: xs => Forall_cons_2 (fun kx => P kx.2) (k, x) xs (pyval_ind' x) (go xs)
                  end) d)
  end.
End pyval_ind'.

Lemma dict_lookup_set_item_eq d k x : dict_lookup k (set_item d k x) = Some x.
Proof.
  induction d as [|[k' y] d IH]; simpl; [by rewrite String.eqb_refl|].
  destruct (String.eqb_spec k k') as [->|Hne]; simpl; [by rewrite String.eqb_refl|].
  by destruct (String.eqb_spec k k').
Qed.

Lemma dict_lookup_set_item_ne d k k' x :
  k <> k' -> dict_lookup k (set_item d k' x) = dict_lookup k d.
Proof.
  intros Hne. induction d as [|[j y] d IH]; simpl.
  - by destruct (String.eqb_spec k k').
  - destruct (String.eqb_spec k' j) as [->|Hj]; simpl.
    + by destruct (String.eqb_spec k j).
    + by rewrite IH.
Qed.

(** The keys after [d[k] = x]. *)
Lemma keys_set_item d k x :
  map fst (set_item d k x) = if bool_decide (k ∈ map fst d) then map fst d else (map fst d ++ [k])%list.
Proof.
  induction d as [|[j y] d IH]; cbn [set_item map fst].
  - case_bool_decide; [set_solver|done].
  - destruct (String.eqb_spec k j) as [->|Hj]; simpl.
    + by rewrite bool_decide_eq_true_2 by set_solver.
    + rewrite IH. case_bool_decide; case_bool_decide; first [done | set_solver].
Qed.

Lemma dict_lookup_None_keys d k : k ∉ map fst d -> dict_lookup k d = None.
Proof.
  induction d as [|[j y] d IH]; simpl; [done|]. intros Hk.
  destruct (String.eqb_spec k j); [set_solver|]. apply IH. set_solver.
Qed.

Lemma dict_lookup_In d k x : NoDup (map fst d) -> (k, x) ∈ d -> dict_lookup k d = Some x.
Proof.
  induction d as [|[j y] d IH]; simpl; intros Hnd Hin; [set_solver|].
  apply NoDup_cons in Hnd as [Hj Hnd].
  apply elem_of_cons in Hin as [[= -> ->]|Hin]; [by rewrite String.eqb_refl|].
  destruct (String.eqb_spec k j) as [->|_]; [|by apply IH].
  destruct Hj. apply list_elem_of_In, in_map_iff. exists (j, x). split; [done|].
  by apply list_elem_of_In.
Qed.

(** Setting a key to the value it holds changes nothing. *)
Lemma set_item_same d k x : NoDup (map fst d) -> dict_lookup k d = Some x -> set_item d k x = d.
Proof.
  induction d as [|[j y] d IH]; simpl; intros Hnd; [done|].
  destruct (String.eqb_spec k j) as [->|_]; [by intros [= ->]|].
  apply NoDup_cons in Hnd as [_ Hnd]. intros H. by rewrite IH.
Qed.

(** The two conditions of [wf] on a dictionary. *)
Lemma wf_dict d : wf (VDict d) <-> NoDup (map fst d) /\ Forall (fun kx => wf kx.2) d.
Proof.
  simpl. apply and_iff_compat_l.
  induction d as [|[k x] d IH]; simpl; [split; auto|]. rewrite Forall_cons, IH. done.
Qed.

Lemma Forall_set_item (P : string * pyval -> Prop) d k x :
  Forall P d -> P (k, x) -> Forall P (set_item d k x).
Proof.
  intros Hd Hx. induction Hd as [|[j y] d Hy Hd IH]; simpl; [by constructor|].
  destruct (String.eqb k j); by constructor.
Qed.

Lemma Forall_dict_lookup (P : pyval -> Prop) d k x :
  Forall (fun kx => P kx.2) d -> dict_lookup k d = Some x -> P x.
Proof.
  induction 1 as [|[j y] d Hy Hd IH]; simpl; [done|].
  destruct (String.eqb k j); [by intros [= <-]|done].
Qed.

#[export] Hint Rewrite get_dict str_VStr truthy_VList_nil : pysimpl.

End PyVal.
