(* ===== verification/FileSystem.v ===== *)
(** * The file system seen by [check_license.py]

    The script reads [LICENSE], [pyproject.toml] and the JSON policy,
    and in [backup_and_remove_license] (lines 224-233) creates the backup
    directory with [Path.mkdir(parents=True, exist_ok=True)] and moves the
    license with [shutil.move].  This file models [pathlib]'s pure path
    parsing, a file system as a finite map from paths to nodes, the
    library calls the script makes (modelled from CPython 3.11's
    [pathlib.py] and [shutil.py]), and [time.strftime] for the backup
    name.

    Paths are keyed by (absolute?, components): relative paths are
    resolved against the working directory, whose key is [(false, [])];
    [".."] is kept as a component, as [pathlib] keeps it.  Permissions are
    one flag per node: a file is readable or not, a directory writable or
    not. *)

From S2P Require Import Prelude PyStr PyBytes.
Local Open Scope string_scope.

Module FS.

(** ** Paths *)

(** [pathlib.PurePosixPath]: its root (["" "/" "//"]) and components. *)
Record path := mkPath { p_root : string; p_parts : list string }.

Definition slash : ascii := "/"%char.

(** [splitroot]: exactly two leading slashes are kept, three or more
    collapse to one. *)
Definition parse_root (s : string) : string :=
  if String.prefix "///" s then "/"
  else if String.prefix "//" s then "//"
  else if String.prefix "/" s then "/"
  else "".

(** The components: empty ones and ["."] are dropped. *)
Definition parse_parts (s : string) : list string :=
  List.filter (fun w => negb (String.eqb w "") && negb (String.eqb w "."))
              (PyStr.split slash s).

(** [Path(s)] *)
Definition path_of_string (s : string) : path := mkPath (parse_root s) (parse_parts s).

(** [str(p)] *)
Definition path_str (p : path) : string :=
  match p_root p, p_parts p with
  | "", [] => "."
  | r, ps => r ++ PyStr.join "/" ps
  end.

(** [p / s] *)
Definition div (p : path) (s : string) : path :=
  let q := path_of_string s in
  if String.eqb (p_root q) "" then mkPath (p_root p) (p_parts p ++ p_parts q)%list else q.

(** The components [Path] produces: non-empty, not ["."], without a
    slash. *)
Definition good_part (w : string) : bool :=
  negb (String.eqb w "") && negb (String.eqb w ".") && negb (PyStr.contains_char slash w).

(** The paths [Path] produces. *)
Definition path_ok (p : path) : Prop :=
  p_root p ∈ [""; "/"; "//"] /\ Forall (fun w => good_part w = true) (p_parts p).

(** [os.path.basename] of a path without trailing slash. *)
Definition basename (p : path) : string := List.last (p_parts p) "".

(** ** File system state *)

Inductive node :=
  | NFile (data : list byte) (readable : bool)
  | NDir (writable : bool).

Definition key (p : path) : bool * list string :=
  (negb (String.eqb (p_root p) ""), p_parts p).

Abbreviation fs := (gmap (bool * list string) node).

Definition parent (k : bool * list string) : option (bool * list string) :=
  match k.2 with [] => None | _ => Some (k.1, removelast k.2) end.

(** The checks [open(..., "w")], [mkdir], [rename] and [unlink] make on
    the directory that holds [k]. *)
Definition writable_parent (m : fs) (k : bool * list string) : outcome unit :=
  match parent k with
  | None => Raise PermissionError
  | Some pk =>
      match m !! pk with
      | Some (NDir true) => Ret tt
      | Some (NDir false) => Raise PermissionError
      | Some (NFile _ _) => Raise NotADirectoryError
      | None => Raise FileNotFoundError
      end
  end.

(** [p.exists()] *)
Definition path_exists (p : path) (m : fs) : bool := bool_decide (is_Some (m !! key p)).

(** [os.path.isdir(p)] *)
Definition is_dir (p : path) (m : fs) : bool :=
  match m !! key p with Some (NDir _) => true | _ => false end.

(** [p.read_bytes()] *)
Definition read_bytes (p : path) (m : fs) : outcome (list byte) :=
  match m !! key p with
  | Some (NFile d true) => Ret d
  | Some (NFile _ false) => Raise PermissionError
  | Some (NDir _) => Raise IsADirectoryError
  | None => Raise FileNotFoundError
  end.

(** ** [Path.mkdir(parents=True, exist_ok=True)] *)

(** Each prefix of the path in turn: an existing directory is passed, a
    file in the way raises, a missing directory is created. *)
Fixpoint mkdir_go (a : bool) (pre todo : list string) : st fs unit :=
  match todo with
  | [] => mret tt
  | x :: rest =>
      m ← st_get;
      let k := (a, (pre ++ [x])%list) in
      match m !! k with
      | Some (NDir _) => mkdir_go a (pre ++ [x])%list rest
      | Some (NFile _ _) =>
          st_raise (match rest with [] => FileExistsError | _ => NotADirectoryError end)
      | None =>
          _ ← st_lift (writable_parent m k);
          _ ← st_put (<[k := NDir true]> m);
          mkdir_go a (pre ++ [x])%list rest
      end
  end.

Definition mkdir_parents (p : path) : st fs unit := mkdir_go (key p).1 [] (key p).2.

(** ** [os.rename], [shutil.copy2], [os.unlink] on files *)

(** [os.rename(src, dst)] of a file: an existing file at [dst] is
    replaced.  (The script only ever moves the file it has just read;
    the model refuses to move a directory.) *)
Definition rename (src dst : bool * list string) : st fs unit :=
  m ← st_get;
  match m !! src with
  | None => st_raise FileNotFoundError
  | Some (NDir _) => st_raise IsADirectoryError
  | Some (NFile d r) =>
      _ ← st_lift (writable_parent m src);
      _ ← st_lift (writable_parent m dst);
      match m !! dst with
      | Some (NDir _) => st_raise IsADirectoryError
      | _ => st_put (<[dst := NFile d r]> (delete src m))
      end
  end.

(** [shutil.copy2(src, dst)] for a file [dst] that is not a directory. *)
Definition copy2 (src dst : bool * list string) : st fs unit :=
  m ← st_get;
  match m !! src with
  | Some (NFile d true) =>
      match m !! dst with
      | Some (NDir _) => st_raise IsADirectoryError
      | _ => _ ← st_lift (writable_parent m dst); st_put (<[dst := NFile d true]> m)
      end
  | Some (NFile _ false) => st_raise PermissionError
  | Some (NDir _) => st_raise IsADirectoryError
  | None => st_raise FileNotFoundError
  end.

(** [os.unlink(p)] *)
Definition unlink (k : bool * list string) : st fs unit :=
  m ← st_get;
  match m !! k with
  | Some (NFile _ _) => _ ← st_lift (writable_parent m k); st_put (delete k m)
  | Some (NDir _) => st_raise IsADirectoryError
  | None => st_raise FileNotFoundError
  end.

(** [shutil.move(src, dst)] (CPython 3.11): into [dst] when it is a
    directory, refusing an existing target there; [os.rename] first, and
    on an [OSError] a copy followed by an unlink of the source. *)
Definition move (src dst : path) : st fs unit :=
  m ← st_get;
  let real_dst := if is_dir dst m then div dst (basename src) else dst in
  if is_dir dst m && path_exists real_dst m then st_raise ShutilError
  else try rename (key src) (key real_dst)
       except _ => (_ ← copy2 (key src) (key real_dst); unlink (key src)).

(** ** [time.strftime("%Y%m%d-%H%M%S")] *)

(** The local time fields [strftime] formats. *)
Record tm := mkTm {
  tm_year : nat; tm_mon : nat; tm_mday : nat;
  tm_hour : nat; tm_min : nat; tm_sec : nat }.

Definition digits (n : nat) : string := PyStr.str_of_Z (Z.of_nat n).

(** [%m %d %H %M %S]: two digits, zero-padded. *)
Definition pad2 (n : nat) : string := if (n <? 10)%nat then "0" ++ digits n else digits n.

(** [%Y%m%d-%H%M%S]; glibc prints [%Y] without padding. *)
Definition strftime_ts (t : tm) : string :=
  digits (tm_year t) ++ pad2 (tm_mon t) ++ pad2 (tm_mday t) ++ "-" ++
  pad2 (tm_hour t) ++ pad2 (tm_min t) ++ pad2 (tm_sec t).

(** The ranges of [struct tm] for a four-digit year. *)
Definition tm_valid (t : tm) : Prop :=
  1000 <= tm_year t <= 9999 /\ 1 <= tm_mon t <= 12 /\ 1 <= tm_mday t <= 31 /\
  tm_hour t <= 23 /\ tm_min t <= 59 /\ tm_sec t <= 61.

#[export] Instance tm_valid_dec t : Decision (tm_valid t).
Proof. unfold tm_valid. apply _. Defined.

(** ** Well-formed file systems *)

(** Both roots are directories, and the parent of every node is a
    directory. *)
Definition fs_wf (m : fs) : Prop :=
  (exists w, m !! (false, []) = Some (NDir w)) /\
  (exists w, m !! (true, []) = Some (NDir w)) /\
  (forall a ps x n, m !! (a, (ps ++ [x])%list) = Some n -> exists w, m !! (a, ps) = Some (NDir w)).

(** ** Lemmas on the invariant *)

Lemma writable_parent_Ret m k :
  writable_parent m k = Ret tt ->
  exists ps x, k = (k.1, (ps ++ [x])%list) /\ m !! (k.1, ps) = Some (NDir true).
Proof.
  unfold writable_parent, parent. destruct k as [a qs]; simpl.
  destruct qs as [|q qs']; [discriminate|].
  destruct (m !! (a, removelast (q :: qs'))) as [[|[]]|] eqn:E; try discriminate.
  intros _. destruct (exists_last (l:=q :: qs') ltac:(done)) as (ps & x & Hx).
  exists ps, x. rewrite Hx in E |- *. rewrite removelast_last in E. done.
Qed.

(** A node that is not a directory has no children. *)
Lemma wf_no_children m a ps :
  fs_wf m -> (forall w, m !! (a, ps) <> Some (NDir w)) ->
  forall x, m !! (a, (ps ++ [x])%list) = None.
Proof.
  intros (_ & _ & Hp) Hnd x. destruct (m !! (a, (ps ++ [x])%list)) as [n|] eqn:E; [|done].
  destruct (Hp _ _ _ _ E) as [w Hw]. by destruct (Hnd w).
Qed.

Lemma app_snoc_inj (ps qs : list string) x y :
  (ps ++ [x] = qs ++ [y])%list -> ps = qs /\ x = y.
Proof. apply app_inj_tail. Qed.

(** Inserting a node under a directory keeps the file system well formed,
    unless a non-directory replaces a node with children. *)
Lemma wf_insert m a ps x n :
  fs_wf m -> (exists w, m !! (a, ps) = Some (NDir w)) ->
  match n with
  | NFile _ _ => forall y, m !! (a, ((ps ++ [x]) ++ [y])%list) = None
  | NDir _ => True
  end ->
  fs_wf (<[(a, (ps ++ [x])%list) := n]> m).
Proof.
  intros (Hr1 & Hr2 & Hp) Hpar Hch. split_and!.
  - destruct Hr1 as [w Hw]. exists w. rewrite lookup_insert_ne; [done|].
    intros [= _ E]. by destruct ps.
  - destruct Hr2 as [w Hw]. exists w. rewrite lookup_insert_ne; [done|].
    intros [= _ E]. by destruct ps.
  - intros a' ps' x' n' Hl. rewrite lookup_insert in Hl. case_decide as Hk.
    + injection Hk as <- Hps. apply app_snoc_inj in Hps as [<- <-].
      destruct Hpar as [w Hw]. exists w. rewrite lookup_insert_ne; [done|].
      intros [= E]. apply (f_equal length) in E. rewrite length_app in E. simpl in E. lia.
    + destruct (Hp _ _ _ _ Hl) as [w Hw].
      destruct (decide ((a, (ps ++ [x])%list) = (a', ps'))) as [Ek|Ek].
      * injection Ek as <- <-. destruct n as [d r|w'].
        -- by rewrite Hch in Hl.
        -- exists w'. by rewrite lookup_insert_eq.
      * exists w. by rewrite lookup_insert_ne.
Qed.

(** Deleting a node without children keeps the file system well formed. *)
Lemma wf_delete m a ps x :
  fs_wf m -> (forall y, m !! (a, ((ps ++ [x]) ++ [y])%list) = None) ->
  fs_wf (delete (a, (ps ++ [x])%list) m).
Proof.
  intros (Hr1 & Hr2 & Hp) Hch. split_and!.
  - destruct Hr1 as [w Hw]. exists w. rewrite lookup_delete_ne; [done|]. by destruct ps.
  - destruct Hr2 as [w Hw]. exists w. rewrite lookup_delete_ne; [done|]. by destruct ps.
  - intros a' ps' x' n' Hl. rewrite lookup_delete in Hl. case_decide as Hk; [done|].
    destruct (Hp _ _ _ _ Hl) as [w Hw]. exists w.
    rewrite lookup_delete_ne; [done|]. intros [= <- <-]. by rewrite Hch in Hl.
Qed.

Lemma writable_parent_dir m a ps x :
  writable_parent m (a, (ps ++ [x])%list) = Ret tt -> m !! (a, ps) = Some (NDir true).
Proof.
  intros H. destruct (writable_parent_Ret _ _ H) as (ps' & x' & Hk & Hd). simpl in *.
  injection Hk as Hk. apply app_snoc_inj in Hk as [<- _]. done.
Qed.

Lemma wf_put_file m a ps x d r :
  fs_wf m -> m !! (a, ps) = Some (NDir true) ->
  (forall w, m !! (a, (ps ++ [x])%list) <> Some (NDir w)) ->
  fs_wf (<[(a, (ps ++ [x])%list) := NFile d r]> m).
Proof.
  intros Hwf Hd Hnd. apply wf_insert; [done|eauto|].
  intros y. by apply wf_no_children.
Qed.

(** [mkdir_parents] keeps the file system well formed, whether it
    returns or raises. *)
Lemma mkdir_go_wf a pre todo : preserves fs_wf (mkdir_go a pre todo).
Proof.
  revert pre. induction todo as [|x rest IH]; intros pre m Hwf; [done|].
  cbn [mkdir_go]. st_simpl.
  destruct (m !! (a, (pre ++ [x])%list)) as [[d r|w]|] eqn:E; simpl; [done|by apply IH|].
  destruct (writable_parent m (a, (pre ++ [x])%list)) as [[]|e] eqn:Hw; simpl; [|done].
  apply IH, wf_insert; [done|eauto using writable_parent_dir|done].
Qed.

Lemma mkdir_parents_wf p : preserves fs_wf (mkdir_parents p).
Proof. apply mkdir_go_wf. Qed.

Ltac wf_parent :=
  match goal with
  | H : writable_parent _ ?k = Ret tt |- _ =>
      let ps := fresh "ps" in let x := fresh "x" in let Hk := fresh "Hk" in
      let Hd := fresh "Hd" in
      destruct (writable_parent_Ret _ _ H) as (ps & x & Hk & Hd); clear H;
      destruct k; simpl in Hk, Hd; injection Hk as ->
  end.

Lemma rename_wf src dst : preserves fs_wf (rename src dst).
Proof.
  intros m Hwf. unfold rename. st_simpl.
  destruct (m !! src) as [[d r|w]|] eqn:Es; try done.
  destruct (writable_parent m src) as [[]|e] eqn:Hs; [|done].
  destruct (writable_parent m dst) as [[]|e] eqn:Ht; [|done].
  destruct (m !! dst) as [[d' r'|w']|] eqn:Ed; [| done |];
  wf_parent; wf_parent; simpl;
  (apply wf_put_file;
   [ apply wf_delete; [done| intros y; apply wf_no_children; [done|congruence]]
   | rewrite lookup_delete_ne; [done| intros E; rewrite <- E in *; congruence]
   | intros w; rewrite lookup_delete; case_decide; congruence ]).
Qed.

Lemma copy2_wf src dst : preserves fs_wf (copy2 src dst).
Proof.
  intros m Hwf. unfold copy2. st_simpl.
  destruct (m !! src) as [[d [|]|w]|]; try done.
  destruct (m !! dst) as [[d' r'|w']|] eqn:Ed; try done;
  (destruct (writable_parent m dst) as [[]|e] eqn:Ht; [|done]);
  wf_parent; simpl; apply wf_put_file; congruence.
Qed.

Lemma unlink_wf k : preserves fs_wf (unlink k).
Proof.
  intros m Hwf. unfold unlink. st_simpl.
  destruct (m !! k) as [[d r|w]|] eqn:Ek; try done.
  destruct (writable_parent m k) as [[]|e] eqn:Ht; [|done].
  wf_parent. simpl. apply wf_delete; [done|]. intros y. apply wf_no_children; congruence.
Qed.

#[export] Hint Resolve mkdir_parents_wf rename_wf copy2_wf unlink_wf : pyauto.

(** [shutil.move] keeps the file system well formed, on every path
    through it, the copy-and-unlink fallback included. *)
Lemma move_wf src dst : preserves fs_wf (move src dst).
Proof. unfold move. eauto with pyauto. Qed.

#[export] Hint Resolve move_wf : pyauto.

(** ** Parsing and printing paths *)

Lemma filter_good_parts ps :
  Forall (fun w => good_part w = true) ps ->
  List.filter (fun w => negb (String.eqb w "") && negb (String.eqb w ".")) ps = ps.
Proof.
  induction 1 as [|w ws Hw _ IH]; [done|]. simpl. unfold good_part in Hw.
  apply andb_prop in Hw as [Hw _]. by rewrite Hw, IH.
Qed.

Lemma filter_empty_cons ps :
  List.filter (fun w => negb (String.eqb w "") && negb (String.eqb w ".")) ("" :: ps)
  = List.filter (fun w => negb (String.eqb w "") && negb (String.eqb w ".")) ps.
Proof. reflexivity. Qed.

Lemma parse_parts_ok s : Forall (fun w => good_part w = true) (parse_parts s).
Proof.
  unfold parse_parts. apply List.Forall_forall. intros w Hw.
  apply filter_In in Hw as [Hin Hk]. unfold good_part. rewrite Hk.
  by rewrite (PyStr.split_no_sep _ _ _ Hin).
Qed.

Lemma path_of_string_ok s : path_ok (path_of_string s).
Proof.
  split; [|apply parse_parts_ok]. simpl. unfold parse_root.
  repeat case_match; set_solver.
Qed.

Lemma div_ok p s : path_ok p -> path_ok (div p s).
Proof.
  intros [Hr Hps]. unfold div. case_match; [|apply path_of_string_ok].
  split; [done|]. apply Forall_app. split; [done|apply parse_parts_ok].
Qed.

(** The printed components of a non-empty path start with a character
    other than the slash. *)
Lemma join_good_head ps :
  ps <> [] -> Forall (fun w => good_part w = true) ps ->
  exists c r, PyStr.join "/" ps = String c r /\ c <> slash.
Proof.
  intros Hne Hps. destruct Hps as [|w ws Hw _]; [done|].
  unfold good_part in Hw. apply andb_prop in Hw as [Hw Hc]. apply andb_prop in Hw as [He _].
  destruct w as [|c w]; [done|]. exists c.
  assert (c <> slash).
  { intros ->. revert Hc. cbn. by rewrite bool_decide_eq_true_2. }
  destruct ws; eexists; (split; [reflexivity|done]).
Qed.

Lemma prefix_cons_same a u v : String.prefix (String a u) (String a v) = String.prefix u v.
Proof. cbn [String.prefix]. by destruct (ascii_dec a a). Qed.

Lemma prefix_slash_other c r u :
  c <> slash -> String.prefix (String slash u) (String c r) = false.
Proof. intros Hc. cbn [String.prefix]. destruct (ascii_dec slash c); congruence. Qed.

Lemma parse_root_app r c j :
  c <> slash -> r ∈ [""; "/"; "//"] -> parse_root (r ++ String c j) = r.
Proof.
  intros Hc Hr.
  repeat (apply elem_of_cons in Hr as [->|Hr]); [..|set_solver]; unfold parse_root;
    rewrite ?PyStr.append_String, ?PyStr.append_Empty; repeat rewrite ?prefix_cons_same, ?prefix_slash_other by done;
    reflexivity.
Qed.

Lemma parse_parts_app r ps :
  r ∈ [""; "/"; "//"] -> ps <> [] -> Forall (fun w => good_part w = true) ps ->
  parse_parts (r ++ PyStr.join "/" ps) = ps.
Proof.
  intros Hr Hne Hps. unfold parse_parts.
  assert (Hsplit : PyStr.split slash (PyStr.join "/" ps) = ps).
  { apply PyStr.split_join; [done|]. eapply Forall_impl; [done|]. intros u Hu.
    unfold good_part in Hu. apply andb_prop in Hu as [_ Hu]. by apply negb_true_iff. }
  repeat (apply elem_of_cons in Hr as [->|Hr]); [..|set_solver].
  - rewrite PyStr.append_Empty, Hsplit. by apply filter_good_parts.
  - change ("/" ++ PyStr.join "/" ps) with (String slash (PyStr.join "/" ps)).
    rewrite PyStr.split_sep, Hsplit, filter_empty_cons. by apply filter_good_parts.
  - change ("//" ++ PyStr.join "/" ps) with (String slash (String slash (PyStr.join "/" ps))).
    rewrite !PyStr.split_sep, Hsplit, !filter_empty_cons. by apply filter_good_parts.
Qed.

(** Parsing the text of a well-formed path gives it back. *)
Lemma path_of_string_path_str_id p : path_ok p -> path_of_string (path_str p) = p.
Proof.
  destruct p as [r ps]. intros [Hr Hps]. simpl in Hr, Hps.
  destruct ps as [|w ws].
  - repeat (apply elem_of_cons in Hr as [->|Hr]); [reflexivity..|set_solver].
  - assert (Hstr : path_str (mkPath r (w :: ws)) = r ++ PyStr.join "/" (w :: ws))
      by (destruct r; reflexivity).
    unfold path_of_string. rewrite Hstr, parse_parts_app by done.
    destruct (join_good_head (w :: ws) ltac:(done) Hps) as (c & j & Hj & Hc).
    by rewrite Hj, parse_root_app.
Qed.

(** ** What [mkdir] and [shutil.move] do to a file *)

(** The timestamp holds digits and a dash. *)
Lemma strftime_ts_no_slash t : PyStr.contains_char slash (strftime_ts t) = false.
Proof.
  assert (Hd : forall n, PyStr.contains_char slash (digits n) = false)
    by (intros; apply PyStr.str_of_Z_no_slash).
  assert (Hp : forall n, PyStr.contains_char slash (pad2 n) = false)
    by (intros n; unfold pad2; case_match; rewrite ?PyStr.contains_char_app, ?Hd; done).
  unfold strftime_ts. by rewrite !PyStr.contains_char_app, !Hp, Hd.
Qed.

(** A two-digit field has two characters and reads back as its number
    ([int()] accepts the leading zero). *)
Lemma pad2_decode n :
  n < 100 -> String.length (pad2 n) = 2 /\ PyStr.int_of_str (pad2 n) = Some (Z.of_nat n).
Proof.
  intros Hn.
  assert (H : forallb (fun n => Nat.eqb (String.length (pad2 n)) 2 &&
                                 match PyStr.int_of_str (pad2 n) with Some z => Z.eqb z (Z.of_nat n) | None => false end)
                      (seq 0 100) = true)
    by (vm_compute; reflexivity).
  rewrite forallb_forall in H. specialize (H n ltac:(apply in_seq; lia)).
  apply andb_prop in H as [H1 H2]. apply Nat.eqb_eq in H1. split; [done|].
  destruct (PyStr.int_of_str (pad2 n)); simpl in H2; [|done]. by apply Z.eqb_eq in H2 as ->.
Qed.

Lemma pad2_inj n1 n2 : n1 < 100 -> n2 < 100 -> pad2 n1 = pad2 n2 -> n1 = n2.
Proof.
  intros H1 H2 E. destruct (pad2_decode n1 H1) as [_ D1], (pad2_decode n2 H2) as [_ D2].
  rewrite E, D2 in D1. injection D1. lia.
Qed.

Lemma digits_inj n1 n2 : digits n1 = digits n2 -> n1 = n2.
Proof.
  intros E. apply (f_equal PyStr.int_of_str) in E. unfold digits in E.
  rewrite !PyStr.int_of_str_of_Z in E. injection E. lia.
Qed.

(** Splitting [pad2 a ++ r] at its two characters. *)
Lemma pad2_app_inj a1 a2 r1 r2 :
  a1 < 100 -> a2 < 100 -> pad2 a1 ++ r1 = pad2 a2 ++ r2 -> a1 = a2 /\ r1 = r2.
Proof.
  intros H1 H2 E. apply PyStr.append_eq_length_inv in E as [E ->].
  - split; [by apply pad2_inj|done].
  - by rewrite (proj1 (pad2_decode a1 H1)), (proj1 (pad2_decode a2 H2)).
Qed.

(** The eleven characters after the year. *)
Lemma strftime_tail_length t :
  tm_valid t ->
  String.length (pad2 (tm_mon t) ++ pad2 (tm_mday t) ++ "-" ++
                 pad2 (tm_hour t) ++ pad2 (tm_min t) ++ pad2 (tm_sec t)) = 11.
Proof.
  intros (_ & Hmo & Hd & Hh & Hmi & Hs). rewrite !PyStr.length_append.
  rewrite (proj1 (pad2_decode (tm_mon t) ltac:(lia))), (proj1 (pad2_decode (tm_mday t) ltac:(lia))),
    (proj1 (pad2_decode (tm_hour t) ltac:(lia))), (proj1 (pad2_decode (tm_min t) ltac:(lia))),
    (proj1 (pad2_decode (tm_sec t) ltac:(lia))). reflexivity.
Qed.

(** [strftime("%Y%m%d-%H%M%S")] is injective on valid times. *)
Lemma strftime_ts_inj t1 t2 :
  tm_valid t1 -> tm_valid t2 -> strftime_ts t1 = strftime_ts t2 -> t1 = t2.
Proof.
  intros V1 V2 E. unfold strftime_ts in E.
  apply PyStr.append_eq_length_inv_r in E as [Ey E];
    [|by rewrite (strftime_tail_length t1 V1), (strftime_tail_length t2 V2)].
  destruct V1 as (_ & ? & ? & ? & ? & ?), V2 as (_ & ? & ? & ? & ? & ?).
  apply pad2_app_inj in E as [Emo E]; [|lia..].
  apply pad2_app_inj in E as [Ed E]; [|lia..].
  rewrite !PyStr.append_String, !PyStr.append_Empty in E. injection E as E.
  apply pad2_app_inj in E as [Eh E]; [|lia..].
  apply pad2_app_inj in E as [Emi E]; [|lia..].
  apply pad2_inj in E; [|lia..].
  apply digits_inj in Ey. destruct t1, t2; simpl in *. by subst.
Qed.

(** [p / s] for a single component [s]. *)
Lemma div_component p s :
  good_part s = true -> div p s = mkPath (p_root p) (p_parts p ++ [s])%list.
Proof.
  intros Hs. pose proof Hs as Hs'. unfold good_part in Hs'.
  apply andb_prop in Hs' as [He Hc]. apply andb_prop in He as [He _].
  apply negb_true_iff in Hc.
  destruct s as [|c j]; [done|].
  assert (Hcs : c <> slash) by (intros ->; revert Hc; cbn; by rewrite bool_decide_eq_true_2).
  unfold div, path_of_string. cbn [p_root p_parts].
  assert (Hr : parse_root (String c j) = "") by exact (parse_root_app "" c j Hcs ltac:(set_solver)).
  rewrite Hr.
  assert (Hp : parse_parts (String c j) = [String c j]).
  { unfold parse_parts. rewrite PyStr.split_single by done.
    apply filter_good_parts. by constructor. }
  by rewrite Hp.
Qed.

(** [mkdir] only creates directories where nothing is: it keeps every
    file, whether it returns or raises. *)
Lemma mkdir_go_keeps_file k d r a pre todo :
  preserves (fun m : fs => m !! k = Some (NFile d r)) (mkdir_go a pre todo).
Proof.
  revert pre. induction todo as [|x rest IH]; intros pre m Hk; [done|].
  simpl. st_simpl. destruct (m !! (a, (pre ++ [x])%list)) as [[|]|] eqn:E; [done|by apply IH|].
  destruct (writable_parent m _); [|done]. apply IH. rewrite lookup_insert_ne; [done|congruence].
Qed.

Lemma mkdir_parents_keeps_file k d r p :
  preserves (fun m : fs => m !! k = Some (NFile d r)) (mkdir_parents p).
Proof. apply mkdir_go_keeps_file. Qed.

(** Where [shutil.move] puts the file. *)
Definition move_target (src dst : path) (m : fs) : bool * list string :=
  key (if is_dir dst m then div dst (basename src) else dst).

(** A failed [shutil.move] leaves the source file where it was. *)
Lemma move_Raise_src src dst m m' e d r :
  m !! key src = Some (NFile d r) -> move src dst m = (Raise e, m') ->
  m' !! key src = Some (NFile d r).
Proof.
  intros Hs. unfold move, rename, copy2, unlink. st_simpl. cbv zeta.
  set (t := key (if is_dir dst m then div dst (basename src) else dst)). clearbody t.
  case_match; [by intros [= _ <-]|]. cbv beta. rewrite Hs.
  destruct (writable_parent m (key src)), (writable_parent m t);
    repeat (case_match; simplify_eq/=); intros; simplify_eq/=; try done;
    destruct (decide (t = key src)) as [E|E];
    rewrite ?E, ?lookup_insert_eq, ?lookup_insert_ne in *; congruence.
Qed.

(** A [shutil.move] that returns has moved the file to its target. *)
Lemma move_Ret src dst m m' d r :
  m !! key src = Some (NFile d r) -> move src dst m = (Ret tt, m') ->
  move_target src dst m <> key src ->
  m' !! key src = None /\ m' !! move_target src dst m = Some (NFile d r).
Proof.
  intros Hs. unfold move, move_target, rename, copy2, unlink. st_simpl. cbv zeta.
  set (t := key (if is_dir dst m then div dst (basename src) else dst)). clearbody t.
  case_match; [by intros [=]|]. cbv beta. rewrite Hs.
  destruct (writable_parent m (key src)), (writable_parent m t);
    repeat (case_match; simplify_eq/=); intros; simplify_eq/=; try done;
    split; by simplify_map_eq.
Qed.

(** ** What [mkdir] and [shutil.move] leave in place *)

(** The node at [k] is the one [m0] has there, or a directory where
    [m0] has nothing. *)
Definition same_or_new_dir (m0 : fs) (k : bool * list string) (m : fs) : Prop :=
  m !! k = m0 !! k \/ (m0 !! k = None /\ exists b, m !! k = Some (NDir b)).

Lemma same_or_new_dir_refl m k : same_or_new_dir m k m.
Proof. by left. Qed.

(** [mkdir] adds directories where there was nothing. *)
Lemma mkdir_go_new_dirs m0 k a pre todo : preserves (same_or_new_dir m0 k) (mkdir_go a pre todo).
Proof.
  revert pre. induction todo as [|x rest IH]; intros pre m Hk; [done|].
  cbn [mkdir_go]. st_simpl.
  destruct (m !! (a, (pre ++ [x])%list)) as [[d r|w]|] eqn:E; simpl; [done|by apply IH|].
  destruct (writable_parent m _); simpl; [|done]. apply IH.
  destruct (decide (k = (a, (pre ++ [x])%list))) as [->|Hne].
  - right. rewrite lookup_insert_eq. split; [|eauto].
    destruct Hk as [Hk|[Hk _]]; [rewrite <- Hk; exact E|exact Hk].
  - unfold same_or_new_dir. by rewrite lookup_insert_ne.
Qed.

Lemma mkdir_parents_new_dirs m0 k p : preserves (same_or_new_dir m0 k) (mkdir_parents p).
Proof. apply mkdir_go_new_dirs. Qed.

(** [shutil.move] changes the source and the target only, whether it
    returns or raises. *)
Lemma move_frame src dst m k :
  k <> key src -> k <> move_target src dst m -> (move src dst m).2 !! k = m !! k.
Proof.
  unfold move, move_target, rename, copy2, unlink. st_simpl. cbv zeta.
  set (t := key (if is_dir dst m then div dst (basename src) else dst)). clearbody t.
  intros Hs Ht. case_match; [done|]. cbv beta.
  repeat (case_match; simplify_eq/=); try done; by simplify_map_eq.
Qed.

End FS.
