(* ===== verification/Script.v ===== *)
(** * The process [check_license.py] runs in

    The script is a sequence of effects on its process: it reads files,
    the environment, the clock and the output of [git], moves a file and
    writes diagnostics to stderr.  This file gathers those effects into a
    [world] record threaded by the state-and-exception monad [st world],
    fixes the library functions the script only calls as the fields of
    [Platform], and lists the diagnostics the script writes ([_stderr],
    lines 78-79, with the messages of lines 113-294). *)

From S2P Require Import Prelude PyStr PyBytes PyVal FileSystem.
Local Open Scope string_scope.

Module Script.
Import PyVal FS.

(** ** Library functions *)

(** What [tomllib], [json] and [hashlib] compute.  The parsers return
    [None] where they raise (a decoding or syntax error); [tomllib.load]
    always returns a table, and a SHA-256 digest has 32 bytes. *)
Record Platform := mkPlatform {
  toml_load : list byte -> option pyval;
  json_loads : list byte -> option pyval;
  sha256 : list byte -> list byte;
  toml_load_dict : forall b v, toml_load b = Some v -> is_dict v = true;
  sha256_length : forall d, length (sha256 d) = 32%nat
}.

(** ** Diagnostics *)

(** The messages [_stderr] writes; the exception text the script appends
    to some of them is not modelled. *)
Inductive diag :=
  | DParseFailed (path : string)     (* "ERROR: Failed to parse {path}: {e}" *)
  | DUrlsNotListToml                 (* [tool.cline.license_policy].template_repo_urls must be a list *)
  | DUrlsNotListJson                 (* license_policy.json template_repo_urls must be a list *)
  | DNotConfigured                   (* License policy not configured ... *)
  | DUnreadable                      (* Unable to read LICENSE for hashing *)
  | DRemoved (backup_path : string)  (* Template LICENSE detected and removed ... *)
  | DRemoveFailed                    (* Template LICENSE detected but auto-removal failed *)
  | DTemplateDetected.               (* Template LICENSE detected. Remove or replace ... *)

#[export] Instance diag_eq_dec : EqDecision diag.
Proof. solve_decision. Qed.

(** ** The world *)

Record world := mkWorld {
  w_fs : fs;                      (* the file system *)
  w_env : gmap string string;     (* os.environ *)
  w_origin : option string;       (* stdout of git config --get remote.origin.url; None if it fails *)
  w_now : tm;                     (* the local time *)
  w_stderr : list diag            (* what has been written to stderr, in order *)
}.

Abbreviation script := (st world).

Definition set_fs (m : fs) (w : world) : world :=
  mkWorld m (w_env w) (w_origin w) (w_now w) (w_stderr w).

(** [_stderr(msg)] *)
Definition stderr (d : diag) : script unit :=
  fun w => (Ret tt, mkWorld (w_fs w) (w_env w) (w_origin w) (w_now w) (w_stderr w ++ [d])%list).

(** [os.getenv(name)] *)
Definition getenv (name : string) : script (option string) :=
  fun w => (Ret (w_env w !! name), w).

(** A file-system operation run on the world's file system. *)
Definition on_fs {A} (c : st fs A) : script A :=
  fun w => let '(r, m) := c (w_fs w) in (r, set_fs m w).

(** A query of the file system. *)
Definition read_fs {A} (f : fs -> A) : script A := fun w => (Ret (f (w_fs w)), w).

(** [p.read_bytes()] on the world's file system. *)
Definition fs_read_bytes (p : path) : script (list byte) :=
  fun w => (read_bytes p (w_fs w), w).

(** ** Lemmas *)

Lemma read_fs_run {A : Type} (f : fs -> A) w : read_fs f w = (Ret (f (w_fs w)), w).
Proof. reflexivity. Qed.

Lemma on_fs_fs {A : Type} (c : st fs A) w : w_fs (on_fs c w).2 = (c (w_fs w)).2.
Proof. unfold on_fs. by destruct (c (w_fs w)). Qed.

(** The file system is a part of the world only [on_fs] changes. *)
Definition fs_only (P : fs -> Prop) (w : world) : Prop := P (w_fs w).

Lemma preserves_on_fs {A : Type} (P : fs -> Prop) (c : st fs A) :
  preserves P c -> preserves (fs_only P) (on_fs c).
Proof. intros Hc w Hw. unfold fs_only. rewrite on_fs_fs. by apply Hc. Qed.

Lemma preserves_stderr (P : fs -> Prop) d : preserves (fs_only P) (stderr d).
Proof. by intros w. Qed.

Lemma preserves_getenv (P : fs -> Prop) n : preserves (fs_only P) (getenv n).
Proof. by intros w. Qed.

Lemma preserves_read_fs {A : Type} (P : fs -> Prop) (f : fs -> A) : preserves (fs_only P) (read_fs f).
Proof. by intros w. Qed.

Lemma preserves_fs_read_bytes (P : fs -> Prop) p : preserves (fs_only P) (fs_read_bytes p).
Proof. by intros w. Qed.

(** The part of the world the script reads: everything but stderr. *)
Definition frame (w : world) : fs * gmap string string * option string * tm :=
  (w_fs w, w_env w, w_origin w, w_now w).

Definition keeps_frame {A} (c : script A) : Prop :=
  forall f, preserves (fun w => frame w = f) c.

Lemma keeps_frame_stderr d : keeps_frame (stderr d).
Proof. by intros f w. Qed.

Lemma keeps_frame_getenv n : keeps_frame (getenv n).
Proof. by intros f w. Qed.

Lemma keeps_frame_read_fs {A : Type} (g : fs -> A) : keeps_frame (read_fs g).
Proof. by intros f w. Qed.

Lemma keeps_frame_fs_read_bytes p : keeps_frame (fs_read_bytes p).
Proof. by intros f w. Qed.

Lemma keeps_frame_lift {A : Type} (o : outcome A) : keeps_frame (st_lift o).
Proof. by intros f w. Qed.

Lemma keeps_frame_get : keeps_frame st_get.
Proof. by intros f w. Qed.

Lemma keeps_frame_ret {A : Type} (a : A) : keeps_frame (mret a).
Proof. by intros f w. Qed.

Lemma keeps_frame_raise {A : Type} e : keeps_frame (@st_raise world A e).
Proof. by intros f w. Qed.

Lemma keeps_frame_bind {A B : Type} (c : script A) (k : A -> script B) :
  keeps_frame c -> (forall a, keeps_frame (k a)) -> keeps_frame (c ≫= k).
Proof. intros Hc Hk f. apply preserves_bind; [apply Hc|intros a; apply Hk]. Qed.

Lemma keeps_frame_get_bind {B : Type} (k : world -> script B) :
  (forall w, keeps_frame (k w)) -> keeps_frame (st_get ≫= k).
Proof. intros Hk f. apply preserves_get_bind. intros w _. apply Hk. Qed.

Lemma keeps_frame_try {A : Type} (c : script A) h :
  keeps_frame c -> (forall e, keeps_frame (h e)) -> keeps_frame (try c except e => h e).
Proof. intros Hc Hh f. apply preserves_try; [apply Hc|intros e; apply Hh]. Qed.

Lemma keeps_frame_run {A : Type} (c : script A) w : keeps_frame c -> frame (c w).2 = frame w.
Proof. intros Hc. by apply (Hc (frame w)). Qed.

#[export] Hint Resolve keeps_frame_stderr keeps_frame_getenv keeps_frame_read_fs
  keeps_frame_fs_read_bytes keeps_frame_lift keeps_frame_get keeps_frame_ret
  keeps_frame_raise keeps_frame_get_bind keeps_frame_bind keeps_frame_try : pyauto.

(** A script that keeps the frame keeps every property of the files. *)
Lemma keeps_frame_fs_only {A : Type} (P : fs -> Prop) (c : script A) :
  keeps_frame c -> preserves (fs_only P) c.
Proof.
  intros Hc w Hw. unfold fs_only. pose proof (keeps_frame_run c w Hc) as Hf.
  unfold frame in Hf. injection Hf as -> _ _ _. done.
Qed.

(** Prove [keeps_frame] of a script by its structure. *)
Ltac keeps_frame_step :=
  lazymatch goal with
  | |- keeps_frame (mbind _ st_get) => apply keeps_frame_get_bind; intros ?
  | |- keeps_frame (mbind _ _) => apply keeps_frame_bind; [|intros ?]
  | |- keeps_frame (try_except _ _) => apply keeps_frame_try; [|intros ?]
  | |- keeps_frame (match ?x with _ => _ end) => destruct x
  | |- keeps_frame _ => solve [eauto 3 with pyauto]
  end.

Ltac keeps_frame_tac := repeat keeps_frame_step.

#[export] Hint Resolve preserves_on_fs preserves_stderr preserves_getenv preserves_read_fs
  preserves_fs_read_bytes : pyauto.

(** ** Scripts that read the files at some keys only *)

(** Two worlds hold the same nodes at the keys [ks]. *)
Definition fs_agree (ks : list (bool * list string)) (w1 w2 : world) : Prop :=
  Forall (fun k => w_fs w1 !! k = w_fs w2 !! k) ks.

(** [c] returns the same on worlds that agree at [ks], and leaves them
    agreeing there: its result depends on those files only. *)
Definition reads_only {A} (ks : list (bool * list string)) (c : script A) : Prop :=
  forall w1 w2, fs_agree ks w1 w2 -> (c w1).1 = (c w2).1 /\ fs_agree ks (c w1).2 (c w2).2.

Section ReadsOnly.
Context (ks : list (bool * list string)).

Lemma reads_only_ret {A : Type} (a : A) : reads_only ks (mret a).
Proof. by intros w1 w2 H. Qed.

Lemma reads_only_raise {A : Type} e : reads_only ks (@st_raise world A e).
Proof. by intros w1 w2 H. Qed.

Lemma reads_only_lift {A : Type} (o : outcome A) : reads_only ks (st_lift o).
Proof. by intros w1 w2 H. Qed.

Lemma reads_only_stderr d : reads_only ks (stderr d).
Proof. by intros w1 w2 H. Qed.

(** A query that looks at the files at [ks] only. *)
Lemma reads_only_read_fs {A : Type} (g : fs -> A) :
  (forall m1 m2, Forall (fun k => m1 !! k = m2 !! k) ks -> g m1 = g m2) -> reads_only ks (read_fs g).
Proof. intros Hg w1 w2 H. split; [|done]. simpl. f_equal. by apply Hg. Qed.

Lemma reads_only_fs_read_bytes p : key p ∈ ks -> reads_only ks (fs_read_bytes p).
Proof.
  intros Hp w1 w2 H. split; [|done]. simpl. unfold read_bytes.
  by rewrite (proj1 (Forall_forall _ _) H _ Hp).
Qed.

Lemma reads_only_bind {A B : Type} (c : script A) (k : A -> script B) :
  reads_only ks c -> (forall a, reads_only ks (k a)) -> reads_only ks (c ≫= k).
Proof.
  intros Hc Hk w1 w2 H. rewrite !st_bind_run. destruct (Hc w1 w2 H) as [Er Ea].
  destruct (c w1) as [[a|e] w1'], (c w2) as [r2 w2']; simpl in *; subst r2; [by apply Hk|done].
Qed.

Lemma reads_only_try {A : Type} (c : script A) h :
  reads_only ks c -> (forall e, reads_only ks (h e)) -> reads_only ks (try c except e => h e).
Proof.
  intros Hc Hh w1 w2 H. unfold try_except, st_try. destruct (Hc w1 w2 H) as [Er Ea].
  destruct (c w1) as [[a|e] w1'], (c w2) as [r2 w2']; simpl in *; subst r2; [done|by apply Hh].
Qed.

Lemma reads_only_path_exists p : key p ∈ ks -> reads_only ks (read_fs (path_exists p)).
Proof.
  intros Hp. apply reads_only_read_fs. intros m1 m2 H. unfold path_exists.
  by rewrite (proj1 (Forall_forall _ _) H _ Hp).
Qed.

End ReadsOnly.

#[export] Hint Resolve reads_only_ret reads_only_raise reads_only_lift reads_only_stderr
  reads_only_bind reads_only_try reads_only_path_exists reads_only_fs_read_bytes : pyauto.

(** Prove [reads_only] of a script by its structure. *)
Ltac reads_only_step :=
  lazymatch goal with
  | |- reads_only _ (mbind _ _) => apply reads_only_bind; [|intros ?]
  | |- reads_only _ (try_except _ _) => apply reads_only_try; [|intros ?]
  | |- reads_only _ (match ?x with _ => _ end) => destruct x
  | |- reads_only _ (if ?b then _ else _) => destruct b
  | |- reads_only _ _ => solve [eauto 3 with pyauto]
  end.

Ltac reads_only_tac := repeat reads_only_step.

End Script.
