(* ===== verification/Policy.v ===== *)
(** * The license policy and its loading (spec section 4.1)

    [src/scripts/check_license.py] lines 69-75 ([LicensePolicy]), 95-104
    ([parse_bool_env], [split_env_list]), 107-177 (the two loaders) and
    180-197 ([apply_env_overrides]).  The loaders read a file of the
    world, parse it with the platform's parser and build the policy with
    the same field conversions; the part they share (lines 129-147 and
    159-177) is [policy_from_table]. *)

From S2P Require Import Prelude PyStr PyBytes PyVal FileSystem Script.
Local Open Scope string_scope.

Module Policy.
Import PyVal FS Script.

(** ** [LicensePolicy] *)

Record LicensePolicy := mkPolicy {
  template_license_sha256 : string;
  template_repo_urls : list string;
  auto_remove : bool;
  allow_in_template_repo : bool;
  backup_dir : string
}.

(** ** Environment parsing *)

(** [parse_bool_env]: the stripped, lowercased value is one of four
    words; a set variable always yields a boolean. *)
Definition parse_bool_env (val : option string) : option bool :=
  match val with
  | None => None
  | Some v => Some (bool_decide (PyStr.lower (PyStr.strip v) ∈ ["1"; "true"; "yes"; "on"]))
  end.

(** [split_env_list]: [None] for an unset or empty variable, else the
    stripped non-empty comma-separated fields. *)
Definition split_env_list (val : option string) : option (list string) :=
  match val with
  | None | Some "" => None
  | Some v =>
      Some (List.filter (fun s => negb (String.eqb s "")) (map PyStr.strip (PyStr.split "," v)))
  end.

(** ** Loading *)

(** Lines 129-147: read the five keys of a table ([obj.get] raises
    [AttributeError] when the JSON document is not an object), coerce
    them and check that the URLs are a list. *)
Definition policy_from_table (urls_error : diag) (obj : pyval) : script (option LicensePolicy) :=
  tls ← st_lift (get obj "template_license_sha256" VNone);
  urls0 ← st_lift (get obj "template_repo_urls" VNone);
  let urls := if truthy urls0 then urls0 else VList [] in
  auto ← st_lift (get obj "auto_remove" (VBool true));
  allow ← st_lift (get obj "allow_in_template_repo" (VBool true));
  bdir ← st_lift (get obj "backup_dir" (VStr ".license_backup"));
  match tls with
  | VNone => mret None
  | _ =>
      match urls with
      | VList us =>
          mret (Some (mkPolicy (PyStr.strip (str tls)) (map (fun u => PyStr.strip (str u)) us)
                               (truthy auto) (truthy allow) (PyStr.strip (str bdir))))
      | _ => _ ← stderr urls_error; mret None
      end
  end.

(** [apply_env_overrides] as a function of the environment. *)
Definition env_overrides (env : gmap string string) (p : LicensePolicy) : LicensePolicy :=
  let tls := env !! "CLINE_TEMPLATE_LICENSE_SHA256" in
  let urls := split_env_list (env !! "CLINE_TEMPLATE_REPO_URLS") in
  let auto := parse_bool_env (env !! "CLINE_LICENSE_AUTO_REMOVE") in
  let allow := parse_bool_env (env !! "CLINE_LICENSE_ALLOW_IN_TEMPLATE") in
  let backup := env !! "CLINE_LICENSE_BACKUP_DIR" in
  mkPolicy
    (match tls with Some t => if String.eqb t "" then template_license_sha256 p else PyStr.strip t
                  | None => template_license_sha256 p end)
    (match urls with Some ((_ :: _) as us) => us | _ => template_repo_urls p end)
    (match auto with Some b => b | None => auto_remove p end)
    (match allow with Some b => b | None => allow_in_template_repo p end)
    (match backup with Some b => if String.eqb b "" then backup_dir p else PyStr.strip b
                     | None => backup_dir p end).

(** [apply_env_overrides] (lines 180-197): five [os.getenv] calls, then
    each truthy value overrides its field. *)
Definition apply_env_overrides (p : LicensePolicy) : script LicensePolicy :=
  w ← st_get; mret (env_overrides (w_env w) p).

Section Loaders.
Context (pf : Platform).

(** Lines 116-121 and 152-157: read and parse inside [try]; any
    exception is reported and turns into [None]. *)
Definition parse_file (parser : list byte -> option pyval) (p : path) : script (option pyval) :=
  try (data ← fs_read_bytes p;
       match parser data with
       | Some v => mret (Some v)
       | None => st_raise ValueError
       end)
  except _ => (_ ← stderr (DParseFailed (path_str p)); mret None).

(** [load_policy_from_pyproject] (lines 107-147), on Python 3.11+ where
    [tomllib] imports.  The walk down [tool.cline.license_policy] is
    outside the [try]: a [tool] or [cline] entry that is not a table
    raises [AttributeError] out of the loader. *)
Definition load_policy_from_pyproject (p : path) : script (option LicensePolicy) :=
  ex ← read_fs (path_exists p);
  if negb ex then mret None else
  parsed ← parse_file (toml_load pf) p;
  match parsed with
  | None => mret None
  | Some data =>
      tool ← st_lift (get data "tool" (VDict []));
      cline ← st_lift (get tool "cline" (VDict []));
      policy ← st_lift (get cline "license_policy" (VDict []));
      if negb (is_dict policy) then mret None
      else policy_from_table DUrlsNotListToml policy
  end.

(** [load_policy_from_json] (lines 150-177): the document itself is the
    table; one that is not an object raises [AttributeError]. *)
Definition load_policy_from_json (p : path) : script (option LicensePolicy) :=
  ex ← read_fs (path_exists p);
  if negb ex then mret None else
  parsed ← parse_file (json_loads pf) p;
  match parsed with
  | None => mret None
  | Some obj => policy_from_table DUrlsNotListJson obj
  end.

End Loaders.

(** A set but empty CLINE_LICENSE_AUTO_REMOVE disables auto-removal. *)
Lemma env_overrides_auto_remove_empty env p :
  env !! "CLINE_LICENSE_AUTO_REMOVE" = Some "" -> auto_remove (env_overrides env p) = false.
Proof. intros H. unfold env_overrides. by rewrite H. Qed.

(** The loaders read the file they load and no other. *)
Lemma policy_from_table_reads ks e obj : reads_only ks (policy_from_table e obj).
Proof. unfold policy_from_table. reads_only_tac. Qed.

#[local] Hint Resolve policy_from_table_reads : pyauto.

Lemma parse_file_reads ks parser p : key p ∈ ks -> reads_only ks (parse_file parser p).
Proof. intros Hp. unfold parse_file. reads_only_tac. Qed.

#[local] Hint Resolve parse_file_reads : pyauto.

Lemma load_policy_from_pyproject_reads pf ks p :
  key p ∈ ks -> reads_only ks (load_policy_from_pyproject pf p).
Proof. intros Hp. unfold load_policy_from_pyproject. reads_only_tac. Qed.

Lemma load_policy_from_json_reads pf ks p :
  key p ∈ ks -> reads_only ks (load_policy_from_json pf p).
Proof. intros Hp. unfold load_policy_from_json. reads_only_tac. Qed.

(** Without a file at [p] (nothing, or a directory) the loaders find no
    policy. *)
Lemma parse_file_no_file parser p w :
  (forall d r, w_fs w !! key p <> Some (NFile d r)) -> path_exists p (w_fs w) = true ->
  (parse_file parser p w).1 = Ret None.
Proof.
  intros Hf Hex. unfold parse_file, fs_read_bytes, read_bytes. st_simpl.
  unfold path_exists in Hex. apply bool_decide_eq_true_1 in Hex.
  destruct (w_fs w !! key p) as [[d r|b]|] eqn:E; [by destruct (Hf d r)|done|by destruct Hex].
Qed.

Lemma load_policy_from_pyproject_no_file pf p w :
  (forall d r, w_fs w !! key p <> Some (NFile d r)) -> (load_policy_from_pyproject pf p w).1 = Ret None.
Proof.
  intros Hf. unfold load_policy_from_pyproject. rewrite st_bind_run, read_fs_run.
  destruct (path_exists p (w_fs w)) eqn:Hex; [|done]. cbn [negb]. cbv beta iota.
  rewrite st_bind_run. pose proof (parse_file_no_file (toml_load pf) p w Hf Hex) as Hp.
  destruct (parse_file _ _ w) as [r w']. cbn in Hp. by subst r.
Qed.

Lemma load_policy_from_json_no_file pf p w :
  (forall d r, w_fs w !! key p <> Some (NFile d r)) -> (load_policy_from_json pf p w).1 = Ret None.
Proof.
  intros Hf. unfold load_policy_from_json. rewrite st_bind_run, read_fs_run.
  destruct (path_exists p (w_fs w)) eqn:Hex; [|done]. cbn [negb]. cbv beta iota.
  rewrite st_bind_run. pose proof (parse_file_no_file (json_loads pf) p w Hf Hex) as Hp.
  destruct (parse_file _ _ w) as [r w']. cbn in Hp. by subst r.
Qed.

(** The loaders and [apply_env_overrides] only read the world (and
    write to stderr). *)
Lemma policy_from_table_keeps_frame e obj : keeps_frame (policy_from_table e obj).
Proof. unfold policy_from_table. keeps_frame_tac. Qed.

Lemma parse_file_keeps_frame parser p : keeps_frame (parse_file parser p).
Proof. unfold parse_file. keeps_frame_tac. Qed.

#[export] Hint Resolve policy_from_table_keeps_frame parse_file_keeps_frame : pyauto.

Lemma load_policy_from_pyproject_keeps_frame pf p :
  keeps_frame (load_policy_from_pyproject pf p).
Proof. unfold load_policy_from_pyproject. keeps_frame_tac. Qed.

Lemma load_policy_from_json_keeps_frame pf p : keeps_frame (load_policy_from_json pf p).
Proof. unfold load_policy_from_json. keeps_frame_tac. Qed.

Lemma apply_env_overrides_run p w : apply_env_overrides p w = (Ret (env_overrides (w_env w) p), w).
Proof. reflexivity. Qed.

Lemma apply_env_overrides_keeps_frame p : keeps_frame (apply_env_overrides p).
Proof. by intros f w. Qed.

#[export] Hint Resolve load_policy_from_pyproject_keeps_frame load_policy_from_json_keeps_frame
  apply_env_overrides_keeps_frame : pyauto.

(** ** Theorems *)

Lemma policy_from_table_run e d w :
  policy_from_table e (VDict d) w =
  (let tls := match dict_lookup "template_license_sha256" d with Some x => x | None => VNone end in
   let urls0 := match dict_lookup "template_repo_urls" d with Some x => x | None => VNone end in
   let urls := if truthy urls0 then urls0 else VList [] in
   let auto := match dict_lookup "auto_remove" d with Some x => x | None => VBool true end in
   let allow := match dict_lookup "allow_in_template_repo" d with Some x => x | None => VBool true end in
   let bdir := match dict_lookup "backup_dir" d with Some x => x | None => VStr ".license_backup" end in
   match tls with
   | VNone => (Ret None, w)
   | _ => match urls with
          | VList us => (Ret (Some (mkPolicy (PyStr.strip (str tls))
                                  (map (fun u => PyStr.strip (str u)) us)
                                  (truthy auto) (truthy allow) (PyStr.strip (str bdir)))), w)
          | _ => (Ret None, (stderr e w).2)
          end
   end).
Proof. unfold policy_from_table. st_simpl. simpl. by repeat case_match. Qed.

(** C32: a policy table whose five keys hold values of the documented
    types loads as exactly those values, stripped. *)
Theorem policy_from_table_fields e d w tls us a b bd :
  dict_lookup "template_license_sha256" d = Some (VStr tls) ->
  dict_lookup "template_repo_urls" d = Some (VList (map VStr us)) ->
  dict_lookup "auto_remove" d = Some (VBool a) ->
  dict_lookup "allow_in_template_repo" d = Some (VBool b) ->
  dict_lookup "backup_dir" d = Some (VStr bd) ->
  policy_from_table e (VDict d) w =
  (Ret (Some (mkPolicy (PyStr.strip tls) (map PyStr.strip us) a b (PyStr.strip bd))), w).
Proof.
  intros H1 H2 H3 H4 H5. rewrite policy_from_table_run, H1, H2, H3, H4, H5.
  destruct us as [|u us]; simpl; [done|]. by rewrite map_map.
Qed.

(** C33: the keys other than the fingerprint default to no URLs,
    [auto_remove = True], [allow_in_template_repo = True] and the backup
    directory [.license_backup]. *)
Theorem policy_from_table_defaults e d w tls :
  dict_lookup "template_license_sha256" d = Some (VStr tls) ->
  dict_lookup "template_repo_urls" d = None ->
  dict_lookup "auto_remove" d = None ->
  dict_lookup "allow_in_template_repo" d = None ->
  dict_lookup "backup_dir" d = None ->
  policy_from_table e (VDict d) w =
  (Ret (Some (mkPolicy (PyStr.strip tls) [] true true ".license_backup")), w).
Proof. intros H1 H2 H3 H4 H5. by rewrite policy_from_table_run, H1, H2, H3, H4, H5. Qed.

Lemma policy_from_table_fields_witness :
  policy_from_table DUrlsNotListJson
    (VDict [("template_license_sha256", VStr " ab12 "); ("template_repo_urls", VList [VStr "u "]);
            ("auto_remove", VBool false); ("allow_in_template_repo", VBool true);
            ("backup_dir", VStr "bk")])
    (mkWorld ∅ ∅ None (mkTm 2025 1 2 3 4 5) [])
  = (Ret (Some (mkPolicy (PyStr.strip " ab12 ") (map PyStr.strip ["u "]) false true
                         (PyStr.strip "bk"))),
     mkWorld ∅ ∅ None (mkTm 2025 1 2 3 4 5) []).
Proof. apply policy_from_table_fields; reflexivity. Defined.

Lemma policy_from_table_defaults_witness :
  policy_from_table DUrlsNotListToml (VDict [("template_license_sha256", VStr "ab12")])
    (mkWorld ∅ ∅ None (mkTm 2025 1 2 3 4 5) [])
  = (Ret (Some (mkPolicy (PyStr.strip "ab12") [] true true ".license_backup")),
     mkWorld ∅ ∅ None (mkTm 2025 1 2 3 4 5) []).
Proof. apply policy_from_table_defaults; reflexivity. Defined.

(** With none of the five variables set, [apply_env_overrides] returns
    the policy unchanged and leaves the world as it is. *)
Theorem apply_env_overrides_unset p w :
  w_env w !! "CLINE_TEMPLATE_LICENSE_SHA256" = None ->
  w_env w !! "CLINE_TEMPLATE_REPO_URLS" = None ->
  w_env w !! "CLINE_LICENSE_AUTO_REMOVE" = None ->
  w_env w !! "CLINE_LICENSE_ALLOW_IN_TEMPLATE" = None ->
  w_env w !! "CLINE_LICENSE_BACKUP_DIR" = None ->
  apply_env_overrides p w = (Ret p, w).
Proof.
  intros H1 H2 H3 H4 H5. unfold apply_env_overrides, env_overrides. st_simpl.
  rewrite H1, H2, H3, H4, H5. by destruct p.
Qed.

Lemma apply_env_overrides_unset_witness :
  apply_env_overrides (mkPolicy "ab12" [] true true "bk")
    (mkWorld ∅ {[ "HOME" := "/root" ]} None (mkTm 2025 1 2 3 4 5) [])
  = (Ret (mkPolicy "ab12" [] true true "bk"),
     mkWorld ∅ {[ "HOME" := "/root" ]} None (mkTm 2025 1 2 3 4 5) []).
Proof. apply apply_env_overrides_unset; reflexivity. Defined.

End Policy.
