(* ===== verification/Origin.v ===== *)
(** * Repository identity check (spec section 4.2)

    [get_repo_origin_url] (lines 200-209) and [origin_matches_template]
    (lines 212-221) of [src/scripts/check_license.py]: the origin URL
    reported by [git], and whether it names one of the template
    repositories up to surrounding blanks and one trailing [.git]. *)

From S2P Require Import Prelude PyStr PyBytes PyVal FileSystem Script.
Local Open Scope string_scope.

Module Origin.
Import Script.

(** [get_repo_origin_url]: the stripped output of
    [git config --get remote.origin.url], or [""] when the command fails. *)
Definition get_repo_origin_url : script string :=
  w ← st_get;
  mret (match w_origin w with Some out => PyStr.strip out | None => "" end).

(** The inner [norm] of [origin_matches_template]. *)
Definition norm (u : string) : string :=
  let u := PyStr.strip u in
  if PyStr.endswith ".git" u then PyStr.drop_last 4 u else u.

(** [origin_matches_template] *)
Definition origin_matches_template (url : string) (template_urls : list string) : bool :=
  if String.eqb url "" then false
  else match template_urls with
       | [] => false
       | _ => existsb (fun tu => String.eqb (norm tu) (norm url)) template_urls
       end.

(** ** Lemmas *)

(** The origin as [get_repo_origin_url] reports it. *)
Definition origin_of (w : world) : string :=
  match w_origin w with Some out => PyStr.strip out | None => "" end.

Lemma get_repo_origin_url_run w : get_repo_origin_url w = (Ret (origin_of w), w).
Proof. reflexivity. Qed.

Lemma get_repo_origin_url_keeps_frame : keeps_frame get_repo_origin_url.
Proof. by intros f w. Qed.

#[export] Hint Resolve get_repo_origin_url_keeps_frame : pyauto.

Lemma endswith_git_app u : PyStr.endswith ".git" (u ++ ".git") = true.
Proof.
  unfold PyStr.endswith. rewrite PyStr.length_append. change (String.length ".git") with 4.
  rewrite Nat.add_sub. apply andb_true_intro. split; [apply Nat.leb_le; lia|].
  apply bool_decide_eq_true_2. induction u as [|c u IH]; [done|]. exact IH.
Qed.

Lemma drop_last_git_app u : PyStr.drop_last 4 (u ++ ".git") = u.
Proof.
  unfold PyStr.drop_last. rewrite PyStr.length_append. change (String.length ".git") with 4.
  rewrite Nat.add_sub.
  induction u as [|c u IH]; [done|]. simpl. by rewrite IH.
Qed.


(** A stripped URL that does not end in [.git] is its own normal form,
    and so is its [.git] form. *)
Lemma norm_git_app t :
  PyStr.strip t = t -> PyStr.endswith ".git" t = false -> norm (t ++ ".git") = t /\ norm t = t.
Proof.
  intros Hs He. unfold norm. rewrite Hs, He. split; [|done].
  rewrite PyStr.strip_app_stripped by done. by rewrite endswith_git_app, drop_last_git_app.
Qed.

(** ** Theorems *)

(** C18: two URLs that differ only in one trailing [.git] are the same
    repository (spec sections 3 and 4.2): for a non-empty URL [t]
    without surrounding blanks that does not itself end in [.git], the
    origin [t + ".git"] is recognised as a template repository exactly
    when the origin [t] is, whatever the configured URLs. *)
Theorem origin_matches_git_suffix_equiv t tus :
  t <> "" -> PyStr.strip t = t -> PyStr.endswith ".git" t = false ->
  origin_matches_template (t ++ ".git") tus = origin_matches_template t tus.
Proof.
  intros Ht Hs He. destruct (norm_git_app t Hs He) as [H1 H2]. unfold origin_matches_template.
  destruct (String.eqb_spec (t ++ ".git") "") as [E|_].
  { apply (f_equal String.length) in E. rewrite PyStr.length_append in E. simpl in E. lia. }
  destruct (String.eqb_spec t "") as [E|_]; [done|].
  destruct tus as [|t0 tus']; [done|]. by rewrite H1, H2.
Qed.

(** The origin with [.git] and without it against a list holding the
    URL without it. *)
Lemma origin_matches_git_suffix_equiv_witness :
  origin_matches_template ("https://host/org/repo" ++ ".git") ["https://host/other"; "https://host/org/repo"]
  = origin_matches_template "https://host/org/repo" ["https://host/other"; "https://host/org/repo"].
Proof. apply origin_matches_git_suffix_equiv; [discriminate|reflexivity|reflexivity]. Defined.

(** An origin URL that is itself one of the configured URLs matches. *)
Lemma origin_matches_member u tus :
  u <> "" -> In u tus -> origin_matches_template u tus = true.
Proof.
  intros Hu Hin. unfold origin_matches_template.
  destruct (String.eqb_spec u "") as [E|_]; [done|].
  destruct tus as [|t0 tus']; [done|].
  apply existsb_exists. exists u. split; [done|]. by apply String.eqb_eq.
Qed.

(** an empty origin, or an empty list of template URLs, never
    matches. *)
Theorem origin_matches_empty url tus :
  (url = "" \/ tus = []) -> origin_matches_template url tus = false.
Proof. unfold origin_matches_template. intros [->| ->]; [done|]. by case_match. Qed.

Lemma origin_matches_empty_witness : origin_matches_template "" ["https://host/org/repo"] = false.
Proof. apply origin_matches_empty. left. reflexivity. Defined.

End Origin.
