(* ===== verification/Decision.v ===== *)
(** * The enforcement decision table (spec section 4.4)

    The abstract contract of the license check: six facts about the
    repository decide a verdict, and the verdict an exit status
    (spec section 6: 0 pass, 1 policy violation, 2 configuration error).
    [CheckLicense.main_refines_decision] proves that [main] implements
    this table. *)

From S2P Require Import Prelude.

Module Decision.

Inductive verdict := Pass | Violation | ConfigError.

#[export] Instance verdict_eq_dec : EqDecision verdict.
Proof. solve_decision. Qed.

Definition code (v : verdict) : Z :=
  match v with Pass => 0 | Violation => 1 | ConfigError => 2 end.

(** What the checker observes, in the order the table consults it. *)
Record facts := mkFacts {
  configured : bool;          (* a policy with a non-empty fingerprint was loaded *)
  license_present : bool;     (* the license file exists *)
  is_template_repo : bool;    (* the origin is one of the template URLs *)
  allow_in_template : bool;   (* the policy allows the license in the template *)
  license_readable : bool;    (* the license file can be read for hashing *)
  fingerprint_matches : bool  (* its normalised SHA-256 is the fingerprint *)
}.

(** States 1 to 7 of the table, each a terminal decision. *)
Definition decide (f : facts) : verdict :=
  if negb (configured f) then ConfigError
  else if negb (license_present f) then Pass
  else if is_template_repo f && allow_in_template f then Pass
  else if negb (license_readable f) then ConfigError
  else if negb (fingerprint_matches f) then Pass
  else Violation.

(** A violation needs every fact in its favour. *)
Lemma decide_violation f :
  decide f = Violation ->
  configured f = true /\ license_present f = true /\
  (is_template_repo f && allow_in_template f) = false /\
  license_readable f = true /\ fingerprint_matches f = true.
Proof.
  unfold decide.
  destruct (configured f), (license_present f), (is_template_repo f && allow_in_template f),
    (license_readable f), (fingerprint_matches f); done.
Qed.

End Decision.
