(* ===== verification/CheckLicense.v ===== *)
(** * The license-policy enforcer: [main] of [check_license.py]

    Lines 64-66 (paths), 87-92 ([sha256_of_file]), 224-233 (backup),
    236-298 ([main]) and 301-302 (the process exit status).  [main] is a
    computation of [script]: it reads the world, may move the license,
    writes diagnostics and returns the exit code.  [run] is the process:
    an exception that escapes [main] exits with status 1. *)

From S2P Require Import Prelude PyStr PyBytes PyVal FileSystem Script Policy Origin Decision.
Local Open Scope string_scope.

Module CheckLicense.
Import PyVal FS Script Policy Origin.

(** ** Constants (lines 64-66) *)

Definition LICENSE_PATH : path := path_of_string "LICENSE".
Definition PYPROJECT_PATH : path := path_of_string "pyproject.toml".
Definition JSON_POLICY_PATH : path := path_of_string ".clinerules/policy/license_policy.json".

Section Main.
Context (pf : Platform).

(** [sha256_of_file] (lines 87-92): the hex SHA-256 of the file's bytes
    with CR LF normalised to LF. *)
Definition sha256_of_file (p : path) : script string :=
  data ← fs_read_bytes p;
  mret (PyBytes.hexdigest (sha256 pf (PyBytes.normalize_newlines data))).

(** [ensure_backup_dir] (lines 224-225) *)
Definition ensure_backup_dir (p : path) : script unit := on_fs (mkdir_parents p).

(** The name of the backup file (line 231). *)
Definition backup_name (t : tm) : string := "LICENSE.template_backup." ++ strftime_ts t.

(** [backup_and_remove_license] (lines 228-233) *)
Definition backup_and_remove_license (bdir license_path : path) : script path :=
  _ ← ensure_backup_dir bdir;
  w ← st_get;
  let backup_path := div bdir (backup_name (w_now w)) in
  _ ← on_fs (move (path_of_string (path_str license_path))
                  (path_of_string (path_str backup_path)));
  mret backup_path.

(** Steps 4 and 5 of [main] (lines 263-298): hash the license, compare,
    and act on a match. *)
Definition enforce (policy : LicensePolicy) : script Z :=
  hash ← (try (h ← sha256_of_file LICENSE_PATH; mret (Some h))
          except _ => (_ ← stderr DUnreadable; mret None));
  match hash with
  | None => mret 2%Z
  | Some current_hash =>
      if String.eqb current_hash (template_license_sha256 policy) then
        if auto_remove policy then
          try (backup_path ← backup_and_remove_license
                               (path_of_string (backup_dir policy)) LICENSE_PATH;
               _ ← stderr (DRemoved (path_str backup_path));
               mret 1%Z)
          except _ => (_ ← stderr DRemoveFailed; mret 1%Z)
        else (_ ← stderr DTemplateDetected; mret 1%Z)
      else mret 0%Z
  end.

(** Line 238: [load_policy_from_pyproject(...) or load_policy_from_json(...)]. *)
Definition load_policy : script (option LicensePolicy) :=
  p1 ← load_policy_from_pyproject pf PYPROJECT_PATH;
  match p1 with
  | Some p => mret (Some p)
  | None => load_policy_from_json pf JSON_POLICY_PATH
  end.

(** [main] (lines 236-298). *)
Definition main : script Z :=
  loaded ← load_policy;
  match loaded with
  | Some policy0 =>
      if String.eqb (template_license_sha256 policy0) "" then
        (_ ← stderr DNotConfigured; mret 2%Z)
      else
        policy ← apply_env_overrides policy0;
        lic ← read_fs (path_exists LICENSE_PATH);
        if negb lic then mret 0%Z
        else
          origin_url ← get_repo_origin_url;
          if origin_matches_template origin_url (template_repo_urls policy)
          then (if allow_in_template_repo policy then mret 0%Z else enforce policy)
          else enforce policy
  | None => _ ← stderr DNotConfigured; mret 2%Z
  end.

(** [sys.exit(main())] (lines 301-302): the status of the process. *)
Definition exit_status (r : outcome Z) : Z :=
  match r with Ret code => code | Raise _ => 1%Z end.

Definition run (w : world) : Z * world :=
  let '(r, w') := main w in (exit_status r, w').

(** ** Analysis of [main] *)

(** The messages that explain a failing status: a violation (1) or a
    configuration error (2). *)
Definition explains (code : Z) (d : diag) : bool :=
  match d with
  | DRemoved _ | DRemoveFailed | DTemplateDetected => Z.eqb code 1
  | DNotConfigured | DUnreadable => Z.eqb code 2
  | _ => false
  end.

(** The exit code of the comparison step, from the bytes of [LICENSE]. *)
Definition license_code (tls : string) (m : fs) : Z :=
  match read_bytes LICENSE_PATH m with
  | Raise _ => 2
  | Ret d =>
      if String.eqb (PyBytes.hexdigest (sha256 pf (PyBytes.normalize_newlines d))) tls
      then 1 else 0
  end.

(** [enforce] never raises: every exception in it is caught. *)
Lemma enforce_result p w :
  (enforce p w).1 = Ret (license_code (template_license_sha256 p) (w_fs w)).
Proof.
  unfold enforce, sha256_of_file, fs_read_bytes, license_code. st_simpl.
  destruct (read_bytes LICENSE_PATH (w_fs w)) as [d|e]; simpl; [|done].
  case_match; [|done]. case_match; [|done].
  by destruct (backup_and_remove_license _ _ w) as [[bp|e] w'].
Qed.

Lemma load_policy_keeps_frame : keeps_frame load_policy.
Proof. unfold load_policy. keeps_frame_tac. Qed.

#[local] Hint Resolve load_policy_keeps_frame : pyauto.
#[local] Hint Extern 2 (preserves (fs_only _) _) => apply keeps_frame_fs_only : pyauto.

Lemma frame_eq w1 w :
  frame w1 = frame w ->
  w_fs w1 = w_fs w /\ w_env w1 = w_env w /\ w_origin w1 = w_origin w /\ w_now w1 = w_now w.
Proof. unfold frame. intros H. by simplify_eq. Qed.

(** The facts of the decision table, read off the world by the model's
    own functions; [None] when loading the policy raises. *)
Definition observe (w : world) : option Decision.facts :=
  match (load_policy w).1 with
  | Raise _ => None
  | Ret None => Some (Decision.mkFacts false false false false false false)
  | Ret (Some p0) =>
      Some (Decision.mkFacts
              (negb (String.eqb (template_license_sha256 p0) ""))
              (path_exists LICENSE_PATH (w_fs w))
              (origin_matches_template (origin_of w)
                 (template_repo_urls (env_overrides (w_env w) p0)))
              (allow_in_template_repo (env_overrides (w_env w) p0))
              (match read_bytes LICENSE_PATH (w_fs w) with Ret _ => true | Raise _ => false end)
              (bool_decide (license_code (template_license_sha256
                                            (env_overrides (w_env w) p0)) (w_fs w) = 1%Z)))
  end.

(** The exit status of the comparison step is the table's lower half. *)
Lemma run_enforce p w1 m :
  w_fs w1 = m ->
  (let '(r, w') := enforce p w1 in (exit_status r, w')).1 =
  Decision.code
    (if negb (match read_bytes LICENSE_PATH m with Ret _ => true | Raise _ => false end)
     then Decision.ConfigError
     else if negb (bool_decide (license_code (template_license_sha256 p) m = 1%Z))
     then Decision.Pass else Decision.Violation).
Proof.
  intros <-. pose proof (enforce_result p w1) as He.
  destruct (enforce p w1) as [r w']. simpl in He. subst r. simpl.
  unfold license_code. destruct (read_bytes _ _); simpl; [|done]. by case_match.
Qed.

(** The exit status is the table's code on the observed facts. *)
Lemma run_observe w f :
  observe w = Some f -> (run w).1 = Decision.code (Decision.decide f).
Proof.
  unfold observe, run, main. intros Hobs.
  pose proof (keeps_frame_run _ w load_policy_keeps_frame) as Hf.
  rewrite st_bind_run. destruct (load_policy w) as [r1 w1]. cbv [fst snd] in Hf, Hobs.
  destruct (frame_eq _ _ Hf) as (Hfs & Henv & Hor & _).
  destruct r1 as [[p0|]|e]; [| by injection Hobs as <- | done].
  apply (f_equal (fun o => match o with Some x => x | None => f end)) in Hobs.
  cbv beta iota in Hobs. subst f.
  unfold Decision.decide at 1. cbv [Decision.configured].
  destruct (String.eqb (template_license_sha256 p0) "") eqn:Etls; [done|].
  cbn iota beta. rewrite (st_bind_run (apply_env_overrides p0)), apply_env_overrides_run, Henv.
  cbn iota beta. rewrite (st_bind_run (read_fs _)), read_fs_run, Hfs.
  cbv [Decision.license_present negb].
  destruct (path_exists LICENSE_PATH (w_fs w)); [|done].
  cbn beta iota delta [negb]. rewrite (st_bind_run get_repo_origin_url), get_repo_origin_url_run.
  assert (origin_of w1 = origin_of w) as Ho by (unfold origin_of; by rewrite Hor).
  rewrite Ho. cbn iota beta.
  cbv [Decision.is_template_repo Decision.allow_in_template Decision.license_readable
       Decision.fingerprint_matches].
  destruct (origin_matches_template _ _), (allow_in_template_repo _); cbn [andb];
    try done; by apply run_enforce.
Qed.

(** C1: [main] implements the decision table: whenever the policy loads
    without an exception, the process exits with the code of the
    table's verdict on the observed facts. *)
Theorem main_refines_decision w f :
  observe w = Some f -> (run w).1 = Decision.code (Decision.decide f).
Proof. apply run_observe. Qed.

Lemma backup_and_remove_license_wf bdir lp :
  preserves (fs_only fs_wf) (backup_and_remove_license bdir lp).
Proof. unfold backup_and_remove_license, ensure_backup_dir. preserves_tac. Qed.

#[local] Hint Resolve backup_and_remove_license_wf : pyauto.

Lemma enforce_wf p : preserves (fs_only fs_wf) (enforce p).
Proof. unfold enforce, sha256_of_file. preserves_tac. Qed.

#[local] Hint Resolve enforce_wf : pyauto.

(** [enforce] touches the files only to remove a license it has matched
    when [auto_remove] is set. *)
Lemma enforce_unchanged p w :
  license_code (template_license_sha256 p) (w_fs w) <> 1%Z \/ auto_remove p = false ->
  w_fs (enforce p w).2 = w_fs w.
Proof.
  unfold enforce, sha256_of_file, fs_read_bytes, license_code. st_simpl.
  destruct (read_bytes LICENSE_PATH (w_fs w)) as [d|e]; simpl; [|done].
  destruct (String.eqb _ _); simpl; [|done]. intros [H | ->]; [done | done].
Qed.

(** Up to [enforce], [main] only reads the files. *)
Lemma main_cases w :
  w_fs (main w).2 = w_fs w \/
  exists p w', w_fs w' = w_fs w /\ main w = enforce p w'.
Proof.
  unfold main. pose proof (keeps_frame_run _ w load_policy_keeps_frame) as Hf.
  rewrite st_bind_run. destruct (load_policy w) as [r1 w1]. cbv [fst snd] in Hf.
  destruct (frame_eq _ _ Hf) as (Hfs & _). destruct r1 as [[p0|]|e]; [|by left|by left].
  cbv beta iota. destruct (String.eqb _ _); [by left|].
  rewrite (st_bind_run (apply_env_overrides p0)), apply_env_overrides_run. cbv beta iota.
  rewrite (st_bind_run (read_fs _)), read_fs_run. cbv beta iota.
  destruct (path_exists _ _); cbn [negb]; [|by left].
  rewrite (st_bind_run get_repo_origin_url), get_repo_origin_url_run. cbv beta iota.
  destruct (origin_matches_template _ _); [destruct (allow_in_template_repo _)|];
    first [by left | right; eauto].
Qed.

(** The ways [main] ends: a pass, an exception, the configuration error
    it reports, or the comparison step. *)
Lemma main_shape w :
  (main w).1 = Ret 0%Z \/ (exists e, (main w).1 = Raise e) \/
  ((main w).1 = Ret 2%Z /\ last (w_stderr (main w).2) = Some DNotConfigured) \/
  exists p w', main w = enforce p w'.
Proof.
  unfold main. rewrite st_bind_run. destruct (load_policy w) as [[[p0|]|e] w1];
    [| cbn; right; right; left; split; [done|apply last_snoc] | right; left; by eexists].
  cbv beta iota. destruct (String.eqb _ _).
  { cbn. right; right; left. split; [done|apply last_snoc]. }
  rewrite (st_bind_run (apply_env_overrides p0)), apply_env_overrides_run. cbv beta iota.
  rewrite (st_bind_run (read_fs _)), read_fs_run. cbv beta iota.
  destruct (path_exists _ _); cbn [negb]; [|by left].
  rewrite (st_bind_run get_repo_origin_url), get_repo_origin_url_run. cbv beta iota.
  destruct (origin_matches_template _ _); [destruct (allow_in_template_repo _)|];
    first [by left | right; right; right; eauto].
Qed.

(** Every failing status of [enforce] comes with its message, last. *)
Lemma enforce_explains p w c :
  (enforce p w).1 = Ret c -> c <> 0%Z ->
  exists d, last (w_stderr (enforce p w).2) = Some d /\ explains c d = true.
Proof.
  unfold enforce, sha256_of_file, fs_read_bytes. st_simpl.
  destruct (read_bytes LICENSE_PATH (w_fs w)) as [d|e]; cbn.
  - destruct (String.eqb _ _); cbn; [|by intros [= <-]].
    destruct (auto_remove p); cbn.
    + destruct (backup_and_remove_license _ _ w) as [[bp|e] w']; cbn; intros [= <-] _;
        rewrite last_snoc; by eexists.
    + intros [= <-] _. rewrite last_snoc. by eexists.
  - intros [= <-] _. rewrite last_snoc. by eexists.
Qed.

Lemma main_explains w c :
  (main w).1 = Ret c -> c <> 0%Z ->
  exists d, last (w_stderr (main w).2) = Some d /\ explains c d = true.
Proof.
  destruct (main_shape w) as [E|[[e E]|[[E Hl]|(p & w' & E)]]]; rewrite ?E.
  - by intros [= <-].
  - discriminate.
  - intros [= <-] _. by exists DNotConfigured.
  - apply enforce_explains.
Qed.

(** Only status 1 comes with changed files. *)
Lemma run_fs_unchanged w : (run w).1 <> 1%Z -> w_fs (run w).2 = w_fs w.
Proof.
  unfold run. destruct (main_cases w) as [Hu|(p & w' & Hfs & He)].
  - destruct (main w). simpl in *. done.
  - rewrite He. pose proof (enforce_result p w') as Hr. pose proof (enforce_unchanged p w') as Hc.
    destruct (enforce p w') as [r w'']. simpl in *. subst r. simpl. intros Hne.
    rewrite Hc; [exact Hfs | by left].
Qed.

(** C4: the check touches no file unless it exits with status 1: a
    pass (0) or a configuration error (2) leaves the file system as it
    found it. *)
Theorem main_fs_unchanged w : (run w).1 <> 1%Z -> w_fs (run w).2 = w_fs w.
Proof. apply run_fs_unchanged. Qed.

(** A match is only possible against 64 lowercase hex digits. *)
Lemma license_code_match tls m :
  license_code tls m = 1%Z -> String.length tls = 64%nat /\ PyBytes.is_lower_hex tls = true.
Proof.
  unfold license_code. destruct (read_bytes _ _) as [d|e]; [|discriminate].
  destruct (String.eqb_spec (PyBytes.hexdigest (sha256 pf (PyBytes.normalize_newlines d))) tls)
    as [<-|_]; [|discriminate].
  intros _. rewrite PyBytes.hexdigest_length, sha256_length. split; [done|].
  apply PyBytes.hexdigest_lower_hex.
Qed.

(** ** Removing the license: the file is moved, never lost *)

Lemma backup_name_good t : good_part (backup_name t) = true.
Proof.
  unfold good_part, backup_name. cbn [String.eqb negb andb]. apply negb_true_iff.
  rewrite PyStr.contains_char_app. apply orb_false_intro; [reflexivity|].
  apply strftime_ts_no_slash.
Qed.

(** C19: two runs at different local times back the license up under
    different paths of [backup_dir], and runs within the same second
    under the same one: the [%Y%m%d-%H%M%S] suffix of [backup_name]
    determines the time to the second (spec section 4.4), for every
    valid [struct tm]. *)
Theorem backup_path_inj bdir t1 t2 :
  tm_valid t1 -> tm_valid t2 ->
  div bdir (backup_name t1) = div bdir (backup_name t2) <-> t1 = t2.
Proof.
  intros V1 V2. split; [|by intros ->].
  rewrite !div_component by apply backup_name_good. intros [= E].
  apply app_inj_tail in E as [_ E]. unfold backup_name in E.
  apply PyStr.append_eq_length_inv in E as [_ E]; [|done].
  by apply strftime_ts_inj.
Qed.

(** Where [shutil.move] puts the license: at the backup path, or in it
    when the backup path is a directory. *)
Lemma backup_target_cases bdir t m :
  path_ok bdir ->
  let bp := div bdir (backup_name t) in
  move_target (path_of_string (path_str LICENSE_PATH)) (path_of_string (path_str bp)) m
    ∈ [key bp; key (div bp "LICENSE")].
Proof.
  intros Hb bp. unfold bp. rewrite (path_of_string_path_str_id (div bdir _)) by (by apply div_ok).
  unfold move_target. change (basename (path_of_string (path_str LICENSE_PATH))) with "LICENSE".
  case_match; set_solver.
Qed.

(** The backup target is never the license itself. *)
Lemma backup_target_ne bdir t m :
  path_ok bdir ->
  move_target (path_of_string (path_str LICENSE_PATH))
              (path_of_string (path_str (div bdir (backup_name t)))) m <> key LICENSE_PATH.
Proof.
  intros Hb. rewrite (path_of_string_path_str_id (div bdir _)) by (by apply div_ok).
  unfold move_target. change (basename (path_of_string (path_str LICENSE_PATH))) with "LICENSE".
  rewrite (div_component bdir) by apply backup_name_good.
  change (key LICENSE_PATH) with (false, ["LICENSE"]).
  case_match; [rewrite div_component by reflexivity|]; intros [= _ E];
    apply (f_equal length) in E as Elen; rewrite ?length_app in Elen; simpl in Elen; [lia|].
  destruct (p_parts bdir); [|simpl in Elen; lia].
  injection E as E. apply (f_equal String.length) in E.
  unfold backup_name in E. rewrite PyStr.length_append in E. simpl in E. lia.
Qed.

(** A failed backup leaves the license where it was. *)
Lemma backup_and_remove_license_Raise bdir w e w' d r :
  w_fs w !! key LICENSE_PATH = Some (NFile d r) ->
  backup_and_remove_license bdir LICENSE_PATH w = (Raise e, w') ->
  w_fs w' !! key LICENSE_PATH = Some (NFile d r).
Proof.
  intros Hk. unfold backup_and_remove_license, ensure_backup_dir, on_fs. st_simpl.
  pose proof (mkdir_parents_keeps_file _ _ _ bdir _ Hk) as Hk1.
  destruct (mkdir_parents bdir (w_fs w)) as [[[]|e1] m1]; simpl in Hk1; [|by intros [= _ <-]].
  change (path_of_string (path_str LICENSE_PATH)) with LICENSE_PATH.
  cbv [set_fs]. cbn [w_fs w_now].
  match goal with |- context [move ?a ?b m1] => destruct (move a b m1) as [[[]|e2] m2] eqn:Em end;
    intros [= _ <-].
  by eapply move_Raise_src.
Qed.

(** A backup that returns has moved the license to the backup path it
    returns, or into it. *)
Lemma backup_and_remove_license_Ret bdir w bp w' d r :
  path_ok bdir ->
  w_fs w !! key LICENSE_PATH = Some (NFile d r) ->
  backup_and_remove_license bdir LICENSE_PATH w = (Ret bp, w') ->
  bp = div bdir (backup_name (w_now w)) /\ w_fs w' !! key LICENSE_PATH = None /\
  exists k, k ∈ [key bp; key (div bp "LICENSE")] /\ w_fs w' !! k = Some (NFile d r).
Proof.
  intros Hb Hk. unfold backup_and_remove_license, ensure_backup_dir, on_fs. st_simpl.
  pose proof (mkdir_parents_keeps_file _ _ _ bdir _ Hk) as Hk1.
  destruct (mkdir_parents bdir (w_fs w)) as [[[]|e1] m1]; simpl in Hk1; [|by intros [=]].
  cbv [set_fs]. cbn [w_fs w_now].
  pose proof (backup_target_cases bdir (w_now w) m1 Hb) as Ht.
  pose proof (backup_target_ne bdir (w_now w) m1 Hb) as Hne.
  change (path_of_string (path_str LICENSE_PATH)) with LICENSE_PATH in Ht, Hne |- *.
  match goal with |- context [move ?a ?b m1] => destruct (move a b m1) as [[[]|e2] m2] eqn:Em end;
    intros [= <- <-].
  destruct (move_Ret _ _ _ _ _ _ Hk1 Em Hne) as [Hgone Hat].
  split; [done|]. split; [done|]. eexists; split; [exact Ht|exact Hat].
Qed.

(** A backup file already at the backup path (a run in the same second)
    is the move's target: a backup that returns has put the license in
    its place. *)
Lemma backup_and_remove_license_over_file bdir w bp w' d r old r' :
  path_ok bdir ->
  w_fs w !! key LICENSE_PATH = Some (NFile d r) ->
  w_fs w !! key (div bdir (backup_name (w_now w))) = Some (NFile old r') ->
  backup_and_remove_license bdir LICENSE_PATH w = (Ret bp, w') ->
  w_fs w' !! key bp = Some (NFile d r).
Proof.
  intros Hb Hk Ho. unfold backup_and_remove_license, ensure_backup_dir, on_fs. st_simpl.
  pose proof (mkdir_parents_keeps_file _ _ _ bdir _ Hk) as Hk1.
  pose proof (mkdir_parents_keeps_file _ _ _ bdir _ Ho) as Ho1.
  destruct (mkdir_parents bdir (w_fs w)) as [[[]|e1] m1]; simpl in Hk1, Ho1; [|by intros [=]].
  cbv [set_fs]. cbn [w_fs w_now].
  pose proof (backup_target_ne bdir (w_now w) m1 Hb) as Hne.
  change (path_of_string (path_str LICENSE_PATH)) with LICENSE_PATH in Hne |- *.
  match goal with |- context [move ?a ?b m1] => destruct (move a b m1) as [[[]|e2] m2] eqn:Em end;
    intros [= <- <-].
  destruct (move_Ret _ _ _ _ _ _ Hk1 Em Hne) as [_ Hat]. cbn [w_fs].
  revert Hat. unfold move_target, is_dir.
  rewrite (path_of_string_path_str_id (div bdir _)) by (by apply div_ok). by rewrite Ho1.
Qed.

(** The removal branch of [enforce]: status 1, and either the license
    is at the backup path and the removal reported, or it is where it was
    and the failure reported. *)
Definition removal_outcome (p : LicensePolicy) (w w' : world) (d : list byte) : Prop :=
  let bp := div (path_of_string (backup_dir p)) (backup_name (w_now w)) in
  (w_fs w' !! key LICENSE_PATH = None /\
   (exists k, k ∈ [key bp; key (div bp "LICENSE")] /\ w_fs w' !! k = Some (NFile d true)) /\
   last (w_stderr w') = Some (DRemoved (path_str bp))) \/
  (w_fs w' !! key LICENSE_PATH = Some (NFile d true) /\ last (w_stderr w') = Some DRemoveFailed).

Lemma enforce_auto_remove p w d :
  read_bytes LICENSE_PATH (w_fs w) = Ret d ->
  PyBytes.hexdigest (sha256 pf (PyBytes.normalize_newlines d)) = template_license_sha256 p ->
  auto_remove p = true ->
  (enforce p w).1 = Ret 1%Z /\ removal_outcome p w (enforce p w).2 d.
Proof.
  intros Hd Hh Ha. assert (Hk : w_fs w !! key LICENSE_PATH = Some (NFile d true)).
  { revert Hd. unfold read_bytes. by repeat case_match; intros; simplify_eq. }
  unfold enforce, sha256_of_file, fs_read_bytes. st_simpl. rewrite Hd. cbn iota beta.
  rewrite Hh, String.eqb_refl, Ha. cbn iota beta.
  destruct (backup_and_remove_license _ _ w) as [[bp|e] w'] eqn:Eb; cbn; split; try done.
  - destruct (backup_and_remove_license_Ret _ _ _ _ _ _ (path_of_string_ok _) Hk Eb)
      as (-> & Hgone & Hat).
    unfold removal_outcome; cbn [w_fs w_stderr]. left. rewrite last_snoc. by split_and!.
  - unfold removal_outcome; cbn [w_fs w_stderr]. right. rewrite last_snoc. split; [|done].
    by eapply backup_and_remove_license_Raise.
Qed.

(** The auto-removal branch over an existing backup file: when the
    license is gone, it is at the backup path, in place of that file. *)
Lemma enforce_over_file p w d old r' :
  read_bytes LICENSE_PATH (w_fs w) = Ret d ->
  PyBytes.hexdigest (sha256 pf (PyBytes.normalize_newlines d)) = template_license_sha256 p ->
  auto_remove p = true ->
  w_fs w !! key (div (path_of_string (backup_dir p)) (backup_name (w_now w))) = Some (NFile old r') ->
  w_fs (enforce p w).2 !! key LICENSE_PATH = None ->
  w_fs (enforce p w).2 !! key (div (path_of_string (backup_dir p)) (backup_name (w_now w)))
    = Some (NFile d true).
Proof.
  intros Hd Hh Ha Ho. assert (Hk : w_fs w !! key LICENSE_PATH = Some (NFile d true)).
  { revert Hd. unfold read_bytes. by repeat case_match; intros; simplify_eq. }
  unfold enforce, sha256_of_file, fs_read_bytes. st_simpl. rewrite Hd. cbn iota beta.
  rewrite Hh, String.eqb_refl, Ha. cbn iota beta.
  destruct (backup_and_remove_license _ _ w) as [[bp|e] w'] eqn:Eb; cbn.
  - intros _. destruct (backup_and_remove_license_Ret _ _ _ _ _ _ (path_of_string_ok _) Hk Eb)
      as (Ebp & _). rewrite <- Ebp.
    exact (backup_and_remove_license_over_file _ _ _ _ _ _ _ _ (path_of_string_ok _) Hk Ho Eb).
  - rewrite (backup_and_remove_license_Raise _ _ _ _ _ _ Hk Eb). discriminate.
Qed.

(** Past the configured check, a present license and a repository that
    is not an allowed template, [main] is [enforce] of the effective
    policy on a world with the same files, environment, origin and clock. *)
Lemma main_reaches_enforce w p0 :
  (load_policy w).1 = Ret (Some p0) -> String.eqb (template_license_sha256 p0) "" = false ->
  path_exists LICENSE_PATH (w_fs w) = true ->
  (origin_matches_template (origin_of w) (template_repo_urls (env_overrides (w_env w) p0))
   && allow_in_template_repo (env_overrides (w_env w) p0)) = false ->
  exists w1, frame w1 = frame w /\ main w = enforce (env_overrides (w_env w) p0) w1.
Proof.
  intros Hl Htls Hex Hta. unfold main.
  pose proof (keeps_frame_run _ w load_policy_keeps_frame) as Hf.
  rewrite st_bind_run. destruct (load_policy w) as [r1 w1]. cbv [fst snd] in Hf, Hl. subst r1.
  destruct (frame_eq _ _ Hf) as (Hfs & Henv & Hor & _).
  cbv beta iota. rewrite Htls.
  rewrite (st_bind_run (apply_env_overrides p0)), apply_env_overrides_run, Henv. cbv beta iota.
  rewrite (st_bind_run (read_fs _)), read_fs_run, Hfs, Hex. cbn [negb]. cbv beta iota.
  rewrite (st_bind_run get_repo_origin_url), get_repo_origin_url_run.
  assert (origin_of w1 = origin_of w) as Ho by (unfold origin_of; by rewrite Hor).
  rewrite Ho. cbv beta iota. exists w1. split; [done|].
  destruct (origin_matches_template _ _), (allow_in_template_repo _); done.
Qed.

(** The policy [main] enforces, after the environment overrides. *)
Definition effective_policy (w : world) : option LicensePolicy :=
  match (load_policy w).1 with
  | Ret (Some p0) => Some (env_overrides (w_env w) p0)
  | _ => None
  end.

(** The fingerprint behind a violation. *)
Lemma violation_fingerprint w f p :
  observe w = Some f -> effective_policy w = Some p ->
  Decision.decide f = Decision.Violation ->
  String.length (template_license_sha256 p) = 64%nat /\
  PyBytes.is_lower_hex (template_license_sha256 p) = true.
Proof.
  unfold observe, effective_policy. destruct (load_policy w) as [[[p0|]|e] w1]; cbv [fst];
    intros Ho Hp Hv; try discriminate.
  assert (Ep : env_overrides (w_env w) p0 = p) by congruence. clear Hp.
  destruct (Decision.decide_violation f Hv) as (_ & _ & _ & _ & Hm).
  rewrite <- (Some_inj _ _ Ho) in Hm. cbv [Decision.fingerprint_matches] in Hm. rewrite Ep in Hm.
  eapply license_code_match. by eapply bool_decide_eq_true_1.
Qed.

(** C15: when the policy loads, the check exits with status 1 only
    against a fingerprint of 64 lowercase hex digits: any other effective
    [template_license_sha256] (an empty one, one in uppercase, one with
    inner blanks) lets every license pass. *)
Theorem main_violation_needs_hex_fingerprint w f p :
  observe w = Some f -> effective_policy w = Some p -> (run w).1 = 1%Z ->
  String.length (template_license_sha256 p) = 64%nat /\
  PyBytes.is_lower_hex (template_license_sha256 p) = true.
Proof.
  intros Ho Hp Hr. rewrite (run_observe w f Ho) in Hr.
  apply (violation_fingerprint w f p Ho Hp). by destruct (Decision.decide f).
Qed.

(** C16: a CLINE_TEMPLATE_LICENSE_SHA256 made only of blanks is set and
    non-empty, so it overrides the configured fingerprint with the empty
    string after the configured check has passed: enforcement is off, and
    the template license is never reported. *)
Theorem main_blank_env_fingerprint_passes w f t :
  observe w = Some f ->
  w_env w !! "CLINE_TEMPLATE_LICENSE_SHA256" = Some t -> t <> "" -> PyStr.strip t = "" ->
  (run w).1 <> 1%Z.
Proof.
  intros Ho Ht Hne Hs. rewrite (run_observe w f Ho).
  destruct (Decision.decide f) eqn:Hv; [discriminate|..|discriminate].
  destruct (effective_policy w) as [p|] eqn:Hp.
  - destruct (violation_fingerprint w f p Ho Hp Hv) as [Hl _].
    revert Hp Hl. unfold effective_policy. case_match; try discriminate.
    case_match; intros [= <-]. unfold env_overrides. rewrite Ht.
    destruct (String.eqb_spec t ""); [done|]. cbn [template_license_sha256]. by rewrite Hs.
  - revert Ho Hp Hv. unfold observe, effective_policy.
    repeat case_match; intros; simplify_eq; done.
Qed.

(** Reading the license succeeds only on a file that exists. *)
Lemma read_bytes_exists p m d : read_bytes p m = Ret d -> path_exists p m = true.
Proof.
  unfold read_bytes, path_exists. intros H. apply bool_decide_eq_true_2.
  destruct (m !! key p); [done|discriminate].
Qed.

(** The auto-removal branch of [enforce] reached from [main]. *)
Lemma run_auto_remove w p0 d :
  (load_policy w).1 = Ret (Some p0) -> template_license_sha256 p0 <> "" ->
  let p := env_overrides (w_env w) p0 in
  (origin_matches_template (origin_of w) (template_repo_urls p) && allow_in_template_repo p)
    = false ->
  read_bytes LICENSE_PATH (w_fs w) = Ret d ->
  PyBytes.hexdigest (sha256 pf (PyBytes.normalize_newlines d)) = template_license_sha256 p ->
  auto_remove p = true ->
  (run w).1 = 1%Z /\ removal_outcome p w (run w).2 d.
Proof.
  intros Hl Htls p Hta Hd Hh Ha. unfold p in *. clear p.
  apply String.eqb_neq in Htls.
  destruct (main_reaches_enforce w p0 Hl Htls (read_bytes_exists _ _ _ Hd) Hta)
    as (w1 & Hf & Hm).
  destruct (frame_eq _ _ Hf) as (Hfs & _ & _ & Hnow).
  rewrite <- Hfs in Hd.
  destruct (enforce_auto_remove _ w1 d Hd Hh Ha) as [Hr Ho].
  unfold run. rewrite Hm. destruct (enforce _ w1) as [r w'] eqn:E. cbn in Hr |- *. subst r.
  split; [done|]. unfold removal_outcome in *. by rewrite <- Hnow.
Qed.

(** C2: auto-removal never loses the license (spec sections 4.4 state 7
    and 8): when the license matches the configured fingerprint,
    [auto_remove] is on and the repository is not an allowed template,
    the process exits with status 1 and either the license bytes have
    moved to [backup_dir/LICENSE.template_backup.<timestamp>] (or into
    it, when that path is a directory), the license is gone and the last
    message reports the removal, or the license is still in place and
    the last message reports the failure. *)
Theorem main_auto_remove_keeps_license w p0 d :
  (load_policy w).1 = Ret (Some p0) -> template_license_sha256 p0 <> "" ->
  let p := env_overrides (w_env w) p0 in
  (origin_matches_template (origin_of w) (template_repo_urls p) && allow_in_template_repo p)
    = false ->
  read_bytes LICENSE_PATH (w_fs w) = Ret d ->
  PyBytes.hexdigest (sha256 pf (PyBytes.normalize_newlines d)) = template_license_sha256 p ->
  auto_remove p = true ->
  (run w).1 = 1%Z /\ removal_outcome p w (run w).2 d.
Proof. apply run_auto_remove. Qed.

Lemma enforce_no_auto_remove p w d :
  read_bytes LICENSE_PATH (w_fs w) = Ret d ->
  PyBytes.hexdigest (sha256 pf (PyBytes.normalize_newlines d)) = template_license_sha256 p ->
  auto_remove p = false ->
  enforce p w = (Ret 1%Z, mkWorld (w_fs w) (w_env w) (w_origin w) (w_now w)
                                  (w_stderr w ++ [DTemplateDetected])%list).
Proof.
  intros Hd Hh Ha. unfold enforce, sha256_of_file, fs_read_bytes. st_simpl. rewrite Hd.
  cbn iota beta. by rewrite Hh, String.eqb_refl, Ha.
Qed.

(** The manual branch of [enforce] reached from [main]. *)
Lemma run_template_detected w p0 d :
  (load_policy w).1 = Ret (Some p0) -> template_license_sha256 p0 <> "" ->
  let p := env_overrides (w_env w) p0 in
  (origin_matches_template (origin_of w) (template_repo_urls p) && allow_in_template_repo p)
    = false ->
  read_bytes LICENSE_PATH (w_fs w) = Ret d ->
  PyBytes.hexdigest (sha256 pf (PyBytes.normalize_newlines d)) = template_license_sha256 p ->
  auto_remove p = false ->
  (run w).1 = 1%Z /\ w_fs (run w).2 = w_fs w /\ last (w_stderr (run w).2) = Some DTemplateDetected.
Proof.
  intros Hl Htls p Hta Hd Hh Ha. unfold p in *. clear p.
  apply String.eqb_neq in Htls.
  destruct (main_reaches_enforce w p0 Hl Htls (read_bytes_exists _ _ _ Hd) Hta)
    as (w1 & Hf & Hm).
  destruct (frame_eq _ _ Hf) as (Hfs & _). rewrite <- Hfs in Hd |- *.
  unfold run. rewrite Hm, (enforce_no_auto_remove _ w1 d Hd Hh Ha). cbn.
  split_and!; [done|done|apply last_snoc].
Qed.

(** C3: without [auto_remove], a matching license fails the check and
    stays untouched (spec section 8): the process exits with status 1,
    the files are as they were, and the last message asks for manual
    removal. *)
Theorem main_template_detected_untouched w p0 d :
  (load_policy w).1 = Ret (Some p0) -> template_license_sha256 p0 <> "" ->
  let p := env_overrides (w_env w) p0 in
  (origin_matches_template (origin_of w) (template_repo_urls p) && allow_in_template_repo p)
    = false ->
  read_bytes LICENSE_PATH (w_fs w) = Ret d ->
  PyBytes.hexdigest (sha256 pf (PyBytes.normalize_newlines d)) = template_license_sha256 p ->
  auto_remove p = false ->
  (run w).1 = 1%Z /\ w_fs (run w).2 = w_fs w /\ last (w_stderr (run w).2) = Some DTemplateDetected.
Proof. apply run_template_detected. Qed.

(** A configured policy and no license: [main] returns 0. *)
Lemma run_no_license w p0 :
  (load_policy w).1 = Ret (Some p0) -> template_license_sha256 p0 <> "" ->
  path_exists LICENSE_PATH (w_fs w) = false -> (run w).1 = 0%Z.
Proof.
  intros Hl Htls Hex. apply String.eqb_neq in Htls.
  assert (Ho : observe w = Some (Decision.mkFacts true (path_exists LICENSE_PATH (w_fs w))
     (origin_matches_template (origin_of w) (template_repo_urls (env_overrides (w_env w) p0)))
     (allow_in_template_repo (env_overrides (w_env w) p0))
     (match read_bytes LICENSE_PATH (w_fs w) with Ret _ => true | Raise _ => false end)
     (bool_decide (license_code (template_license_sha256 (env_overrides (w_env w) p0)) (w_fs w)
                   = 1%Z)))) by (unfold observe; by rewrite Hl, Htls).
  rewrite (run_observe w _ Ho).
  unfold Decision.decide. cbn [Decision.configured Decision.license_present].
  by rewrite Hex.
Qed.

(** C6: a configured policy and no license file: the check passes
    (spec section 8, third property). *)
Theorem main_no_license_passes w p0 :
  (load_policy w).1 = Ret (Some p0) -> template_license_sha256 p0 <> "" ->
  path_exists LICENSE_PATH (w_fs w) = false -> (run w).1 = 0%Z.
Proof. apply run_no_license. Qed.

(** C7: without a policy the check is a configuration error (status 2)
    whatever the files hold, a missing license included: spec section 8
    says a missing license passes regardless of policy contents, while
    section 4.4 and the code put the configuration check first. *)
Theorem main_unconfigured_exits_2 w :
  (load_policy w).1 = Ret None -> (run w).1 = 2%Z /\ w_fs (run w).2 = w_fs w.
Proof.
  intros Hl. assert (Hr : (run w).1 = 2%Z).
  { rewrite (run_observe w (Decision.mkFacts false false false false false false)); [done|].
    unfold observe. by rewrite Hl. }
  split; [done|]. apply run_fs_unchanged. by rewrite Hr.
Qed.

(** An exception out of the policy loaders escapes [main]: status 1,
    no file touched. *)
Lemma run_load_raises w e :
  (load_policy w).1 = Raise e -> (run w).1 = 1%Z /\ w_fs (run w).2 = w_fs w.
Proof.
  intros Hl. pose proof (keeps_frame_run _ w load_policy_keeps_frame) as Hf.
  unfold run, main. rewrite st_bind_run. destruct (load_policy w) as [r1 w1].
  cbv [fst snd] in Hf, Hl. subst r1. simpl. split; [done|]. by destruct (frame_eq _ _ Hf).
Qed.

(** A [pyproject.toml] whose [tool] entry is not a table: [tool.get]
    raises outside the loader's [try]. *)
Lemma load_policy_tool_not_table w d items v :
  read_bytes PYPROJECT_PATH (w_fs w) = Ret d -> toml_load pf d = Some (VDict items) ->
  dict_lookup "tool" items = Some v -> is_dict v = false ->
  (load_policy w).1 = Raise AttributeError.
Proof.
  intros Hd Ht Hv Hnd. unfold load_policy, load_policy_from_pyproject, parse_file, fs_read_bytes.
  st_simpl. rewrite read_fs_run, (read_bytes_exists _ _ _ Hd). cbn [negb]. cbv beta iota.
  rewrite Hd. cbv beta iota. rewrite Ht. cbn. rewrite Hv. by destruct v.
Qed.

(** Without [pyproject.toml], a JSON policy that is not an object:
    [obj.get] raises outside the loader's [try]. *)
Lemma load_policy_json_not_object w d v :
  path_exists PYPROJECT_PATH (w_fs w) = false ->
  read_bytes JSON_POLICY_PATH (w_fs w) = Ret d -> json_loads pf d = Some v -> is_dict v = false ->
  (load_policy w).1 = Raise AttributeError.
Proof.
  intros Hp Hd Hj Hnd. unfold load_policy, load_policy_from_pyproject, load_policy_from_json,
    parse_file, fs_read_bytes, policy_from_table.
  st_simpl. rewrite !read_fs_run, Hp. cbn [negb]. cbv beta iota.
  rewrite read_fs_run, (read_bytes_exists _ _ _ Hd). cbn [negb]. cbv beta iota.
  rewrite Hd. cbv beta iota. rewrite Hj. by destruct v.
Qed.

(** C34: a policy file of the wrong shape is not reported as a missing
    policy: a [pyproject.toml] whose [tool] is not a table, or, with no
    [pyproject.toml], a JSON policy that is not an object, makes [main]
    raise [AttributeError], and the process exits with status 1, the
    status of a policy violation, whatever the other file and the
    license are, a missing license included, and touches no file.  Spec
    section 4.1 falls back to the other source and then reports the
    policy unconfigured (status 2). *)
Theorem main_malformed_policy_exits_1 w d v :
  is_dict v = false ->
  ((exists items, read_bytes PYPROJECT_PATH (w_fs w) = Ret d /\
                  toml_load pf d = Some (VDict items) /\ dict_lookup "tool" items = Some v) \/
   (path_exists PYPROJECT_PATH (w_fs w) = false /\ read_bytes JSON_POLICY_PATH (w_fs w) = Ret d /\
    json_loads pf d = Some v)) ->
  (run w).1 = 1%Z /\ w_fs (run w).2 = w_fs w.
Proof.
  intros Hnd [(items & Hd & Ht & Hv)|(Hp & Hd & Hj)]; eapply run_load_raises.
  - by eapply load_policy_tool_not_table.
  - by eapply load_policy_json_not_object.
Qed.

(** C35: CLINE_LICENSE_AUTO_REMOVE set to the empty string turns
    auto-removal off: the variable is set, so [parse_bool_env] gives
    [False], and a template license is reported and left in place even
    when the policy file enables [auto_remove].  Spec section 4.1 applies
    an override only when the variable is set and non-empty. *)
Theorem main_empty_auto_remove_env_untouched w p0 d :
  (load_policy w).1 = Ret (Some p0) -> template_license_sha256 p0 <> "" ->
  let p := env_overrides (w_env w) p0 in
  (origin_matches_template (origin_of w) (template_repo_urls p) && allow_in_template_repo p)
    = false ->
  read_bytes LICENSE_PATH (w_fs w) = Ret d ->
  PyBytes.hexdigest (sha256 pf (PyBytes.normalize_newlines d)) = template_license_sha256 p ->
  w_env w !! "CLINE_LICENSE_AUTO_REMOVE" = Some "" ->
  (run w).1 = 1%Z /\ w_fs (run w).2 = w_fs w /\ last (w_stderr (run w).2) = Some DTemplateDetected.
Proof.
  intros Hl Htls p Hta Hd Hh He. apply (run_template_detected w p0 d); try done.
  by apply env_overrides_auto_remove_empty.
Qed.

(** ** Running the check again after a removal *)

(** The backup never lands on a policy file: its last component is the
    backup name or [LICENSE]. *)
Lemma backup_target_not_policy bdir t m k :
  path_ok bdir -> k ∈ [key PYPROJECT_PATH; key JSON_POLICY_PATH] ->
  move_target (path_of_string (path_str LICENSE_PATH))
              (path_of_string (path_str (div bdir (backup_name t)))) m <> k.
Proof.
  intros Hb Hk E. pose proof (backup_target_cases bdir t m Hb) as Hc. cbv zeta in Hc.
  rewrite E in Hc. rewrite (div_component bdir) in Hc by apply backup_name_good.
  rewrite div_component in Hc by reflexivity. unfold key in Hc. cbn [p_root p_parts] in Hc.
  assert (Hlen : 24 <= String.length (backup_name t))
    by (unfold backup_name; rewrite PyStr.length_append; simpl; lia).
  repeat (apply elem_of_cons in Hk as [Hk|Hk]); [..|set_solver]; subst k;
    repeat (apply elem_of_cons in Hc as [Hc|Hc]); try set_solver; injection Hc as _ Hc;
    apply (f_equal last) in Hc; rewrite last_snoc in Hc; injection Hc as Hc; try discriminate;
    apply (f_equal String.length) in Hc; simpl in Hc; lia.
Qed.

(** The backup keeps the node at every key it does not move the license
    to, or puts a new directory where there was nothing. *)
Lemma backup_and_remove_license_keeps bdir m0 k :
  k <> key LICENSE_PATH ->
  (forall t m, move_target (path_of_string (path_str LICENSE_PATH))
                 (path_of_string (path_str (div bdir (backup_name t)))) m <> k) ->
  preserves (fs_only (same_or_new_dir m0 k)) (backup_and_remove_license bdir LICENSE_PATH).
Proof.
  intros Hl Ht. unfold backup_and_remove_license, ensure_backup_dir.
  apply preserves_bind; [apply preserves_on_fs, mkdir_parents_new_dirs|intros _].
  apply preserves_get_bind. intros w _.
  apply preserves_bind; [|intros _; apply preserves_ret].
  apply preserves_on_fs. intros m Hm. unfold same_or_new_dir.
  rewrite move_frame; [exact Hm|exact Hl|]. intros E. by apply (Ht (w_now w) m).
Qed.

Lemma enforce_keeps p m0 k :
  k <> key LICENSE_PATH ->
  (forall t m, move_target (path_of_string (path_str LICENSE_PATH))
     (path_of_string (path_str (div (path_of_string (backup_dir p)) (backup_name t)))) m <> k) ->
  preserves (fs_only (same_or_new_dir m0 k)) (enforce p).
Proof.
  intros Hl Ht. pose proof (backup_and_remove_license_keeps _ m0 k Hl Ht).
  unfold enforce, sha256_of_file. preserves_tac.
Qed.

(** Nothing at [k] but possibly a directory, or the same node. *)
Definition no_file_or_same (n1 n2 : option node) : Prop :=
  n1 = n2 \/ ((forall d r, n1 <> Some (NFile d r)) /\ (forall d r, n2 <> Some (NFile d r))).

Lemma same_or_new_dir_no_file_or_same m0 k m :
  same_or_new_dir m0 k m -> no_file_or_same (m0 !! k) (m !! k).
Proof.
  intros [E|[E [b Eb]]]; [by left|right]. rewrite E, Eb. split; intros d r; discriminate.
Qed.

(** A loader that reads [k] only and finds nothing without a file there
    returns the same on two worlds without a file at [k] or with the same
    node. *)
Lemma loader_same (c : script (option LicensePolicy)) k w1 w2 :
  reads_only [k] c ->
  (forall w, (forall d r, w_fs w !! k <> Some (NFile d r)) -> (c w).1 = Ret None) ->
  no_file_or_same (w_fs w1 !! k) (w_fs w2 !! k) -> (c w1).1 = (c w2).1.
Proof.
  intros Hr Hn [E|[N1 N2]]; [|by rewrite !Hn].
  apply Hr. by constructor.
Qed.

(** [load_policy] looks at the two policy files only. *)
Lemma load_policy_same w1 w2 :
  no_file_or_same (w_fs w1 !! key PYPROJECT_PATH) (w_fs w2 !! key PYPROJECT_PATH) ->
  no_file_or_same (w_fs w1 !! key JSON_POLICY_PATH) (w_fs w2 !! key JSON_POLICY_PATH) ->
  (load_policy w1).1 = (load_policy w2).1.
Proof.
  intros Hp Hj. unfold load_policy. rewrite !st_bind_run.
  assert (E1 : (load_policy_from_pyproject pf PYPROJECT_PATH w1).1 =
               (load_policy_from_pyproject pf PYPROJECT_PATH w2).1).
  { apply (loader_same _ (key PYPROJECT_PATH)); [|apply load_policy_from_pyproject_no_file|done].
    apply load_policy_from_pyproject_reads. set_solver. }
  pose proof (keeps_frame_run _ w1 (load_policy_from_pyproject_keeps_frame pf PYPROJECT_PATH)) as F1.
  pose proof (keeps_frame_run _ w2 (load_policy_from_pyproject_keeps_frame pf PYPROJECT_PATH)) as F2.
  destruct (load_policy_from_pyproject pf PYPROJECT_PATH w1) as [r1 v1],
    (load_policy_from_pyproject pf PYPROJECT_PATH w2) as [r2 v2]. simpl in E1, F1, F2. subst r2.
  destruct r1 as [[p|]|e]; [done| |done]. cbv beta iota.
  apply (loader_same _ (key JSON_POLICY_PATH)); [|apply load_policy_from_json_no_file|].
  - apply load_policy_from_json_reads. set_solver.
  - destruct (frame_eq _ _ F1) as [-> _], (frame_eq _ _ F2) as [-> _]. done.
Qed.

(** C5: the remediation converges: after a run that found the template
    license with [auto_remove] on outside an allowed template
    repository, either the license was moved and the next run of the
    check, on the world this run left, passes (status 0), or the move
    failed, the license is where it was and the failure was reported.
    The backup directory [mkdir] creates and the backup file never
    change what the policy loaders read. *)
Theorem main_remediation_converges w p0 d :
  (load_policy w).1 = Ret (Some p0) -> template_license_sha256 p0 <> "" ->
  let p := env_overrides (w_env w) p0 in
  (origin_matches_template (origin_of w) (template_repo_urls p) && allow_in_template_repo p)
    = false ->
  read_bytes LICENSE_PATH (w_fs w) = Ret d ->
  PyBytes.hexdigest (sha256 pf (PyBytes.normalize_newlines d)) = template_license_sha256 p ->
  auto_remove p = true ->
  (run (run w).2).1 = 0%Z \/
  (w_fs (run w).2 !! key LICENSE_PATH = Some (NFile d true) /\
   last (w_stderr (run w).2) = Some DRemoveFailed).
Proof.
  intros Hl Htls p Hta Hd Hh Ha. unfold p in *. clear p.
  pose proof Htls as Htls'. apply String.eqb_neq in Htls'.
  destruct (run_auto_remove w p0 d Hl Htls Hta Hd Hh Ha) as [_ [(Hgone & _ & _)|Hfail]];
    [left|by right].
  apply (run_no_license _ p0); [|done|].
  - rewrite <- Hl. symmetry.
    destruct (main_reaches_enforce w p0 Hl Htls' (read_bytes_exists _ _ _ Hd) Hta) as (w1 & Hf & Hm).
    destruct (frame_eq _ _ Hf) as (Hfs & _).
    assert (Hk : forall k, k ∈ [key PYPROJECT_PATH; key JSON_POLICY_PATH] ->
                 same_or_new_dir (w_fs w) k (w_fs (run w).2)).
    { intros k Hk.
      assert (Ew : w_fs (run w).2 = w_fs (enforce (env_overrides (w_env w) p0) w1).2)
        by (unfold run; rewrite Hm; by destruct (enforce _ w1)).
      rewrite Ew, <- Hfs. apply enforce_keeps.
      - intros ->. repeat (apply elem_of_cons in Hk as [Hk|Hk]); [discriminate..|set_solver].
      - intros t m. apply backup_target_not_policy; [apply path_of_string_ok|done].
      - apply same_or_new_dir_refl. }
    apply load_policy_same; apply same_or_new_dir_no_file_or_same, Hk; set_solver.
  - unfold path_exists. rewrite Hgone. done.
Qed.

(** C20: runs within the same second share one backup name, and the
    move replaces what is there: when a backup file from an earlier run
    already sits at [backup_dir/LICENSE.template_backup.<timestamp>],
    the check still exits 1, and if the license is removed it is in
    place of that file, whose bytes are gone from the backup path
    without an error. *)
Theorem main_same_second_overwrites_backup w p0 d old r' :
  (load_policy w).1 = Ret (Some p0) -> template_license_sha256 p0 <> "" ->
  let p := env_overrides (w_env w) p0 in
  (origin_matches_template (origin_of w) (template_repo_urls p) && allow_in_template_repo p)
    = false ->
  read_bytes LICENSE_PATH (w_fs w) = Ret d ->
  PyBytes.hexdigest (sha256 pf (PyBytes.normalize_newlines d)) = template_license_sha256 p ->
  auto_remove p = true ->
  let bp := div (path_of_string (backup_dir p)) (backup_name (w_now w)) in
  w_fs w !! key bp = Some (NFile old r') ->
  (run w).1 = 1%Z /\
  (w_fs (run w).2 !! key LICENSE_PATH = None -> w_fs (run w).2 !! key bp = Some (NFile d true)).
Proof.
  intros Hl Htls p Hta Hd Hh Ha bp Ho. unfold bp, p in *. clear bp p.
  split; [by destruct (run_auto_remove w p0 d Hl Htls Hta Hd Hh Ha)|].
  apply String.eqb_neq in Htls.
  destruct (main_reaches_enforce w p0 Hl Htls (read_bytes_exists _ _ _ Hd) Hta) as (w1 & Hf & Hm).
  destruct (frame_eq _ _ Hf) as (Hfs & _ & _ & Hnow).
  assert (Ew : w_fs (run w).2 = w_fs (enforce (env_overrides (w_env w) p0) w1).2)
    by (unfold run; rewrite Hm; by destruct (enforce _ w1)).
  rewrite Ew, <- Hnow. rewrite <- Hfs in Hd. rewrite <- Hfs, <- Hnow in Ho.
  by apply (enforce_over_file _ w1 d old r').
Qed.

(** C8: a failing status always explains itself: when [main] returns a
    status other than 0, the last message on stderr is one that belongs
    to that status: the removal, its failure or the detected template
    for 1, the missing policy or the unreadable license for 2. *)
Theorem main_failure_explained w c :
  (main w).1 = Ret c -> c <> 0%Z ->
  exists d, last (w_stderr (run w).2) = Some d /\ explains c d = true.
Proof.
  intros Hm Hc. assert (E : (run w).2 = (main w).2) by (unfold run; by destruct (main w)).
  rewrite E. by apply main_explains.
Qed.

(** C9: the process exits with 0, 1 or 2 and nothing else (spec section
    6), an exception escaping [main] included (status 1). *)
Theorem run_exit_status w : (run w).1 = 0%Z \/ (run w).1 = 1%Z \/ (run w).1 = 2%Z.
Proof.
  unfold run. destruct (main w) as [[c|e] w'] eqn:E; cbn; [|by right; left].
  destruct (decide (c = 0%Z)) as [->|Hc]; [by left|].
  destruct (main_explains w c) as (d & _ & Hd); [by rewrite E|done|].
  right. unfold explains in Hd. destruct d; try discriminate; apply Z.eqb_eq in Hd; auto.
Qed.

(** ** Line ends of the license *)

(** The comparison step sees the license bytes through
    [normalize_newlines] only. *)
Lemma license_code_bytes tls m d1 d2 r :
  m !! key LICENSE_PATH = Some (NFile d1 r) ->
  PyBytes.normalize_newlines d2 = PyBytes.normalize_newlines d1 ->
  license_code tls (<[key LICENSE_PATH := NFile d2 r]> m) = license_code tls m.
Proof.
  intros Hd Hn. unfold license_code, read_bytes. rewrite lookup_insert_eq, Hd.
  destruct r; [by rewrite Hn|done].
Qed.

(** Replacing the license by bytes with the same normal form changes
    none of the observed facts: the policy files, the environment and the
    origin are untouched, and the license is still there and readable. *)
Lemma observe_license_bytes w d1 d2 r :
  w_fs w !! key LICENSE_PATH = Some (NFile d1 r) ->
  PyBytes.normalize_newlines d2 = PyBytes.normalize_newlines d1 ->
  observe (set_fs (<[key LICENSE_PATH := NFile d2 r]> (w_fs w)) w) = observe w.
Proof.
  intros Hd Hn. unfold observe.
  rewrite (load_policy_same _ w); cycle 1.
  { left. simpl. by rewrite lookup_insert_ne by (vm_compute; discriminate). }
  { left. simpl. by rewrite lookup_insert_ne by (vm_compute; discriminate). }
  destruct (load_policy w).1 as [[p0|]|e]; [|done|done].
  unfold set_fs, origin_of. cbn [w_fs w_env w_origin].
  rewrite (license_code_bytes _ _ d1) by done. unfold path_exists, read_bytes.
  rewrite lookup_insert_eq, Hd. by destruct r.
Qed.

(** A run whose policy raises exits with status 1. *)
Lemma run_observe_None w : observe w = None -> (run w).1 = 1%Z.
Proof.
  unfold observe, run, main. rewrite st_bind_run.
  destruct (load_policy w) as [[[p|]|e] w1]; simpl; [discriminate|discriminate|done].
Qed.

(** Worlds with the same observed facts exit with the same status. *)
Lemma run_same_observe w1 w2 : observe w1 = observe w2 -> (run w1).1 = (run w2).1.
Proof.
  intros E. destruct (observe w2) as [f|] eqn:E2.
  - by rewrite (run_observe w1 f E), (run_observe w2 f E2).
  - by rewrite (run_observe_None w1 E), (run_observe_None w2 E2).
Qed.

(** C17: the verdict does not depend on the line-end convention of the
    checkout (spec section 4.3): a license whose LF text was checked
    out with CR LF line ends (git's [core.autocrlf] on Windows) gives the
    same exit status as the LF text itself, on every world, whatever the
    policy, the environment and the origin. *)
Theorem main_crlf_checkout_same_status w t r :
  w_fs w !! key LICENSE_PATH = Some (NFile t r) -> ~ PyBytes.infix_of [PyBytes.CR; PyBytes.LF] t ->
  (run (set_fs (<[key LICENSE_PATH := NFile (PyBytes.to_crlf t) r]> (w_fs w)) w)).1 = (run w).1.
Proof.
  intros Ht Hlf. apply run_same_observe, (observe_license_bytes _ t); [done|].
  rewrite PyBytes.normalize_newlines_to_crlf, PyBytes.normalize_newlines_crlf_to_lf.
  symmetry. by apply PyBytes.crlf_to_lf_fixed.
Qed.

End Main.

(** ** A platform and worlds to run the model on *)

Module Demo.

(** A stand-in digest with the length of SHA-256's: the first 32 bytes
    of the data, padded with zeros. *)
Definition demo_sha256 (d : list byte) : list byte := take 32 (d ++ replicate 32 x00).

Lemma demo_sha256_length d : length (demo_sha256 d) = 32%nat.
Proof. unfold demo_sha256. rewrite length_take, length_app, length_replicate. lia. Qed.

(** The template license: "MIT" and a CR LF line end. *)
Definition template_text : list byte := [x4d; x49; x54; x0d; x0a].

Definition fingerprint : string :=
  Eval vm_compute in PyBytes.hexdigest (demo_sha256 (PyBytes.normalize_newlines template_text)).

(** [[tool.cline.license_policy]] with the fingerprint and no removal. *)
Definition table (auto : bool) : pyval :=
  VDict [("tool", VDict [("cline", VDict [("license_policy",
    VDict [("template_license_sha256", VStr fingerprint); ("auto_remove", VBool auto);
           ("backup_dir", VStr ".backup")])])])].

Lemma table_dict auto b v : (fun _ : list byte => Some (table auto)) b = Some v -> is_dict v = true.
Proof. by intros [= <-]. Qed.

Definition platform (auto : bool) : Platform :=
  mkPlatform (fun _ => Some (table auto)) (fun _ => None) demo_sha256 (table_dict auto)
             demo_sha256_length.

(** A checkout whose [LICENSE] holds [text]. *)
Definition fs_with (text : list byte) : fs :=
  <[(false, ["LICENSE"]) := NFile text true]>
  (<[(false, ["pyproject.toml"]) := NFile [] true]>
  (<[(false, []) := NDir true]> (<[(true, []) := NDir false]> ∅))).

Definition world_with (text : list byte) : world :=
  mkWorld (fs_with text) ∅ (Some "https://github.com/acme/app.git") (mkTm 2025 11 9 8 30 0) [].

(** The same checkout under an environment of its own. *)
Definition world_env (env : gmap string string) (text : list byte) : world :=
  mkWorld (fs_with text) env (Some "https://github.com/acme/app.git") (mkTm 2025 11 9 8 30 0) [].

(** A checkout without a license. *)
Definition world_no_license : world :=
  mkWorld (delete (false, ["LICENSE"]) (fs_with [])) ∅ (Some "https://github.com/acme/app.git")
          (mkTm 2025 11 9 8 30 0) [].

Lemma none_dict (b : list byte) v : (fun _ : list byte => @None pyval) b = Some v -> is_dict v = true.
Proof. discriminate. Qed.

(** A platform whose TOML parser rejects every document. *)
Definition platform_broken : Platform :=
  mkPlatform (fun _ => None) (fun _ => None) demo_sha256 none_dict demo_sha256_length.

(** A platform whose TOML document has [tool = []]. *)
Definition tool_list : pyval := VDict [("tool", VList [])].

Lemma tool_list_dict (b : list byte) v : (fun _ : list byte => Some tool_list) b = Some v -> is_dict v = true.
Proof. by intros [= <-]. Qed.

Definition platform_tool_list : Platform :=
  mkPlatform (fun _ => Some tool_list) (fun _ => None) demo_sha256 tool_list_dict demo_sha256_length.

(** The downstream checkout after a first removal within the same
    second, the license restored: [.backup] holds the earlier backup. *)
Definition world_old_backup : world :=
  mkWorld (<[(false, [".backup"; "LICENSE.template_backup.20251109-083000"]) := NFile [x4f; x4c; x44] true]>
           (<[(false, [".backup"]) := NDir true]> (fs_with [x4d; x49; x54; x0a])))
          ∅ (Some "https://github.com/acme/app.git") (mkTm 2025 11 9 8 30 0) [].

End Demo.

(** The downstream repository still holds the template license, with LF
    line ends: the table says [Violation]. *)
Lemma main_refines_decision_witness :
  observe (Demo.platform false) (Demo.world_with [x4d; x49; x54; x0a])
    = Some (Decision.mkFacts true true false true true true) /\
  (run (Demo.platform false) (Demo.world_with [x4d; x49; x54; x0a])).1
    = Decision.code (Decision.decide (Decision.mkFacts true true false true true true)).
Proof.
  split; [vm_compute; reflexivity|].
  apply main_refines_decision. vm_compute. reflexivity.
Defined.

(** A project license of its own: the check passes and moves nothing. *)
Lemma main_fs_unchanged_witness :
  (run (Demo.platform true) (Demo.world_with [x41; x70; x61; x63; x68; x65])).1 <> 1%Z /\
  w_fs (run (Demo.platform true) (Demo.world_with [x41; x70; x61; x63; x68; x65])).2
    = w_fs (Demo.world_with [x41; x70; x61; x63; x68; x65]).
Proof.
  split; [vm_compute; discriminate|].
  apply main_fs_unchanged. vm_compute. discriminate.
Defined.

(** The template license in a downstream checkout is a violation, so the
    fingerprint the policy compares against has the shape of a digest. *)
Lemma main_violation_needs_hex_fingerprint_witness :
  String.length (template_license_sha256 (mkPolicy Demo.fingerprint [] false true ".backup"))
    = 64%nat /\
  PyBytes.is_lower_hex (template_license_sha256 (mkPolicy Demo.fingerprint [] false true ".backup"))
    = true.
Proof.
  apply (main_violation_needs_hex_fingerprint (Demo.platform false)
           (Demo.world_with [x4d; x49; x54; x0a]) (Decision.mkFacts true true false true true true));
    vm_compute; reflexivity.
Defined.

(** One blank in the variable turns the check off for the template
    license itself. *)
Lemma main_blank_env_fingerprint_passes_witness :
  (run (Demo.platform false)
       (Demo.world_env (<["CLINE_TEMPLATE_LICENSE_SHA256" := " "]> ∅) Demo.template_text)).1
    <> 1%Z.
Proof.
  apply (main_blank_env_fingerprint_passes _ _ (Decision.mkFacts true true false true true false) " ");
    [vm_compute; reflexivity | reflexivity | discriminate | reflexivity].
Defined.

(** The end-to-end scenario of spec section 8: the template license in a
    downstream checkout with [auto_remove] and [backup_dir = ".backup"]. *)
Lemma main_auto_remove_keeps_license_witness :
  (run (Demo.platform true) (Demo.world_with [x4d; x49; x54; x0a])).1 = 1%Z /\
  removal_outcome (mkPolicy Demo.fingerprint [] true true ".backup")
    (Demo.world_with [x4d; x49; x54; x0a])
    (run (Demo.platform true) (Demo.world_with [x4d; x49; x54; x0a])).2 [x4d; x49; x54; x0a].
Proof.
  apply (main_auto_remove_keeps_license (Demo.platform true) (Demo.world_with [x4d; x49; x54; x0a])
           (mkPolicy Demo.fingerprint [] true true ".backup") [x4d; x49; x54; x0a]);
    first [vm_compute; reflexivity | discriminate].
Defined.

Lemma main_template_detected_untouched_witness :
  (run (Demo.platform false) (Demo.world_with [x4d; x49; x54; x0a])).1 = 1%Z /\
  w_fs (run (Demo.platform false) (Demo.world_with [x4d; x49; x54; x0a])).2
    = w_fs (Demo.world_with [x4d; x49; x54; x0a]) /\
  last (w_stderr (run (Demo.platform false) (Demo.world_with [x4d; x49; x54; x0a])).2)
    = Some DTemplateDetected.
Proof.
  apply (main_template_detected_untouched (Demo.platform false)
           (Demo.world_with [x4d; x49; x54; x0a])
           (mkPolicy Demo.fingerprint [] false true ".backup") [x4d; x49; x54; x0a]);
    first [vm_compute; reflexivity | discriminate].
Defined.

Lemma main_no_license_passes_witness :
  (run (Demo.platform true) Demo.world_no_license).1 = 0%Z.
Proof.
  apply (main_no_license_passes (Demo.platform true) Demo.world_no_license
           (mkPolicy Demo.fingerprint [] true true ".backup"));
    first [vm_compute; reflexivity | discriminate].
Defined.

(** No license and a [pyproject.toml] that does not parse: status 2. *)
Lemma main_unconfigured_exits_2_witness :
  path_exists LICENSE_PATH (w_fs Demo.world_no_license) = false /\
  (run Demo.platform_broken Demo.world_no_license).1 = 2%Z /\
  w_fs (run Demo.platform_broken Demo.world_no_license).2 = w_fs Demo.world_no_license.
Proof.
  split; [vm_compute; reflexivity|].
  apply main_unconfigured_exits_2. vm_compute. reflexivity.
Defined.

(** [tool = []] in [pyproject.toml] and no license: status 1. *)
Lemma main_malformed_policy_exits_1_witness :
  (run Demo.platform_tool_list Demo.world_no_license).1 = 1%Z /\
  w_fs (run Demo.platform_tool_list Demo.world_no_license).2 = w_fs Demo.world_no_license.
Proof.
  apply (main_malformed_policy_exits_1 _ _ [] (VList [])); [reflexivity|].
  left. exists [("tool", VList [])]. split_and!; vm_compute; reflexivity.
Defined.

(** [auto_remove = true] in the policy, [CLINE_LICENSE_AUTO_REMOVE=] in
    the environment: the license stays. *)
Lemma main_empty_auto_remove_env_untouched_witness :
  (run (Demo.platform true)
       (Demo.world_env (<["CLINE_LICENSE_AUTO_REMOVE" := ""]> ∅) [x4d; x49; x54; x0a])).1 = 1%Z /\
  w_fs (run (Demo.platform true)
       (Demo.world_env (<["CLINE_LICENSE_AUTO_REMOVE" := ""]> ∅) [x4d; x49; x54; x0a])).2
    = w_fs (Demo.world_env (<["CLINE_LICENSE_AUTO_REMOVE" := ""]> ∅) [x4d; x49; x54; x0a]) /\
  last (w_stderr (run (Demo.platform true)
       (Demo.world_env (<["CLINE_LICENSE_AUTO_REMOVE" := ""]> ∅) [x4d; x49; x54; x0a])).2)
    = Some DTemplateDetected.
Proof.
  apply (main_empty_auto_remove_env_untouched (Demo.platform true)
           (Demo.world_env (<["CLINE_LICENSE_AUTO_REMOVE" := ""]> ∅) [x4d; x49; x54; x0a])
           (mkPolicy Demo.fingerprint [] true true ".backup") [x4d; x49; x54; x0a]);
    first [vm_compute; reflexivity | discriminate].
Defined.

(** Runs one second apart write different backups. *)
Lemma backup_path_inj_witness :
  div (path_of_string ".backup") (backup_name (mkTm 2025 11 9 8 30 0)) <>
  div (path_of_string ".backup") (backup_name (mkTm 2025 11 9 8 30 1)).
Proof.
  intros E. apply (backup_path_inj (path_of_string ".backup") (mkTm 2025 11 9 8 30 0)
                     (mkTm 2025 11 9 8 30 1)) in E;
    [discriminate | vm_compute; lia | vm_compute; lia].
Defined.

(** The end-to-end scenario of spec section 8, run twice: the second run
    passes. *)
Lemma main_remediation_converges_witness :
  (run (Demo.platform true) (run (Demo.platform true) (Demo.world_with [x4d; x49; x54; x0a])).2).1
    = 0%Z \/
  (w_fs (run (Demo.platform true) (Demo.world_with [x4d; x49; x54; x0a])).2 !! key LICENSE_PATH
     = Some (NFile [x4d; x49; x54; x0a] true) /\
   last (w_stderr (run (Demo.platform true) (Demo.world_with [x4d; x49; x54; x0a])).2)
     = Some DRemoveFailed).
Proof.
  apply (main_remediation_converges (Demo.platform true) (Demo.world_with [x4d; x49; x54; x0a])
           (mkPolicy Demo.fingerprint [] true true ".backup") [x4d; x49; x54; x0a]);
    first [vm_compute; reflexivity | discriminate].
Defined.

(** The license is removed, and the earlier backup is replaced by it. *)
Lemma main_same_second_overwrites_backup_witness :
  w_fs (run (Demo.platform true) Demo.world_old_backup).2 !! key LICENSE_PATH = None /\
  (run (Demo.platform true) Demo.world_old_backup).1 = 1%Z /\
  (w_fs (run (Demo.platform true) Demo.world_old_backup).2 !! key LICENSE_PATH = None ->
   w_fs (run (Demo.platform true) Demo.world_old_backup).2
     !! key (div (path_of_string ".backup") (backup_name (mkTm 2025 11 9 8 30 0)))
   = Some (NFile [x4d; x49; x54; x0a] true)).
Proof.
  split; [vm_compute; reflexivity|].
  apply (main_same_second_overwrites_backup (Demo.platform true) Demo.world_old_backup
           (mkPolicy Demo.fingerprint [] true true ".backup") [x4d; x49; x54; x0a] [x4f; x4c; x44] true);
    first [vm_compute; reflexivity | discriminate].
Defined.

(** The template license without auto-removal: status 1, explained by
    the detected-template message. *)
Lemma main_failure_explained_witness :
  exists d, last (w_stderr (run (Demo.platform false) (Demo.world_with [x4d; x49; x54; x0a])).2)
              = Some d /\ explains 1 d = true.
Proof. apply main_failure_explained; [vm_compute; reflexivity|discriminate]. Defined.

(** The template license checked out with LF and with CR LF line ends:
    the same violation. *)
Lemma main_crlf_checkout_same_status_witness :
  (Demo.world_with [x4d; x49; x54; x0a]).(w_fs) !! key LICENSE_PATH = Some (NFile [x4d; x49; x54; x0a] true) /\
  (run (Demo.platform false)
     (set_fs (<[key LICENSE_PATH := NFile (PyBytes.to_crlf [x4d; x49; x54; x0a]) true]>
        (w_fs (Demo.world_with [x4d; x49; x54; x0a]))) (Demo.world_with [x4d; x49; x54; x0a]))).1
  = (run (Demo.platform false) (Demo.world_with [x4d; x49; x54; x0a])).1.
Proof.
  split; [vm_compute; reflexivity|].
  apply main_crlf_checkout_same_status; [vm_compute; reflexivity|].
  intros Hi. apply (PyBytes.crlf_to_lf_fixed [x4d; x49; x54; x0a]) in Hi; [done|vm_compute; reflexivity].
Defined.

End CheckLicense.
