(* ===== verification/Utils.v ===== *)
(** * [deep_merge_dicts] of [src/src/cline_project_template/shared/utils.py]

    Lines 34-55: [result = dict(a)], then for each item of [b] in order,
    a key whose old and new values are both dicts is merged recursively,
    and any other key is assigned, an existing key keeping its place and
    a new key going last.  Dictionaries are the item lists of
    [PyVal.VDict], in insertion order.  The function builds new dicts
    and never mutates [a] or [b], so a value model is faithful; the
    sub-dictionaries of [b] that are assigned are shared with the
    result, which matters only to a caller that mutates them later. *)

From S2P Require Import Prelude PyStr PyVal.
Local Open Scope string_scope.

Module Utils.
Import PyVal.

Abbreviation dict := (list (string * pyval)).

(** ** The loop of lines 46-54 *)

Section MergeItems.
(** What the loop stores for a key, from the value [result] holds for it
    and the value of [b]. *)
Variable merge : option pyval -> pyval -> pyval.

Fixpoint merge_items (result b : dict) : dict :=
  match b with
  | [] => result
  | (key, value) :: b' => merge_items (set_item result key (merge (dict_lookup key result) value)) b'
  end.

Lemma merge_items_lookup result b k :
  NoDup (map fst b) ->
  dict_lookup k (merge_items result b) =
  match dict_lookup k b with
  | Some v => Some (merge (dict_lookup k result) v)
  | None => dict_lookup k result
  end.
Proof.
  revert result. induction b as [|[key v] b IH]; intros result Hnd; [done|].
  apply NoDup_cons in Hnd as [Hk Hnd]. cbn [merge_items dict_lookup]. rewrite IH by done.
  destruct (String.eqb_spec k key) as [->|Hne].
  - rewrite dict_lookup_None_keys by done. apply dict_lookup_set_item_eq.
  - by rewrite !dict_lookup_set_item_ne.
Qed.

Lemma merge_items_keys result b :
  NoDup (map fst b) ->
  map fst (merge_items result b) =
  (map fst result ++ List.filter (fun k => negb (bool_decide (k ∈ map fst result))) (map fst b))%list.
Proof.
  revert result. induction b as [|[key v] b IH]; intros result Hnd; simpl; [by rewrite app_nil_r|].
  apply NoDup_cons in Hnd as [Hk Hnd]. rewrite IH, keys_set_item by done.
  case_bool_decide as Hin; [done|].
  rewrite <- app_assoc. f_equal. simpl. f_equal.
  apply filter_ext_in. intros k Hk'. f_equal. apply bool_decide_ext.
  rewrite elem_of_app, list_elem_of_singleton. split; [intros [?| ->]; [done|]|intros; by left].
  destruct Hk. by apply list_elem_of_In.
Qed.

(** Items that [result] already holds, with a merge that keeps them,
    change nothing. *)
Lemma merge_items_same result b :
  NoDup (map fst result) ->
  (forall k v, (k, v) ∈ b -> dict_lookup k result = Some v /\ merge (Some v) v = v) ->
  merge_items result b = result.
Proof.
  intros Hnd. induction b as [|[key v] b IH]; intros Hb; [done|]. cbn [merge_items].
  destruct (Hb key v) as [Hl Hm]; [by left|]. rewrite Hl, Hm, set_item_same by done.
  apply IH. intros k v' Hin. apply Hb. by right.
Qed.

(** A property of the values that every merge of a value of [b] keeps
    holds of the result. *)
Lemma merge_items_Forall (P : pyval -> Prop) result b :
  Forall (fun kx => P kx.2) result ->
  Forall (fun kx => forall cur, (forall x, cur = Some x -> P x) -> P (merge cur kx.2)) b ->
  Forall (fun kx => P kx.2) (merge_items result b).
Proof.
  intros Hr Hb. revert result Hr. induction Hb as [|[key v] b Hv Hb IH]; intros result Hr; [done|].
  apply IH. apply Forall_set_item; [done|]. apply Hv.
  intros x Hx. by eapply Forall_dict_lookup.
Qed.

End MergeItems.

(** ** [deep_merge_dicts] *)

(** The value line 52 or line 54 stores: the recursive merge when the old
    and the new value are both dicts, the new value otherwise. *)
Fixpoint merge_value (cur : option pyval) (value : pyval) : pyval :=
  match value, cur with
  | VDict vb, Some (VDict ra) => VDict (merge_items merge_value ra vb)
  | _, _ => value
  end.

(** [deep_merge_dicts(a, b)] *)
Definition deep_merge_dicts (a b : dict) : dict := merge_items merge_value a b.

(** ** Lemmas *)

Lemma merge_value_self v : wf v -> merge_value (Some v) v = v.
Proof.
  induction v as [| | | | |l _|d IH] using pyval_ind'; try done.
  intros [Hnd Hwf]%wf_dict. cbn [merge_value]. f_equal. apply merge_items_same; [done|].
  intros k x Hin. split; [by apply dict_lookup_In|].
  rewrite Forall_forall in IH, Hwf. by apply (IH (k, x)), (Hwf (k, x)).
Qed.

Lemma merge_value_wf v : wf v -> forall cur, (forall x, cur = Some x -> wf x) -> wf (merge_value cur v).
Proof.
  induction v as [| | | | |l _|d IH] using pyval_ind'; try done.
  intros Hv cur Hc. destruct cur as [[| | | | | |r]|]; try done.
  pose proof (Hc _ eq_refl) as Hr. apply wf_dict in Hv as [Hnd Hwf], Hr as [Hrnd Hrwf].
  cbn [merge_value]. apply wf_dict. split.
  - rewrite merge_items_keys by done. apply NoDup_app. split_and!; [done| |].
    + intros k Hk Hf. apply list_elem_of_In, filter_In in Hf as [_ Hn].
      by rewrite bool_decide_eq_true_2 in Hn.
    + apply NoDup_ListNoDup, List.NoDup_filter, NoDup_ListNoDup. done.
  - apply merge_items_Forall; [done|].
    eapply Forall_impl; [apply Forall_and; split; [exact IH|exact Hwf]|].
    intros [k x] [H1 H2] cur' Hc'. by apply H1.
Qed.

(** ** Theorems *)

(** C10: after [deep_merge_dicts(a, b)] (keys of [b] distinct, as in any
    dict) a key whose values in [a] and [b] are both dicts maps to their
    recursive merge, any other key of [b] to its value in [b], and a key
    only [a] has keeps its value. *)
Theorem deep_merge_dicts_lookup a b k :
  NoDup (map fst b) ->
  dict_lookup k (deep_merge_dicts a b) =
  match dict_lookup k a, dict_lookup k b with
  | Some (VDict x), Some (VDict y) => Some (VDict (deep_merge_dicts x y))
  | _, Some v => Some v
  | old, None => old
  end.
Proof.
  intros Hnd. unfold deep_merge_dicts at 1. rewrite merge_items_lookup by done.
  by destruct (dict_lookup k b) as [[| | | | | |y]|], (dict_lookup k a) as [[| | | | | |x]|].
Qed.

(** C24: the merged dict keeps the keys of [a] in their order, followed by
    the new keys of [b] in [b]'s order: Python's insertion order. *)
Theorem deep_merge_dicts_keys a b :
  NoDup (map fst b) ->
  map fst (deep_merge_dicts a b) =
  (map fst a ++ List.filter (fun k => negb (bool_decide (k ∈ map fst a))) (map fst b))%list.
Proof. apply merge_items_keys. Qed.

(** merging a dict with itself gives it back. *)
Theorem deep_merge_dicts_idem a : wf (VDict a) -> deep_merge_dicts a a = a.
Proof.
  intros Ha. pose proof (merge_value_self (VDict a) Ha) as H. cbn [merge_value] in H.
  by injection H.
Qed.

(** The example of [tests/unit/test_utils.py]. *)
Definition test_a : dict := [("outer", VDict [("inner", VInt 1)]); ("keep", VBool true)].
Definition test_b : dict := [("outer", VDict [("inner", VInt 2); ("new", VInt 3)])].

Lemma deep_merge_dicts_lookup_witness :
  dict_lookup "outer" (deep_merge_dicts test_a test_b)
  = Some (VDict [("inner", VInt 2); ("new", VInt 3)]).
Proof. rewrite deep_merge_dicts_lookup by (repeat constructor; set_solver). vm_compute. reflexivity. Defined.

Lemma deep_merge_dicts_keys_witness :
  map fst (deep_merge_dicts test_a test_b) = ["outer"; "keep"].
Proof. rewrite deep_merge_dicts_keys by (repeat constructor; set_solver). reflexivity. Defined.

Lemma deep_merge_dicts_idem_witness : deep_merge_dicts test_a test_a = test_a.
Proof. apply deep_merge_dicts_idem. cbn; repeat split; repeat constructor; set_solver. Defined.

End Utils.
