(* ===== verification/Logging.v ===== *)
(** * [get_logger] of [src/src/cline_project_template/shared/utils.py]

    Lines 11-31.  [logging.getLogger(name)] returns the one logger object
    the logging manager keeps for [name] (the root logger for [""] and
    for ["root"], the root logger's own name), creating it on first use;
    [get_logger] adds a [StreamHandler] with the project's formatter and
    sets the level to [INFO] when the logger has no handler yet.  Loggers
    are shared mutable objects, so the model keeps the manager's registry
    as the state and refers to loggers by name, as the module does.

    Emitting a record ([Logger.callHandlers] of CPython 3.11's
    [logging/__init__.py]) walks from the logger through its parents,
    the nearest existing loggers among the dotted prefixes of its name,
    and the root, calling every handler met while [propagate] holds.

    A process's use of the module is the step relation [lstep], one
    [get_logger] call per step; [get_logger_reachable_ok] is its
    invariant over every state reachable from a fresh [logging]. *)

From S2P Require Import Prelude PyStr.
Local Open Scope string_scope.

Module Logging.

(** ** Levels, handlers and loggers *)

Definition NOTSET : Z := 0.
Definition INFO : Z := 20.
Definition WARNING : Z := 30.

Record formatter := mkFormatter { f_fmt : string; f_datefmt : string }.

(** A [StreamHandler] on [sys.stderr]. *)
Record handler := mkHandler { h_formatter : option formatter; h_level : Z }.

Record logger := mkLogger {
  lg_name : string;
  lg_level : Z;
  lg_handlers : list handler;
  lg_propagate : bool
}.

(** A logger of the manager: the root, or the one registered under a name. *)
Inductive lref := Root | Named (name : string).

#[export] Instance lref_eq_dec : EqDecision lref.
Proof. solve_decision. Defined.

(** [logging.root] and [Logger.manager.loggerDict]. *)
Record manager := mkManager { m_root : logger; m_loggers : gmap string logger }.

Definition initial : manager := mkManager (mkLogger "root" WARNING [] true) ∅.

Definition get_lg (m : manager) (r : lref) : logger :=
  match r with
  | Root => m_root m
  | Named n => match m_loggers m !! n with Some l => l | None => mkLogger n NOTSET [] true end
  end.

Definition set_lg (m : manager) (r : lref) (l : logger) : manager :=
  match r with
  | Root => mkManager l (m_loggers m)
  | Named n => mkManager (m_root m) (<[n := l]> (m_loggers m))
  end.

(** ** [logging.getLogger] and [get_logger] *)

(** [logging.getLogger(name)] for a string [name]. *)
Definition getLogger (name : string) : st manager lref :=
  if String.eqb name "" || String.eqb name (lg_name (m_root initial)) then mret Root
  else
    m ← st_get;
    match m_loggers m !! name with
    | Some _ => mret (Named name)
    | None => _ ← st_put (set_lg m (Named name) (mkLogger name NOTSET [] true)); mret (Named name)
    end.

(** The formatter of lines 24-27. *)
Definition project_formatter : formatter :=
  mkFormatter "%(asctime)s [%(levelname)s] %(name)s: %(message)s" "%Y-%m-%d %H:%M:%S".

(** [get_logger(name)] (lines 21-31). *)
Definition get_logger (name : string) : st manager lref :=
  r ← getLogger name;
  m ← st_get;
  let lg := get_lg m r in
  match lg_handlers lg with
  | [] =>
      let h := mkHandler (Some project_formatter) NOTSET in
      let lg' := mkLogger (lg_name lg) INFO (lg_handlers lg ++ [h]) (lg_propagate lg) in
      _ ← st_put (set_lg m r lg');
      mret r
  | _ :: _ => mret r
  end.

(** The logger [logging.getLogger(name)] returns. *)
Definition lref_of (name : string) : lref :=
  if String.eqb name "" || String.eqb name "root" then Root else Named name.

(** What [get_logger] does to a logger without handlers. *)
Definition configure (lg : logger) : logger :=
  mkLogger (lg_name lg) INFO (lg_handlers lg ++ [mkHandler (Some project_formatter) NOTSET])
           (lg_propagate lg).

(** ** Emitting a record *)

(** The dotted prefixes of a name, longest first: [name[:i]] for every
    dot at a position [i > 0]. *)
Definition prefixes (name : string) : list string :=
  let parts := PyStr.split "." name in
  rev (map (fun j => PyStr.join "." (take j parts)) (seq 1 (length parts - 1))).

(** The loggers a record passes through, with [propagate] ignored. *)
Definition chain (m : manager) (r : lref) : list lref :=
  match r with
  | Root => [Root]
  | Named n =>
      Named n :: map Named (List.filter (fun p => bool_decide (is_Some (m_loggers m !! p)))
                                         (prefixes n)) ++ [Root]
  end.

(** [Logger.getEffectiveLevel]: the first level set along the chain. *)
Definition effective_level (m : manager) (r : lref) : Z :=
  match List.find (fun x => negb (Z.eqb (lg_level (get_lg m x)) NOTSET)) (chain m r) with
  | Some x => lg_level (get_lg m x)
  | None => NOTSET
  end.

(** The loggers [callHandlers] visits: up to and including the first one
    that does not propagate. *)
Fixpoint visited (m : manager) (c : list lref) : list lref :=
  match c with
  | [] => []
  | x :: c' => x :: (if lg_propagate (get_lg m x) then visited m c' else [])
  end.

(** How many handlers write a record of level [lvl] logged on [r]. *)
Definition emitted (m : manager) (r : lref) (lvl : Z) : nat :=
  if (effective_level m r <=? lvl)%Z
  then length (List.concat (map (fun x => List.filter (fun h => (h_level h <=? lvl)%Z)
                                                      (lg_handlers (get_lg m x)))
                                (visited m (chain m r))))
  else 0.

(** ** A process that configures loggers with [get_logger] *)

(** One call of [get_logger], the package's only use of [logging]. *)
Inductive lstep : manager -> manager -> Prop :=
  | lstep_get_logger name m : lstep m (get_logger name m).2.

(** The handler of lines 23-28. *)
Definition project_handler : handler := mkHandler (Some project_formatter) NOTSET.

(** A logger is untouched (no handler), or configured once: the one
    project handler and the level [INFO]. *)
Definition logger_ok (l : logger) : Prop :=
  lg_handlers l = [] \/ (lg_handlers l = [project_handler] /\ lg_level l = INFO).

(** The name [logging] gives the logger [r]. *)
Definition lref_name (r : lref) : string := match r with Root => "root" | Named n => n end.

(** Every logger of the manager is [logger_ok] and carries its name. *)
Definition manager_ok (m : manager) : Prop :=
  forall r, logger_ok (get_lg m r) /\ lg_name (get_lg m r) = lref_name r.

(** ** Lemmas *)

Lemma get_set_lg m r l : get_lg (set_lg m r l) r = l.
Proof. destruct r; simpl; [done|]. by rewrite lookup_insert_eq. Qed.

Lemma set_set_lg m r l l' : set_lg (set_lg m r l) r l' = set_lg m r l'.
Proof. destruct r; simpl; [done|]. by rewrite insert_insert_eq. Qed.

Lemma set_get_lg m n l :
  m_loggers m !! n = Some l -> set_lg m (Named n) (get_lg m (Named n)) = m.
Proof. destruct m as [rt lgs]. simpl. intros H. rewrite H. f_equal. by apply insert_id. Qed.

(** [getLogger] returns [lref_of name]; it registers a fresh logger for a
    new name, which [get_lg] already reads as such. *)
Lemma getLogger_run name m :
  getLogger name m =
  (Ret (lref_of name),
   match lref_of name with
   | Named n => match m_loggers m !! n with Some _ => m | None => set_lg m (Named n) (get_lg m (Named n)) end
   | Root => m
   end).
Proof.
  unfold getLogger, lref_of. change (lg_name (m_root initial)) with "root".
  destruct (String.eqb name "" || String.eqb name "root"); [done|].
  st_simpl. simpl. by destruct (m_loggers m !! name).
Qed.

(** Every dotted prefix of a name is shorter than it. *)
Lemma prefixes_shorter n p : In p (prefixes n) -> (String.length p < String.length n)%nat.
Proof.
  unfold prefixes. intros Hin. apply in_rev, in_map_iff in Hin as (j & <- & Hj).
  apply in_seq in Hj. set (parts := PyStr.split "." n).
  assert (Hn : n = PyStr.join "." (take j parts ++ drop j parts)%list)
    by (rewrite take_drop; symmetry; apply PyStr.join_split).
  rewrite Hn at 1. rewrite PyStr.join_app.
  - rewrite !PyStr.length_append. simpl. lia.
  - intros E. apply (f_equal length) in E. rewrite length_take in E. simpl in E. unfold parts in *. lia.
  - intros E. apply (f_equal length) in E. rewrite length_drop in E. simpl in E. unfold parts in *. lia.
Qed.

Lemma prefixes_dotted p c :
  PyStr.contains_char "." p = false -> PyStr.contains_char "." c = false ->
  prefixes (p ++ "." ++ c) = [p].
Proof.
  intros Hp Hc. unfold prefixes.
  rewrite PyStr.split_app_no_sep by done. change ("." ++ c) with (String "." c).
  rewrite PyStr.split_sep, PyStr.split_single by done. cbn [hd tail].
  rewrite PyStr.app_nil_r_string. reflexivity.
Qed.

Lemma lref_of_dotted p c :
  PyStr.contains_char "." p = false -> lref_of (p ++ "." ++ c) = Named (p ++ "." ++ c).
Proof.
  intros Hp. unfold lref_of.
  assert (Hd : PyStr.contains_char "." (p ++ "." ++ c) = true)
    by (rewrite PyStr.contains_char_app; apply orb_true_intro; right; reflexivity).
  destruct (String.eqb_spec (p ++ "." ++ c) "") as [E|_]; [by rewrite E in Hd|].
  destruct (String.eqb_spec (p ++ "." ++ c) "root") as [E|_]; [by rewrite E in Hd|]. done.
Qed.

(** ** Theorems *)

(** [get_logger] as one state transition of the manager. *)
Lemma get_logger_run name m :
  get_logger name m =
  (Ret (lref_of name),
   match lg_handlers (get_lg m (lref_of name)) with
   | [] => set_lg m (lref_of name) (configure (get_lg m (lref_of name)))
   | _ :: _ => m
   end).
Proof.
  unfold get_logger. rewrite (st_bind_run (getLogger name)), getLogger_run. cbv beta iota.
  st_simpl. unfold configure. destruct (lref_of name) as [|n]; [by case_match|].
  destruct (m_loggers m !! n) as [l|] eqn:E; [by case_match|].
  rewrite get_set_lg. unfold get_lg. rewrite E. simpl. by rewrite insert_insert_eq.
Qed.

(** C11: [get_logger(name)] returns the logger [logging.getLogger(name)]
    names and, when that logger has no handler, gives it the project's
    stream handler and the level [INFO]; a logger with a handler is left
    as it is. *)
Theorem get_logger_spec name m :
  get_logger name m =
  (Ret (lref_of name),
   match lg_handlers (get_lg m (lref_of name)) with
   | [] => set_lg m (lref_of name) (configure (get_lg m (lref_of name)))
   | _ :: _ => m
   end).
Proof. apply get_logger_run. Qed.

(** [get_logger] is idempotent: a second call with the same name
    returns the same logger and changes nothing, so handlers are never
    added twice. *)
Theorem get_logger_idem name m :
  get_logger name (get_logger name m).2 = (Ret (lref_of name), (get_logger name m).2).
Proof.
  rewrite !get_logger_run. cbn [snd].
  destruct (lg_handlers (get_lg m (lref_of name))) as [|h hs] eqn:E.
  - rewrite get_set_lg. simpl. by destruct (lg_handlers _).
  - by rewrite E.
Qed.

(** a logger that [get_logger] configures in a fresh process writes
    each [INFO] record once. *)
Theorem get_logger_emits_once n :
  lref_of n = Named n -> emitted (get_logger n initial).2 (Named n) INFO = 1%nat.
Proof.
  intros Hn. rewrite get_logger_run, Hn. cbn [snd get_lg initial m_loggers lg_handlers].
  rewrite lookup_empty. cbn [lg_handlers]. unfold emitted, effective_level, chain.
  rewrite filter_all_false.
  - simpl. rewrite !lookup_insert_eq. simpl. by rewrite lookup_insert_eq.
  - intros p Hp. apply bool_decide_eq_false_2. simpl.
    rewrite lookup_insert_ne, lookup_empty; [by intros []|].
    intros ->. apply prefixes_shorter in Hp. lia.
Qed.

(** C23: loggers are not independent: when [get_logger] has configured a
    logger [p] and then a child [p.c], every [INFO] record of the child
    is written twice, by its own handler and, through propagation, by
    the parent's. *)
Theorem get_logger_nested_twice p c :
  lref_of p = Named p -> PyStr.contains_char "." p = false -> PyStr.contains_char "." c = false ->
  emitted (get_logger (p ++ "." ++ c) (get_logger p initial).2).2 (Named (p ++ "." ++ c)) INFO
  = 2%nat.
Proof.
  intros Hn Hp Hc.
  assert (Hne : p ++ "." ++ c <> p).
  { intros E. apply (f_equal String.length) in E. rewrite !PyStr.length_append in E. simpl in E. lia. }
  assert (Hm : (get_logger (p ++ "." ++ c) (get_logger p initial).2).2 =
                mkManager (m_root initial)
                  (<[p ++ "." ++ c := configure (mkLogger (p ++ "." ++ c) NOTSET [] true)]>
                   (<[p := configure (mkLogger p NOTSET [] true)]> ∅))).
  { rewrite !get_logger_run, Hn, lref_of_dotted by done. simpl.
    rewrite lookup_empty. simpl. rewrite lookup_insert_ne, lookup_empty by congruence.
    reflexivity. }
  rewrite Hm. unfold emitted, effective_level, chain. rewrite prefixes_dotted by done.
  simpl. simplify_map_eq. reflexivity.
Qed.

(** The loggers of the initial manager are untouched and named. *)
Lemma initial_ok : manager_ok initial.
Proof. intros [|n]; simpl; [by split; [left|]|]. rewrite lookup_empty. by split; [left|]. Qed.

Lemma configure_ok l : lg_handlers l = [] -> logger_ok (configure l).
Proof. intros E. right. unfold configure. simpl. by rewrite E. Qed.

Lemma get_lg_set_lg_ne m r r' l : r <> r' -> get_lg (set_lg m r l) r' = get_lg m r'.
Proof.
  destruct r as [|n], r' as [|n']; simpl; try done; intros Hne.
  rewrite lookup_insert_ne; [done|congruence].
Qed.

(** [get_logger] keeps every logger configured at most once. *)
Lemma get_logger_ok name m : manager_ok m -> manager_ok (get_logger name m).2.
Proof.
  intros Hm. rewrite get_logger_run. cbn [snd].
  destruct (lg_handlers (get_lg m (lref_of name))) as [|h hs] eqn:E; [|done].
  intros r. destruct (decide (lref_of name = r)) as [<-|Hne].
  - rewrite get_set_lg. split; [by apply configure_ok|]. apply (Hm (lref_of name)).
  - rewrite get_lg_set_lg_ne by done. apply Hm.
Qed.

(** C21: whatever sequence of [get_logger] calls a process makes, from a
    fresh [logging] state every logger has no handler, or exactly the one
    project handler with the level [INFO], and carries the name it is
    registered under: no call ever adds a second handler, nested and
    root loggers included. *)
Theorem get_logger_reachable_ok m :
  rtc lstep initial m -> forall r, logger_ok (get_lg m r) /\ lg_name (get_lg m r) = lref_name r.
Proof.
  intros Hr. change (manager_ok m). revert m Hr.
  apply (rtc_ind_r manager_ok initial); [apply initial_ok|].
  intros m1 m2 _ [name m] Hm. by apply get_logger_ok.
Qed.

Lemma get_logger_nested_twice_witness :
  emitted (get_logger ("app" ++ "." ++ "db") (get_logger "app" initial).2).2
          (Named ("app" ++ "." ++ "db")) INFO = 2%nat.
Proof. apply get_logger_nested_twice; reflexivity. Defined.

(** C25: [get_logger("")] returns the root logger, named ["root"], and
    configures it; from then on every logger [get_logger] configures
    writes each [INFO] record twice. *)
Theorem get_logger_root_twice n :
  lref_of n = Named n ->
  lg_name (get_lg (get_logger "" initial).2 (lref_of "")) = "root" /\
  emitted (get_logger n (get_logger "" initial).2).2 (Named n) INFO = 2%nat.
Proof.
  intros Hn. split; [reflexivity|].
  rewrite !get_logger_run, Hn. change (lref_of "") with Root.
  cbn [snd get_lg initial m_loggers lg_handlers set_lg m_root]. rewrite lookup_empty. cbn [lg_handlers].
  unfold emitted, effective_level, chain.
  rewrite filter_all_false.
  - simpl. rewrite !lookup_insert_eq. simpl. by rewrite lookup_insert_eq.
  - intros q Hq. apply bool_decide_eq_false_2. simpl.
    rewrite lookup_insert_ne, lookup_empty; [by intros []|].
    intros ->. apply prefixes_shorter in Hq. lia.
Qed.

Lemma get_logger_root_twice_witness :
  lg_name (get_lg (get_logger "" initial).2 (lref_of "")) = "root" /\
  emitted (get_logger "worker" (get_logger "" initial).2).2 (Named "worker") INFO = 2%nat.
Proof. apply get_logger_root_twice. reflexivity. Defined.

Lemma get_logger_emits_once_witness :
  emitted (get_logger "test_logger" initial).2 (Named "test_logger") INFO = 1%nat.
Proof. apply get_logger_emits_once. reflexivity. Defined.

(** The three loggers of the unit test and a nested one, in turn. *)
Lemma get_logger_reachable_ok_witness :
  logger_ok (get_lg (get_logger "app.db" (get_logger "app" (get_logger "" initial).2).2).2 Root) /\
  lg_name (get_lg (get_logger "app.db" (get_logger "app" (get_logger "" initial).2).2).2 Root)
    = lref_name Root.
Proof.
  apply get_logger_reachable_ok.
  eapply rtc_r; [eapply rtc_r; [eapply rtc_r; [apply rtc_refl|]|]|]; constructor.
Defined.

End Logging.
