(* ===== verification/Repository.v ===== *)
(** * [InMemoryExampleRepository] of
    [src/src/cline_project_template/infrastructure/db_gateway.py]

    Lines 10-33.  The repository holds a Python list [_store] of the dict
    objects passed to [save]; [save] appends the object itself, not a
    copy, and [all] returns a new list holding the same objects.  Python
    objects live in a heap: dicts and lists are cells at locations, a
    list holds locations, and the client's variables hold locations too,
    so the aliasing the code creates is explicit.  [ExampleRepository]
    (lines 10-14) is the protocol [save] implements, stated as a class. *)

From S2P Require Import Prelude PyStr PyVal.
Local Open Scope string_scope.

Module Repository.
Import PyVal.

(** ** The heap *)

Abbreviation loc := N.

(** The objects of the heap: a dict (items in insertion order) or a list
    of objects. *)
Inductive obj := ODict (items : list (string * pyval)) | OList (elems : list loc).

Record heap := mkHeap { h_objs : gmap loc obj; h_next : loc }.

Definition empty_heap : heap := mkHeap ∅ 0.

Abbreviation py := (st heap).

(** Allocation of a new object. *)
Definition alloc (o : obj) : py loc :=
  h ← st_get;
  _ ← st_put (mkHeap (<[h_next h := o]> (h_objs h)) (N.succ (h_next h)));
  mret (h_next h).

Definition read_list (l : loc) : py (list loc) :=
  h ← st_get;
  match h_objs h !! l with
  | Some (OList xs) => mret xs
  | _ => st_raise AttributeError
  end.

Definition write (l : loc) (o : obj) : py unit :=
  h ← st_get; st_put (mkHeap (<[l := o]> (h_objs h)) (h_next h)).

(** [lst.append(x)] *)
Definition list_append (l x : loc) : py unit :=
  xs ← read_list l; write l (OList (xs ++ [x])).

(** ** The protocol and the repository *)

(** [ExampleRepository]: what [save] promises, for a repository whose
    records can be listed. *)
Class ExampleRepository (R : Type) := {
  save : R -> loc -> py unit;
  records : R -> heap -> option (list loc)
}.

Record InMemoryExampleRepository := mkRepo { _store : loc }.

(** [InMemoryExampleRepository()] (lines 24-25) *)
Definition new_repository : py InMemoryExampleRepository :=
  l ← alloc (OList []); mret (mkRepo l).

(** [save] (lines 27-29) *)
Definition repo_save (r : InMemoryExampleRepository) (data : loc) : py unit :=
  list_append (_store r) data.

(** [all] (lines 31-33): [list(self._store)] *)
Definition repo_all (r : InMemoryExampleRepository) : py loc :=
  xs ← read_list (_store r); alloc (OList xs).

Definition stored (r : InMemoryExampleRepository) (h : heap) : option (list loc) :=
  match h_objs h !! _store r with Some (OList xs) => Some xs | _ => None end.

#[export] Instance in_memory_repository : ExampleRepository InMemoryExampleRepository :=
  { save := repo_save; records := stored }.

(** ** The heap invariant *)

(** Every object lies below the allocation pointer, and a list holds only
    allocated objects. *)
Definition obj_ok (h : heap) (o : obj) : Prop :=
  match o with OList xs => Forall (fun x => is_Some (h_objs h !! x)) xs | ODict _ => True end.

Definition heap_wf (h : heap) : Prop :=
  map_Forall (fun l o => (l < h_next h)%N /\ obj_ok h o) (h_objs h).

#[export] Instance obj_ok_dec h o : Decision (obj_ok h o).
Proof. destruct o; simpl; apply _. Defined.

#[export] Instance heap_wf_dec h : Decision (heap_wf h).
Proof. unfold heap_wf. apply _. Defined.

(** ** Lemmas *)

Lemma alloc_run o h :
  alloc o h = (Ret (h_next h), mkHeap (<[h_next h := o]> (h_objs h)) (N.succ (h_next h))).
Proof. reflexivity. Qed.

Lemma read_list_run l h xs : h_objs h !! l = Some (OList xs) -> read_list l h = (Ret xs, h).
Proof. intros E. unfold read_list. st_simpl. by rewrite E. Qed.

Lemma fresh_None h : heap_wf h -> h_objs h !! h_next h = None.
Proof.
  intros Hwf. destruct (h_objs h !! h_next h) as [o|] eqn:E; [|done].
  destruct (Hwf _ _ E) as [Hlt _]. lia.
Qed.

(** Allocated objects stay allocated when a cell is added or overwritten. *)
Lemma obj_ok_insert h l o o' :
  obj_ok h o -> obj_ok (mkHeap (<[l := o']> (h_objs h)) (N.succ (h_next h))) o /\
                obj_ok (mkHeap (<[l := o']> (h_objs h)) (h_next h)) o.
Proof.
  destruct o as [d|xs]; [done|]. simpl. intros H. split; eapply Forall_impl; try exact H;
    intros x [y Hy]; destruct (decide (l = x)) as [->|Hne];
    rewrite ?lookup_insert_eq, ?lookup_insert_ne by done; eauto.
Qed.

Lemma alloc_wf o h :
  heap_wf h -> obj_ok h o -> heap_wf (alloc o h).2.
Proof.
  intros Hwf Ho. rewrite alloc_run. intros l o' Hl. simpl in Hl.
  destruct (decide (h_next h = l)) as [<-|Hne].
  - rewrite lookup_insert_eq in Hl. injection Hl as <-. split; [simpl; lia|].
    apply (obj_ok_insert h _ o o Ho).
  - rewrite lookup_insert_ne in Hl by done. destruct (Hwf _ _ Hl) as [Hlt Hok].
    split; [simpl; lia|]. apply (obj_ok_insert h _ o' o Hok).
Qed.

Lemma write_wf l o h :
  heap_wf h -> is_Some (h_objs h !! l) -> obj_ok h o -> heap_wf (write l o h).2.
Proof.
  intros Hwf [o0 Hl0] Ho l' o' Hl. simpl in Hl.
  destruct (decide (l = l')) as [<-|Hne].
  - rewrite lookup_insert_eq in Hl. injection Hl as <-. split; [apply (Hwf _ _ Hl0)|].
    apply (obj_ok_insert h _ o o Ho).
  - rewrite lookup_insert_ne in Hl by done. destruct (Hwf _ _ Hl) as [Hlt Hok].
    split; [done|]. apply (obj_ok_insert h _ o' o Hok).
Qed.

(** The store as seen after a write or an allocation elsewhere. *)
Lemma stored_insert_ne r l o h n :
  l <> _store r -> stored r (mkHeap (<[l := o]> (h_objs h)) n) = stored r h.
Proof. intros Hne. unfold stored. simpl. by rewrite lookup_insert_ne. Qed.

Lemma alloc_stored r o h : heap_wf h -> stored r h <> None -> stored r (alloc o h).2 = stored r h.
Proof.
  intros Hwf Hs. rewrite alloc_run. apply stored_insert_ne. intros E.
  unfold stored in Hs. rewrite <- E, fresh_None in Hs by done. done.
Qed.

(** [lst.append(x)] and [d[k] = v]: a failing call changes nothing, a
    call that returns writes its own object. *)
Lemma list_append_cases l x h :
  (list_append l x h).2 = h \/
  exists ys, h_objs h !! l = Some (OList ys) /\
             (list_append l x h).2 = mkHeap (<[l := OList (ys ++ [x])%list]> (h_objs h)) (h_next h).
Proof.
  unfold list_append, read_list, write. st_simpl.
  destruct (h_objs h !! l) as [[|ys]|] eqn:E; [by left|right; eauto|by left].
Qed.

Lemma list_append_wf l x h :
  heap_wf h -> is_Some (h_objs h !! x) -> heap_wf (list_append l x h).2.
Proof.
  intros Hwf Hx. destruct (list_append_cases l x h) as [->|(ys & E & ->)]; [done|].
  change (heap_wf (write l (OList (ys ++ [x])) h).2). apply write_wf; [done|by eexists|].
  pose proof (proj2 (Hwf _ _ E)) as Hys. simpl in *. apply Forall_app. by split; [|constructor].
Qed.

Lemma repo_all_wf r h : heap_wf h -> heap_wf (repo_all r h).2.
Proof.
  intros Hwf. unfold repo_all, read_list. st_simpl.
  destruct (h_objs h !! _store r) as [[|xs]|] eqn:E; try done.
  apply alloc_wf; [done|]. apply (proj2 (Hwf _ _ E)).
Qed.

Lemma repo_all_stored r h : heap_wf h -> stored r h <> None -> stored r (repo_all r h).2 = stored r h.
Proof.
  intros Hwf Hs. unfold repo_all, read_list. st_simpl.
  destruct (h_objs h !! _store r) as [[|xs]|] eqn:E; try done. by apply alloc_stored.
Qed.

(** ** Theorems *)

(** [repo_save] on a repository with a store: one write of the store list. *)
Lemma repo_save_run r data h xs :
  stored r h = Some xs ->
  repo_save r data h = (Ret tt, mkHeap (<[_store r := OList (xs ++ [data])%list]> (h_objs h)) (h_next h)) /\
  stored r (repo_save r data h).2 = Some (xs ++ [data])%list.
Proof.
  unfold stored. destruct (h_objs h !! _store r) as [[|ys]|] eqn:E; try discriminate.
  intros [= ->]. unfold repo_save, list_append. rewrite (st_bind_run (read_list _)).
  rewrite (read_list_run _ _ xs E). simpl. by rewrite lookup_insert_eq.
Qed.

(** C12: [save(data)] appends the object [data] itself to the store and
    changes no other object. *)
Theorem repo_save_spec r data h xs :
  stored r h = Some xs ->
  repo_save r data h = (Ret tt, mkHeap (<[_store r := OList (xs ++ [data])%list]> (h_objs h)) (h_next h)) /\
  stored r (repo_save r data h).2 = Some (xs ++ [data])%list.
Proof. apply repo_save_run. Qed.

(** C26: [all()] returns a new list, distinct from the store, holding the
    stored objects in order; appending to it leaves the store as it was. *)
Theorem repo_all_fresh r h xs x :
  heap_wf h -> stored r h = Some xs ->
  let '(res, h1) := repo_all r h in
  res = Ret (h_next h) /\ h_next h <> _store r /\
  h_objs h1 !! h_next h = Some (OList xs) /\
  stored r (list_append (h_next h) x h1).2 = Some xs.
Proof.
  intros Hwf. unfold stored. destruct (h_objs h !! _store r) as [[|ys]|] eqn:E; try discriminate.
  intros [= ->]. unfold repo_all. rewrite (st_bind_run (read_list _)), (read_list_run _ _ xs E).
  cbv beta iota. rewrite alloc_run. cbv beta iota. cbn [h_objs h_next].
  assert (Hne : h_next h <> _store r) by (intros Heq; rewrite <- Heq, fresh_None in E; done).
  split_and!; [done|done|by rewrite lookup_insert_eq|].
  unfold list_append. rewrite (st_bind_run (read_list _)), (read_list_run _ _ xs); simpl;
    [|by rewrite lookup_insert_eq].
  rewrite lookup_insert_ne, lookup_insert_ne, E by done. done.
Qed.

(** the repository's operations keep the heap well formed: every
    list, the store and the copies [all] returns, holds only allocated
    objects. *)
Theorem repository_preserves_wf r d h :
  heap_wf h -> is_Some (h_objs h !! d) -> stored r h <> None ->
  heap_wf (repo_save r d h).2 /\ heap_wf (repo_all r h).2 /\ heap_wf (new_repository h).2.
Proof.
  intros Hwf Hd Hs. unfold stored in Hs.
  destruct (h_objs h !! _store r) as [[|xs]|] eqn:E; try done.
  pose proof (proj2 (Hwf _ _ E)) as Hxs. simpl in Hxs.
  split_and!; [by apply list_append_wf|by apply repo_all_wf|].
  - unfold new_repository. rewrite (st_bind_run (alloc _)), alloc_run. simpl.
    apply (alloc_wf (OList []) h Hwf). constructor.
Qed.

(** ** The integration tests *)

(** [tests/integration/test_db_gateway.py]: a new repository, one record
    saved, then [all()]. *)
Definition test_save_and_retrieve : py (loc * list loc) :=
  repo ← new_repository;
  record ← alloc (ODict [("id", VInt 1); ("name", VStr "Record")]);
  _ ← repo_save repo record;
  all_records ← repo_all repo;
  xs ← read_list all_records;
  mret (record, xs).

(** The test's two assertions: the record is among [all()], which has
    one element. *)
Lemma test_save_and_retrieve_run : (test_save_and_retrieve empty_heap).1 = Ret (1%N, [1%N]).
Proof. reflexivity. Qed.

Lemma repo_save_spec_witness :
  stored (mkRepo 0) (new_repository empty_heap).2 = Some [] /\
  stored (mkRepo 0) (repo_save (mkRepo 0) 1 (new_repository empty_heap).2).2 = Some [1%N].
Proof.
  split; [reflexivity|]. apply (repo_save_spec (mkRepo 0) 1 _ []). reflexivity.
Defined.

(** The heap after a repository is created and a dict saved in it. *)
Definition heap_saved : heap :=
  Eval vm_compute in (repo_save (mkRepo 0) 1 (alloc (ODict []) (new_repository empty_heap).2).2).2.

Lemma heap_saved_wf : heap_wf heap_saved.
Proof. apply (bool_decide_unpack _). vm_compute. reflexivity. Qed.

Lemma repo_all_fresh_witness :
  let '(res, h1) := repo_all (mkRepo 0) heap_saved in
  res = Ret (h_next heap_saved) /\ h_next heap_saved <> _store (mkRepo 0) /\
  h_objs h1 !! h_next heap_saved = Some (OList [1%N]) /\
  stored (mkRepo 0) (list_append (h_next heap_saved) 1%N h1).2 = Some [1%N].
Proof. apply repo_all_fresh; [apply heap_saved_wf|reflexivity]. Defined.

Lemma repository_preserves_wf_witness :
  heap_wf (repo_save (mkRepo 0) 1 (alloc (ODict []) (new_repository empty_heap).2).2).2 /\
  heap_wf (repo_all (mkRepo 0) (alloc (ODict []) (new_repository empty_heap).2).2).2 /\
  heap_wf (new_repository (alloc (ODict []) (new_repository empty_heap).2).2).2.
Proof.
  apply repository_preserves_wf; [|by eexists|discriminate].
  apply (bool_decide_unpack _). vm_compute. reflexivity.
Defined.

End Repository.
