(* ===== verification/Example.v ===== *)
(** * The example slice: entity, use case, CLI adapter and command group

    [domain/example_entity.py] (lines 10-21): a frozen dataclass with an
    [id] and a [name]; [application/example_use_case.py] (lines 8-27):
    [execute] builds one; [adapters/cli_adapter.py] (lines 11-23): the
    [click] command that parses an integer [ID] and a [NAME], runs the use
    case and echoes the entity; [cli/main.py] (lines 9-20): the [click]
    group that registers it under the name [example].

    The dataclass methods are written out as Python generates them
    ([__repr__] from the fields, [__setattr__] of a frozen instance
    raising [FrozenInstanceError], a subclass of [AttributeError]),
    [__eq__] comparing the field tuples and [__hash__] returning
    [hash((self.id, self.name))] with CPython's hashes of [PyHash].
    [click] is modelled for the one command of this program (click 8):
    the parser treats any token of two or more characters that starts
    with a dash as an option, until a [--]; eager [--help] is handled
    before the parameters; [ID] is converted with [int()] before [NAME]
    is looked for; extra arguments are reported last.  Help texts and
    the exact error messages are not modelled. *)

From S2P Require Import Prelude PyStr PyHash.
From Stdlib Require Import DecimalString.
Local Open Scope string_scope.

Module Example.

(** ** [ExampleEntity] and [ExampleUseCase] *)

Record ExampleEntity := mkEntity { id : Z; name : string }.

#[export] Instance ExampleEntity_eq_dec : EqDecision ExampleEntity.
Proof. solve_decision. Defined.

(** [__repr__]: [ExampleEntity(id=..., name=...)] with [repr] of each
    field. *)
Definition entity_repr (e : ExampleEntity) : string :=
  "ExampleEntity(id=" ++ PyStr.str_of_Z (id e) ++ ", name=" ++ PyStr.repr (name e) ++ ")".

(** Assigning a field of a frozen dataclass. *)
Definition setattr {A : Type} (e : ExampleEntity) (field : string) (v : A) : outcome ExampleEntity :=
  Raise AttributeError.

(** [__eq__] generated by [@dataclass]: the tuples [(id, name)] of two
    instances of the class compared item by item. *)
Definition entity_eq (e1 e2 : ExampleEntity) : bool :=
  Z.eqb (id e1) (id e2) && String.eqb (name e1) (name e2).

(** [__hash__] generated for [frozen=True] (with [eq=True]):
    [hash((self.id, self.name))].  The hash of a [str] is SipHash under
    the process's random key: the parameter [str_hash]. *)
Definition entity_hash (str_hash : string -> Z) (e : ExampleEntity) : Z :=
  PyHash.tuple_hash [PyHash.hash_int (id e); str_hash (name e)].

(** [ExampleUseCase().execute(id, name)] *)
Definition execute (id : Z) (name : string) : ExampleEntity := mkEntity id name.

(** ** The command [example] *)

(** [click.echo(f"Created entity: {entity}")]: the line written to
    stdout. *)
Definition adapter_main (id : Z) (name : string) : string :=
  "Created entity: " ++ entity_repr (execute id name) ++ String (Ascii.ascii_of_nat 10) EmptyString.

Inductive usage_error :=
  | NoSuchOption (token : string)
  | MissingArgument (param : string)
  | BadInteger (token : string)
  | ExtraArguments
  | NoSuchCommand (token : string)
  | MissingCommand.

(** What a run of the program does: print a line, print the help, or
    fail with a usage error (status 2). *)
Inductive cli_result :=
  | Printed (stdout : string)
  | Help
  | NoArgsHelp
  | UsageError (e : usage_error).

(** The exit status: [None] for the group run without arguments, whose
    status differs between click releases. *)
Definition exit_code (r : cli_result) : option Z :=
  match r with
  | Printed _ | Help => Some 0%Z
  | NoArgsHelp => None
  | UsageError _ => Some 2%Z
  end.

(** A token click's parser takes for an option. *)
Definition option_like (t : string) : bool :=
  match t with String "-" (String _ _) => true | _ => false end.

(** The positional arguments and the options, in order, up to a [--]
    after which everything is positional. *)
Fixpoint scan (ts : list string) : list string * list string :=
  match ts with
  | [] => ([], [])
  | t :: ts' =>
      if String.eqb t "--" then (ts', [])
      else let '(pos, opts) := scan ts' in
           if option_like t then (pos, t :: opts) else (t :: pos, opts)
  end.

(** The command [example ID NAME] of [cli_adapter.py]. *)
Definition example_cmd (args : list string) : cli_result :=
  let '(pos, opts) := scan args in
  match List.find (fun o => negb (String.eqb o "--help")) opts with
  | Some o => UsageError (NoSuchOption o)
  | None =>
      if existsb (String.eqb "--help") opts then Help
      else match pos with
           | [] => UsageError (MissingArgument "ID")
           | a :: rest =>
               match PyStr.int_of_str a with
               | None => UsageError (BadInteger a)
               | Some z =>
                   match rest with
                   | [] => UsageError (MissingArgument "NAME")
                   | [b] => Printed (adapter_main z b)
                   | _ :: _ :: _ => UsageError ExtraArguments
                   end
               end
           end
  end.

(** The subcommand a token names. *)
Definition dispatch (t : string) (rest : list string) : cli_result :=
  if String.eqb t "example" then example_cmd rest else UsageError (NoSuchCommand t).

(** The group [cli] of [cli/main.py] with its one subcommand. *)
Definition cli (argv : list string) : cli_result :=
  match argv with
  | [] => NoArgsHelp
  | t :: rest =>
      if String.eqb t "--" then
        match rest with [] => UsageError MissingCommand | c :: rest' => dispatch c rest' end
      else if String.eqb t "--help" then Help
      else if option_like t then UsageError (NoSuchOption t)
      else dispatch t rest
  end.

(** ** Lemmas *)

(** The text of a non-negative number starts with a digit, that of a
    negative one with a dash and a digit. *)
Lemma str_of_Z_shape z :
  exists c r, PyStr.is_digit c = true /\
    PyStr.str_of_Z z = (if (z <? 0)%Z then String "-" (String c r) else String c r).
Proof.
  unfold PyStr.str_of_Z. destruct z as [|p|p]; cbn [Z.ltb Z.compare Z.to_int]; unfold NilZero.string_of_int;
    match goal with |- context [NilZero.string_of_uint ?u] =>
      destruct (PyStr.uint_text u) as (_ & _ & _ & _ & (c & r & -> & Hc)) end; eauto.
Qed.

Lemma digit_not_dash c : PyStr.is_digit c = true -> c <> "-"%char.
Proof. by intros Hc ->. Qed.

(** No option, no separator: [scan] keeps the arguments. *)
Lemma scan_plain a b :
  option_like a = false -> option_like b = false -> a <> "--" -> b <> "--" -> scan [a; b] = ([a; b], []).
Proof.
  intros Ha Hb Ha' Hb'. simpl.
  rewrite (proj2 (String.eqb_neq _ _) Ha'), (proj2 (String.eqb_neq _ _) Hb'), Ha, Hb. done.
Qed.

(** An option before any [--] is the first option [scan] reports. *)
Lemma scan_option a rest :
  option_like a = true -> a <> "--" -> scan (a :: rest) = ((scan rest).1, a :: (scan rest).2).
Proof.
  intros Ha Ha'. simpl. rewrite (proj2 (String.eqb_neq _ _) Ha'). by destruct (scan rest); rewrite Ha.
Qed.

(** ** Theorems *)

(** C13: [example ID NAME] with a non-negative [ID] written by [str] and a
    [NAME] that is not an option prints [Created entity: ] and the
    [repr] of the entity with exactly that [id] and [name]. *)
Theorem cli_example_output z nm :
  (0 <= z)%Z -> option_like nm = false -> nm <> "--" ->
  cli ["example"; PyStr.str_of_Z z; nm] = Printed (adapter_main z nm).
Proof.
  intros Hz Hnm Hnm'. destruct (str_of_Z_shape z) as (c & r & Hc & Hs).
  rewrite (proj2 (Z.ltb_ge _ _) Hz) in Hs. apply digit_not_dash in Hc.
  unfold cli, dispatch, example_cmd. cbn -[scan]. rewrite scan_plain; cycle 1.
  - rewrite Hs. destruct c as [[] [] [] [] [] [] [] []]; done.
  - done.
  - rewrite Hs. intros [= Ec _]. by destruct Hc.
  - done.
  - cbn [List.find existsb]. by rewrite PyStr.int_of_str_of_Z.
Qed.

(** C27: a negative [ID] cannot be given as such: click reads [-5] as an
    unknown option and the command fails with status 2, whatever follows;
    only after a [--] is it an argument. *)
Theorem cli_negative_id z nm :
  (z < 0)%Z ->
  cli ["example"; PyStr.str_of_Z z; nm] = UsageError (NoSuchOption (PyStr.str_of_Z z)) /\
  cli ["example"; "--"; PyStr.str_of_Z z; nm] = Printed (adapter_main z nm).
Proof.
  intros Hz. destruct (str_of_Z_shape z) as (c & r & Hc & Hs).
  rewrite (proj2 (Z.ltb_lt _ _) Hz) in Hs. apply digit_not_dash in Hc. split.
  - change (cli ["example"; PyStr.str_of_Z z; nm]) with (example_cmd [PyStr.str_of_Z z; nm]).
    unfold example_cmd. rewrite Hs.
    assert (Hne : forall u, String "-" (String c r) <> String "-" (String "-" u))
      by (intros u [= E _]; by destruct Hc).
    rewrite (scan_option (String "-" (String c r)) [nm] eq_refl ltac:(apply Hne)). cbn [List.find].
    by rewrite (proj2 (String.eqb_neq _ _) (Hne "help")).
  - change (cli ["example"; "--"; PyStr.str_of_Z z; nm])
      with (example_cmd ["--"; PyStr.str_of_Z z; nm]).
    unfold example_cmd. simpl. by rewrite PyStr.int_of_str_of_Z.
Qed.

(** for a name of plain characters the line printed is
    [Created entity: ExampleEntity(id=<id>, name='<name>')]: it contains
    the name as given. *)
Theorem adapter_main_plain z nm :
  forallb PyStr.plain_char (String.list_ascii_of_string nm) = true ->
  adapter_main z nm =
  "Created entity: ExampleEntity(id=" ++ PyStr.str_of_Z z ++ ", name='" ++ nm ++ "')" ++
  String (Ascii.ascii_of_nat 10) EmptyString.
Proof.
  intros H. unfold adapter_main, entity_repr, execute. cbn [id name].
  rewrite PyStr.repr_plain by done. rewrite <- !PyStr.string_app_assoc, !PyStr.append_String.
  rewrite <- !PyStr.string_app_assoc. reflexivity.
Qed.

(** [tests/e2e/test_cli.py]: [example 7 Seven]. *)
Lemma cli_example_output_witness :
  cli ["example"; PyStr.str_of_Z 7; "Seven"] = Printed (adapter_main 7 "Seven").
Proof. apply cli_example_output; [lia|reflexivity|discriminate]. Defined.

Lemma cli_negative_id_witness :
  cli ["example"; PyStr.str_of_Z (-5); "Five"] = UsageError (NoSuchOption (PyStr.str_of_Z (-5))) /\
  cli ["example"; "--"; PyStr.str_of_Z (-5); "Five"] = Printed (adapter_main (-5) "Five").
Proof. apply cli_negative_id. lia. Defined.

Lemma adapter_main_plain_witness :
  adapter_main 7 "Seven" =
  "Created entity: ExampleEntity(id=" ++ PyStr.str_of_Z 7 ++ ", name='" ++ "Seven" ++ "')" ++
  String (Ascii.ascii_of_nat 10) EmptyString.
Proof. apply adapter_main_plain. reflexivity. Defined.

End Example.
