(* ===== verification/Settings.v ===== *)
(** * [AppSettings] of [src/src/cline_project_template/config/settings.py]

    Lines 9-27: a [pydantic_settings.BaseSettings] with four fields read
    from environment variables named [APP_<field>], matched without
    regard to case.  The model follows pydantic-settings 2: the
    environment is read as the list of its variables in order, every name
    lower-cased, a later variable overriding an earlier one of the same
    lower-cased name ([env_value]); each field takes its variable when
    present and its default otherwise; a missing required field, a value that does not
    parse, and a value outside the [ge]/[le] bounds are errors, and all
    errors of one call are reported together in one [ValidationError].
    How pydantic-core parses a URL, an integer and a boolean from a
    string is library code: the three parsers are the fields of
    [Parsers]. *)

From S2P Require Import Prelude PyStr.
Local Open Scope string_scope.

Module Settings.

(** The string parsers of pydantic-core for the field types. *)
Record Parsers := mkParsers {
  parse_url : string -> option string;   (* [AnyUrl], with its normalisation *)
  parse_int : string -> option Z;        (* [int] in lax mode *)
  parse_bool : string -> option bool     (* [bool] in lax mode *)
}.

Record AppSettings := mkSettings {
  env : string;
  api_base : string;
  retry_limit : Z;
  feature_x_enabled : bool
}.

(** The errors of a [ValidationError], one per field. *)
Inductive field_error :=
  | Missing (field : string)
  | ParseError (field : string) (input : string)
  | GreaterThanEqual (field : string) (bound : Z)   (* [ge] failed *)
  | LessThanEqual (field : string) (bound : Z).     (* [le] failed *)

(** [env_prefix = "APP_"], [case_sensitive = False]: the variable of a
    field, looked up in the lower-cased environment, the last one of a
    name winning. *)
Definition env_value (environ : list (string * string)) (field : string) : option string :=
  let target := PyStr.lower ("APP_" ++ field) in
  fold_left (fun acc kv => if String.eqb (PyStr.lower kv.1) target then Some kv.2 else acc) environ None.

Section Load.
Context (ps : Parsers).

(** [Field(default=3, ge=0, le=10)] on [retry_limit]. *)
Definition check_retry (z : Z) : list field_error :=
  ((if (z <? 0)%Z then [GreaterThanEqual "retry_limit" 0] else []) ++
   (if (10 <? z)%Z then [LessThanEqual "retry_limit" 10] else []))%list.

(** A field's value or its errors. *)
Definition field {A : Type} (name : string) (parse : string -> option A) (default : option A)
    (check : A -> list field_error) (environ : list (string * string)) : list field_error + A :=
  match env_value environ name with
  | Some raw =>
      match parse raw with
      | Some v => match check v with [] => inr v | es => inl es end
      | None => inl [ParseError name raw]
      end
  | None => match default with Some v => inr v | None => inl [Missing name] end
  end.

Definition errors_of {A : Type} (r : list field_error + A) : list field_error :=
  match r with inl es => es | inr _ => [] end.

(** [AppSettings()]: the four fields in declaration order. *)
Definition load (environ : list (string * string)) : list field_error + AppSettings :=
  let e := field "env" Some (Some "dev") (fun _ => []) environ in
  let a := field "api_base" (parse_url ps) None (fun _ => []) environ in
  let r := field "retry_limit" (parse_int ps) (Some 3%Z) check_retry environ in
  let f := field "feature_x_enabled" (parse_bool ps) (Some false) (fun _ => []) environ in
  match e, a, r, f with
  | inr e, inr a, inr r, inr f => inr (mkSettings e a r f)
  | _, _, _, _ => inl (errors_of e ++ errors_of a ++ errors_of r ++ errors_of f)%list
  end.

(** ** Lemmas *)

Lemma check_retry_nil z : check_retry z = [] -> (0 <= z <= 10)%Z.
Proof.
  unfold check_retry. destruct (Z.ltb_spec z 0), (Z.ltb_spec 10 z); simpl; try discriminate. lia.
Qed.

(** A field that loads has the default, or a parsed value that passes its
    check. *)
Lemma field_inr {A : Type} name (parse : string -> option A) default check environ v :
  field name parse default check environ = inr v ->
  (env_value environ name = None /\ default = Some v) \/
  (exists raw, env_value environ name = Some raw /\ parse raw = Some v /\ check v = []).
Proof.
  unfold field. intros H. destruct (env_value environ name) as [raw|]; [right|left].
  - destruct (parse raw) as [v'|] eqn:Ep; [|discriminate].
    destruct (check v') eqn:E; [|discriminate]. injection H as <-. by exists raw.
  - destruct default; [by injection H as <-|discriminate].
Qed.

Lemma load_inr environ cfg :
  load environ = inr cfg ->
  field "retry_limit" (parse_int ps) (Some 3%Z) check_retry environ = inr (retry_limit cfg).
Proof. unfold load. cbv zeta. intros H. repeat case_match; simplify_eq; done. Qed.

(** ** Theorems *)

(** C14: whatever the environment, settings that load have a
    [retry_limit] between 0 and 10: the default 3, or a value that
    passed [ge=0] and [le=10]. *)
Theorem load_retry_bounds environ cfg :
  load environ = inr cfg -> (0 <= retry_limit cfg <= 10)%Z.
Proof.
  intros H. apply load_inr in H. apply field_inr in H as [[_ [= <-]]|(raw & _ & _ & Hc)]; [lia|].
  by apply check_retry_nil.
Qed.

(** C29: with only the API base set, to a URL that parses, the settings
    are the defaults: environment [dev], 3 retries, feature X off. *)
Theorem load_defaults environ raw u :
  env_value environ "api_base" = Some raw -> parse_url ps raw = Some u ->
  env_value environ "env" = None -> env_value environ "retry_limit" = None ->
  env_value environ "feature_x_enabled" = None ->
  load environ = inr (mkSettings "dev" u 3 false).
Proof.
  intros Ha Hu He Hr Hf. unfold load, field. by rewrite Ha, Hu, He, Hr, Hf.
Qed.

(** C28: without [APP_API_BASE] loading fails, and the error names the
    missing field, next to the errors of the other fields. *)
Theorem load_missing_api_base environ :
  env_value environ "api_base" = None ->
  exists es, load environ = inl es /\ Missing "api_base" ∈ es.
Proof.
  intros Ha. assert (Hfa : field "api_base" (parse_url ps) None (fun _ => []) environ = inl [Missing "api_base"])
    by (unfold field; by rewrite Ha).
  unfold load. cbv zeta. rewrite Hfa.
  exists (errors_of (field "env" Some (Some "dev") (fun _ => []) environ) ++ [Missing "api_base"] ++
          errors_of (field "retry_limit" (parse_int ps) (Some 3%Z) check_retry environ) ++
          errors_of (field "feature_x_enabled" (parse_bool ps) (Some false) (fun _ => []) environ))%list.
  split.
  - repeat case_match; reflexivity.
  - rewrite !elem_of_app. right. left. by apply list_elem_of_singleton.
Qed.

End Load.

(** ** Concrete parsers for the examples *)

Definition demo_parsers : Parsers :=
  mkParsers (fun s => if String.prefix "https://" s then Some s else None)
            PyStr.int_of_str
            (fun s => if String.eqb (PyStr.lower s) "true" then Some true
                      else if String.eqb (PyStr.lower s) "false" then Some false else None).

Lemma load_retry_bounds_witness :
  load demo_parsers [("app_api_base", "https://api.example.com"); ("APP_RETRY_LIMIT", "7")]
    = inr (mkSettings "dev" "https://api.example.com" 7 false) /\
  (0 <= retry_limit (mkSettings "dev" "https://api.example.com" 7 false) <= 10)%Z.
Proof.
  split; [reflexivity|].
  apply (load_retry_bounds demo_parsers [("app_api_base", "https://api.example.com"); ("APP_RETRY_LIMIT", "7")]).
  reflexivity.
Defined.

Lemma load_defaults_witness :
  load demo_parsers [("APP_API_BASE", "https://api.example.com")]
  = inr (mkSettings "dev" "https://api.example.com" 3 false).
Proof. apply load_defaults with (raw := "https://api.example.com"); reflexivity. Defined.

Lemma load_missing_api_base_witness :
  exists es, load demo_parsers [("APP_RETRY_LIMIT", "11")] = inl es /\ Missing "api_base" ∈ es.
Proof. apply load_missing_api_base. reflexivity. Defined.

End Settings.
