(* ===== verification/Integration.v ===== *)
(** * The integration test of the use case with the repository

    [src/tests/integration/test_use_case_with_repo.py] (lines 9-18)
    composes two components: [ExampleUseCase.execute] builds an entity
    ([Example]), the test turns it into a dict and [save]s it in a new
    [InMemoryExampleRepository] ([Repository]), then reads [all()].  The
    composition is modelled on the heap of [Repository], for every [id]
    and [name] and from every heap the process may have built before. *)

From S2P Require Import Prelude PyStr PyVal Example Repository.
Local Open Scope string_scope.

Module Integration.
Import PyVal Repository.

(** The dict of line 15: [{"id": entity.id, "name": entity.name}]. *)
Definition entity_dict (e : Example.ExampleEntity) : obj :=
  ODict [("id", VInt (Example.id e)); ("name", VStr (Example.name e))].

(** Lines 11-17: the repository, the use case, [save], [all()]; the
    result is the list [all()] returns. *)
Definition use_case_with_repo (id : Z) (name : string) : py (list loc) :=
  repo ← new_repository;
  let entity := Example.execute id name in
  d ← alloc (entity_dict entity);
  _ ← repo_save repo d;
  all_records ← repo_all repo;
  read_list all_records.

(** ** Theorems *)

(** The fresh locations of one run are distinct. *)
#[local] Hint Extern 1 (@eq N _ _ -> False) => lia : simpl_map.

(** C22: the use case and the repository compose as the test expects,
    for every [id] and [name] and on any heap: [all()] lists exactly one
    object, the dict [{"id": id, "name": name}] the test looks for (its
    items equal, in order, to those of the test's literal, so [in] finds
    it). *)
Theorem use_case_with_repo_stores id name h :
  exists d h',
    use_case_with_repo id name h = (Ret [d], h') /\
    h_objs h' !! d = Some (ODict [("id", VInt id); ("name", VStr name)]).
Proof.
  unfold use_case_with_repo, new_repository, repo_save, list_append, repo_all, read_list, write, alloc.
  st_simpl. cbn [h_objs h_next _store]. repeat (simplify_map_eq; cbn).
  eexists _, _. split; [reflexivity|]. simpl. by simplify_map_eq.
Qed.

(** The test's own values. *)
Lemma use_case_with_repo_stores_witness :
  exists d h',
    use_case_with_repo 42 "Persisted" empty_heap = (Ret [d], h') /\
    h_objs h' !! d = Some (ODict [("id", VInt 42); ("name", VStr "Persisted")]).
Proof. apply use_case_with_repo_stores. Defined.

End Integration.
